(** * Knowledge-distillation driver: checkpointing, training loop, evaluation

    A shallow embedding of [src/model_distiller.py].  The functions of the
    script ([load_ckpt], [get_model], [save_ckpt], [distill_one_epoch],
    [evaluate], [distill], [main]) are written in a small state-and-exception monad over the
    state of the Python process: the checkpoint files on disk (shared with
    the other processes of the run), the global thread count, the autograd
    switch, the rank of the process, whether the process group of
    [torch.distributed] is initialised, the sequence of calls made into the
    deep-learning framework, and the printed lines.

    Tensors, optimizers and schedulers belong to the framework; they are kept
    abstract (class [Tensors]) and their operations are the fields of class
    [Framework].  Python floats are read as rationals ([Q]): every finite
    float is a rational and [<], [<=] agree on them. *)

From stdpp Require Import gmap strings list.
From Stdlib Require Import QArith Lia.

Local Open Scope Z_scope.

(** ** Exceptions and the monad *)

Inductive exn :=
  | KeyError (key : string)
  | ValueError
  | ZeroDivisionError
  | FileNotFoundError (path : string)
  (* torch.distributed: 'Default process group has not been initialized' *)
  | ProcessGroupError.

Inductive result (A : Type) :=
  | Ok (a : A)
  | Raise (e : exn).
Arguments Ok {A} a.
Arguments Raise {A} e.

(** ** What the framework provides *)

Class Tensors := {
  Weights : Type;      (* parameters and buffers of a module *)
  Grads : Type;        (* the [.grad] fields of the parameters *)
  StateDict : Type;    (* what [module.state_dict()] returns *)
  Optimizer : Type;
  OptimState : Type;   (* what [optimizer.state_dict()] returns *)
  Scheduler : Type;
  SchedState : Type;   (* what [lr_scheduler.state_dict()] returns *)
  Loss : Type;
  Image : Type;
  Scores : Type;       (* one row of the model output: a score per class *)
  Criterion : Type;    (* train_config['criterion'] *)
  OptimConfig : Type;  (* train_config['optimizer']: 'type' and 'params' *)
  SchedConfig : Type;  (* train_config['scheduler']: 'type' and 'params' *)
}.

Section Distiller.
Context `{T : Tensors}.

(** A model object is a module, possibly wrapped for multi-device runs.
    [isinstance(model, DistributedDataParallel)] is [wrap model =
    DistributedDataParallel], and [model.module] is [module model]. *)
Inductive wrapper := Bare | DataParallel | DistributedDataParallel.

Record nn_model := Model {
  wrap : wrapper;
  weights : Weights;
  grads : Grads;
  training : bool;     (* [model.training], set by [.train()] / [.eval()] *)
}.

Definition is_ddp (m : nn_model) : bool :=
  match wrap m with DistributedDataParallel => true | _ => false end.

Definition module (m : nn_model) : nn_model :=
  {| wrap := Bare; weights := weights m; grads := grads m; training := training m |}.

Definition set_training (b : bool) (m : nn_model) : nn_model :=
  {| wrap := wrap m; weights := weights m; grads := grads m; training := b |}.

(** A batch is what a data loader yields: images with their labels, so
    [image.shape[0]] and [target.shape[0]] are both [length batch]. *)
Definition batch : Type := list (Image * nat).

(** A data loader yields [batches] in this process.  With a distributed
    sampler the data set is split over the workers; [peer_batches] are the
    shards the other workers iterate over (empty when not distributed). *)
Record loader := DataLoader {
  batches : list batch;
  peer_batches : list (list batch);
}.

Class Framework := {
  state_dict : nn_model → StateDict;
  load_state_dict : StateDict → bool → nn_model → nn_model;
  optimizer_state_dict : Optimizer → OptimState;
  optimizer_load_state_dict : OptimState → Optimizer → Optimizer;
  scheduler_state_dict : Scheduler → SchedState;
  scheduler_load_state_dict : SchedState → Scheduler → Scheduler;
  (* func_util.get_optimizer / func_util.get_scheduler *)
  get_optimizer : nn_model → OptimConfig → Optimizer;
  get_scheduler : Optimizer → SchedConfig → Scheduler;
  (* DistillationBox.__call__: the loss, and the student after its forward
     pass in train mode *)
  box_forward : Criterion → nn_model → nn_model → batch → Loss * nn_model;
  (* optimizer.zero_grad() clears the gradients of the student *)
  zero_grad : Optimizer → nn_model → nn_model;
  (* loss.backward() *)
  backward : Loss → nn_model → nn_model;
  (* apex: [with amp.scale_loss(loss, optimizer) as scaled_loss] and the
     unscaling done when the block is left *)
  amp_scale_loss : Loss → Optimizer → Loss;
  amp_unscale : Optimizer → nn_model → Optimizer * nn_model;
  optimizer_step : Optimizer → nn_model → Optimizer * nn_model;
  scheduler_step : Scheduler → Optimizer → Scheduler * Optimizer;
  (* model(image) in eval mode, one row per sample *)
  predict : nn_model → Image → Scores;
  (* whether the label is among the k highest-scored classes of the row *)
  in_topk : nat → Scores → nat → bool;
}.
Context `{F : Framework}.

(** ** Configuration, arguments, checkpoints *)

Record train_config := TrainConfig {
  criterion : Criterion;      (* train_config['criterion'] *)
  optimizer_config : OptimConfig;
  scheduler_config : SchedConfig;
  interval : Z;               (* train_config['interval'] *)
  epoch : Z;                  (* train_config['epoch'] *)
}.

Record config := Config {
  train : train_config;       (* config['train'] *)
  mimic_model_ckpt : string;  (* config['mimic_model']['ckpt'] *)
}.

(** The namespace built by [get_argparser]. *)
Record args := Args {
  arg_config : string;
  arg_device : string;
  arg_start_epoch : Z;
  sync_bn : bool;
  test_only : bool;
  student_only : bool;
  apex : bool;
  apex_opt_level : string;
  world_size : Z;
  dist_url : string;
}.

(** A checkpoint file holds a Python dict; each of the six keys the script
    uses may be present or not. *)
Record ckpt := Ckpt {
  ck_model : option StateDict;
  ck_optimizer : option OptimState;
  ck_best_value : option Q;
  ck_lr_scheduler : option SchedState;
  ck_config : option config;
  ck_args : option args;
}.

(** ** The state of the process *)

Inductive header :=
  | HeaderEpoch (epoch : Z)          (* 'Epoch: [{}]'.format(epoch) *)
  | HeaderSplit (split_name : string). (* '{}:'.format(split_name) *)

(** Calls into the framework, in the order they are made. *)
Inductive event :=
  | EvSetEpoch (epoch : Z)           (* train_data_loader.sampler.set_epoch *)
  | EvLogEvery (h : header) (interval : Z) (* metric_logger.log_every *)
  | EvBoxForward (b : batch)         (* distillation_box(sample_batch, targets) *)
  | EvZeroGrad                       (* optimizer.zero_grad() *)
  | EvBackward (scaled : bool)       (* loss.backward(), scaled under apex *)
  | EvOptimizerStep                  (* optimizer.step() *)
  | EvModelForward (grad : bool) (image : list Image) (* model(image), with the autograd switch *)
  | EvSynchronize                    (* metric_logger.synchronize_between_processes() *)
  | EvMakeParentDirs (path : string) (* file_util.make_parent_dirs *)
  | EvTorchSave (path : string) (c : ckpt) (* torch.save *)
  | EvTorchLoad (path : string)      (* torch.load *)
  | EvSchedulerStep                  (* lr_scheduler.step() *)
  | EvBarrier.                       (* dist.barrier() *)

(** Lines printed to standard output. *)
Inductive message :=
  | MsgCkptNotFound (path : string)
  | MsgLoadingModel
  | MsgLoadingOptimizer
  | MsgLoadingScheduler
  | MsgTitle (title : string)
  | MsgAcc (top1 top5 : Q)
  | MsgStart
  | MsgUpdatingCkpt (old new : Q)
  | MsgTrainingTime.

(** The state of one process of the run.  The disk is shared with the
    other processes: [fs] holds the checkpoint files as this process has
    found or written them, and [peer_writes] the files the other processes
    write while this one runs, which it sees once all processes have met
    at a barrier. *)
Record world := World {
  fs : gmap string ckpt;   (* the checkpoint files on disk *)
  num_threads : Z;         (* torch.get_num_threads() *)
  grad_enabled : bool;     (* torch.is_grad_enabled() *)
  main_process : bool;     (* main_util.is_main_process() *)
  trace : list event;      (* oldest first *)
  stdout : list message;   (* oldest first *)
  process_group : bool;    (* torch.distributed.is_initialized() *)
  peer_writes : gmap string ckpt; (* written by the other processes *)
}.

Definition M (A : Type) : Type := world → result (A * world).

#[export] Instance M_ret : MRet M := λ A a w, Ok (a, w).
#[export] Instance M_bind : MBind M := λ A B f m w,
  match m w with
  | Ok (a, w') => f a w'
  | Raise e => Raise e
  end.

Definition raise {A} (e : exn) : M A := λ _, Raise e.

(** Python's [for x in xs: body], threading the variables the body assigns. *)
Fixpoint for_each {A S} (xs : list A) (s : S) (body : S → A → M S) : M S :=
  match xs with
  | [] => mret s
  | x :: xs' => s' ← body s x; for_each xs' s' body
  end.

(** The world after further framework calls and printed lines. *)
Definition extend (evs : list event) (out : list message) (w : world) : world :=
  {| fs := fs w; num_threads := num_threads w; grad_enabled := grad_enabled w;
     main_process := main_process w; trace := trace w ++ evs;
     stdout := stdout w ++ out;
     process_group := process_group w; peer_writes := peer_writes w |}.

(** The world after a checkpoint file has been written. *)
Definition put_file (path : string) (c : ckpt) (w : world) : world :=
  {| fs := <[path := c]> (fs w); num_threads := num_threads w;
     grad_enabled := grad_enabled w; main_process := main_process w;
     trace := trace w; stdout := stdout w;
     process_group := process_group w; peer_writes := peer_writes w |}.

Definition emit (e : event) : M unit := λ w, Ok (tt, extend [e] [] w).

Definition print (m : message) : M unit := λ w, Ok (tt, extend [] [m] w).

Definition get_num_threads : M Z := λ w, Ok (num_threads w, w).

Definition set_num_threads (n : Z) : M unit := λ w,
  Ok (tt, {| fs := fs w; num_threads := n; grad_enabled := grad_enabled w;
             main_process := main_process w; trace := trace w; stdout := stdout w;
             process_group := process_group w; peer_writes := peer_writes w |}).

Definition is_grad_enabled : M bool := λ w, Ok (grad_enabled w, w).

Definition set_grad_enabled (b : bool) : M unit := λ w,
  Ok (tt, {| fs := fs w; num_threads := num_threads w; grad_enabled := b;
             main_process := main_process w; trace := trace w; stdout := stdout w;
             process_group := process_group w; peer_writes := peer_writes w |}).

(** [torch.no_grad()], as a decorator or a [with] block: the previous mode
    comes back when the block is left (the world of a raised exception is
    not kept). *)
Definition no_grad {A} (body : M A) : M A :=
  prev ← is_grad_enabled;
  set_grad_enabled false;;
  a ← body;
  set_grad_enabled prev;;
  mret a.

(** Modelled from the spec: [main_util.is_main_process] is not among the
    sources; it tells whether this worker is the main one. *)
Definition is_main_process : M bool := λ w, Ok (main_process w, w).

(** Modelled from the spec: [file_util.check_if_exists] is not among the
    sources; it tells whether a file is stored at the path. *)
Definition check_if_exists (path : string) : M bool := λ w,
  Ok (bool_decide (is_Some (fs w !! path)), w).

Definition read_file (path : string) : M ckpt := λ w,
  match fs w !! path with
  | Some c => Ok (c, w)
  | None => Raise (FileNotFoundError path)
  end.

Definition write_file (path : string) (c : ckpt) : M unit := λ w,
  Ok (tt, put_file path c w).

Definition torch_load (path : string) : M ckpt :=
  emit (EvTorchLoad path);;
  read_file path.

Definition torch_save (c : ckpt) (path : string) : M unit :=
  emit (EvTorchSave path c);;
  write_file path c.

(** Modelled from the spec: [main_util.save_on_master] is not among the
    sources; it serializes the snapshot to the path with [torch.save], on
    the main process only. *)
Definition save_on_master (c : ckpt) (path : string) : M unit :=
  main ← is_main_process;
  if main : bool then torch_save c path else mret tt.

(** [d[key]] on a dict that may lack the key. *)
Definition getitem {A} (key : string) (entry : option A) : M A :=
  match entry with
  | Some a => mret a
  | None => raise (KeyError key)
  end.

(** ** Meters *)

(** Modelled from the spec: [structure.logger.SmoothedValue] is not among
    the sources.  A meter tracks a running average: it keeps the sum of the
    values, each weighted by its [n], and the number of samples. *)
Record smoothed_value := SmoothedValue {
  total : Q;
  count : Z;
}.

(** Modelled from the spec: [SmoothedValue.update(value, n)]. *)
Definition update (value : Q) (n : Z) (sv : smoothed_value) : smoothed_value :=
  {| total := (total sv + value * inject_Z n)%Q; count := count sv + n |}.

(** Modelled from the spec: [SmoothedValue.global_avg], the sum divided by
    the number of samples; a division, so it raises on a meter that saw no
    sample. *)
Definition global_avg (sv : smoothed_value) : M Q :=
  if count sv =? 0 then raise ZeroDivisionError
  else mret (total sv / inject_Z (count sv))%Q.

(** Modelled from the spec: two meters aggregated across workers. *)
Definition merge (a b : smoothed_value) : smoothed_value :=
  {| total := (total a + total b)%Q; count := count a + count b |}.

(** Modelled from the spec: [structure.logger.MetricLogger] is not among
    the sources.  Of its meters, the two [evaluate] touches:
    [meters['acc1']] and [meters['acc5']]. *)
Record meters := MetricLogger {
  acc1 : smoothed_value;
  acc5 : smoothed_value;
}.

Definition new_metric_logger : meters :=
  {| acc1 := SmoothedValue 0 0; acc5 := SmoothedValue 0 0 |}.

(** Modelled from the spec: [MetricLogger.log_every(iterable, interval,
    header)] yields the items of the iterable and logs the running metrics
    every [interval] items. *)
Definition log_every (iterable : loader) (interval : Z) (h : header)
  : M (list batch) :=
  emit (EvLogEvery h interval);;
  mret (batches iterable).

(** Modelled from the spec: the samples of a batch whose true label is
    among the k highest-scored predictions. *)
Definition correct (k : nat) (output : list Scores) (target : list nat) : nat :=
  length (filter (λ st, in_topk k st.1 st.2) (zip output target)).

(** Modelled from the spec: [main_util.compute_accuracy] is not among the
    sources.  Top-k accuracy of a batch is the fraction of its samples whose
    true label is among the k highest-scored predictions. *)
Definition compute_accuracy (output : list Scores) (target : list nat) (k : nat) : Q :=
  (inject_Z (Z.of_nat (correct k output target)) /
   inject_Z (Z.of_nat (length target)))%Q.

(** Lines 121-126 of [evaluate], on the output of the model. *)
Definition record_accuracy (metric_logger : meters)
    (output : list Scores) (target : list nat) (batch_size : Z) : meters :=
  let acc1_ := compute_accuracy output target 1 in
  let acc5_ := compute_accuracy output target 5 in
  {| acc1 := update acc1_ batch_size (acc1 metric_logger);
     acc5 := update acc5_ batch_size (acc5 metric_logger) |}.

(** What a worker holding the same model accumulates over its shard. *)
Definition shard_meters (m : nn_model) (shard : list batch) : meters :=
  foldl (λ ml b, record_accuracy ml (predict m <$> b.*1) b.*2 (Z.of_nat (length b.*1)))
        new_metric_logger shard.

(** Modelled from the spec: [MetricLogger.synchronize_between_processes]
    aggregates the meters across the distributed workers; the others hold
    what [shard_meters] gives on their shards. *)
Definition synchronize_between_processes (m : nn_model) (peers : list (list batch))
    (metric_logger : meters) : M meters :=
  emit EvSynchronize;;
  mret (foldl (λ ml shard,
                 let other := shard_meters m shard in
                 {| acc1 := merge (acc1 ml) (acc1 other);
                    acc5 := merge (acc5 ml) (acc5 other) |})
              metric_logger peers).

(** ** Framework calls as actions *)

Record dbox := DistillationBox {
  teacher_model : nn_model;
  student_model : nn_model;
  box_criterion : Criterion;
}.

Definition with_student (box : dbox) (m : nn_model) : dbox :=
  {| teacher_model := teacher_model box; student_model := m;
     box_criterion := box_criterion box |}.

Definition call_box (box : dbox) (b : batch) : M (Loss * dbox) :=
  emit (EvBoxForward b);;
  let '(loss, student) :=
    box_forward (box_criterion box) (teacher_model box) (student_model box) b in
  mret (loss, with_student box student).

Definition call_zero_grad (optimizer : Optimizer) (box : dbox)
  : M dbox :=
  emit EvZeroGrad;;
  mret (with_student box (zero_grad optimizer (student_model box))).

Definition call_backward (loss : Loss) (box : dbox) : M dbox :=
  emit (EvBackward false);;
  mret (with_student box (backward loss (student_model box))).

Definition call_scaled_backward (loss : Loss) (optimizer : Optimizer)
    (box : dbox) : M (dbox * Optimizer) :=
  emit (EvBackward true);;
  let scaled_loss := amp_scale_loss loss optimizer in
  let student := backward scaled_loss (student_model box) in
  let '(optimizer, student) := amp_unscale optimizer student in
  mret (with_student box student, optimizer).

Definition call_step (optimizer : Optimizer) (box : dbox)
  : M (dbox * Optimizer) :=
  emit EvOptimizerStep;;
  let '(optimizer, student) := optimizer_step optimizer (student_model box) in
  mret (with_student box student, optimizer).

Definition call_scheduler_step (lr_scheduler : Scheduler) (optimizer : Optimizer)
  : M (Scheduler * Optimizer) :=
  emit EvSchedulerStep;;
  mret (scheduler_step lr_scheduler optimizer).

Definition call_model (m : nn_model) (image : list Image) : M (list Scores) :=
  grad ← is_grad_enabled;
  emit (EvModelForward grad image);;
  mret (predict m <$> image).

(** Modelled from the spec: [file_util.make_parent_dirs] is not among the
    sources; it makes the directories above the path and touches no file. *)
Definition make_parent_dirs (path : string) : M unit :=
  emit (EvMakeParentDirs path).

(** The disk as this process sees it once the other processes have got as
    far: what they have written is there. *)
Definition sync_files (w : world) : world :=
  {| fs := peer_writes w ∪ fs w; num_threads := num_threads w;
     grad_enabled := grad_enabled w; main_process := main_process w;
     trace := trace w; stdout := stdout w;
     process_group := process_group w; peer_writes := peer_writes w |}.

(** [dist.barrier()]: it needs the default process group, and raises when
    [init_process_group] has not been called; otherwise the process waits
    for the others. *)
Definition barrier : M unit := λ w,
  if process_group w then Ok (tt, extend [EvBarrier] [] (sync_files w))
  else Raise ProcessGroupError.

(** What [torch.distributed.init_process_group] leaves. *)
Definition with_process_group (w : world) : world :=
  {| fs := fs w; num_threads := num_threads w; grad_enabled := grad_enabled w;
     main_process := main_process w; trace := trace w; stdout := stdout w;
     process_group := true; peer_writes := peer_writes w |}.

(** ** The functions of the script

    Python mutates the objects it is handed; here a function returns the
    objects it may have mutated, and the caller goes on with those. *)

(** What [load_ckpt] returns: the pair [(None, None)], or a triple. *)
Inductive load_result :=
  | NotFound
  | Loaded (best_value : Q) (cfg : config) (a : args).

Definition tuple_len (r : load_result) : nat :=
  match r with NotFound => 2 | Loaded _ _ _ => 3 end.

Definition load_ckpt (ckpt_file_path : string) (model : option nn_model)
    (optimizer : option Optimizer) (lr_scheduler : option Scheduler) (strict : bool)
  : M (load_result * (option nn_model * option Optimizer * option Scheduler)) :=
  found ← check_if_exists ckpt_file_path;
  if negb found then
    print (MsgCkptNotFound ckpt_file_path);;
    mret (NotFound, (model, optimizer, lr_scheduler))
  else
    ckpt ← torch_load ckpt_file_path;
    model ← match model with
            | Some m =>
                print MsgLoadingModel;;
                sd ← getitem "model" (ck_model ckpt);
                mret (Some (load_state_dict sd strict m))
            | None => mret None
            end;
    optimizer ← match optimizer with
                | Some o =>
                    print MsgLoadingOptimizer;;
                    sd ← getitem "optimizer" (ck_optimizer ckpt);
                    mret (Some (optimizer_load_state_dict sd o))
                | None => mret None
                end;
    lr_scheduler ← match lr_scheduler with
                   | Some s =>
                       print MsgLoadingScheduler;;
                       sd ← getitem "lr_scheduler" (ck_lr_scheduler ckpt);
                       mret (Some (scheduler_load_state_dict sd s))
                   | None => mret None
                   end;
    let best_value := default 0%Q (ck_best_value ckpt) in
    cfg ← getitem "config" (ck_config ckpt);
    a ← getitem "args" (ck_args ckpt);
    mret (Loaded best_value cfg a, (model, optimizer, lr_scheduler)).

Definition save_ckpt (model : nn_model) (optimizer : Optimizer) (lr_scheduler : Scheduler)
    (best_value : Q) (cfg : config) (a : args) (output_file_path : string) : M unit :=
  make_parent_dirs output_file_path;;
  let model_state_dict :=
    if is_ddp model then state_dict (module model) else state_dict model in
  save_on_master {| ck_model := Some model_state_dict;
                    ck_optimizer := Some (optimizer_state_dict optimizer);
                    ck_best_value := Some best_value;
                    ck_lr_scheduler := Some (scheduler_state_dict lr_scheduler);
                    ck_config := Some cfg;
                    ck_args := Some a |}
                 output_file_path.

(** The meters of [distill_one_epoch] (loss, lr, img/s) only feed the
    progress lines and are left out. *)
Definition distill_one_epoch (distillation_box : dbox)
    (train_data_loader : loader) (optimizer : Optimizer) (device : string)
    (epoch interval : Z) (use_apex : bool) : M (dbox * Optimizer) :=
  let h := HeaderEpoch epoch in
  items ← log_every train_data_loader interval h;
  for_each items (distillation_box, optimizer) (λ '(box, optimizer) sample_batch,
    '(loss, box) ← call_box box sample_batch;
    box ← call_zero_grad optimizer box;
    '(box, optimizer) ←
      (if use_apex then call_scaled_backward loss optimizer box
       else box ← call_backward loss box; mret (box, optimizer));
    call_step optimizer box).

Definition evaluate (model : nn_model) (data_loader : loader) (device : string)
    (interval : Z) (split_name : string) (title : option string) : M (Q * nn_model) :=
  no_grad (
    match title with
    | Some t => print (MsgTitle t)
    | None => mret tt
    end;;
    threads ← get_num_threads;
    set_num_threads 1;;
    let model := set_training false model in
    let metric_logger := new_metric_logger in
    let h := HeaderSplit split_name in
    metric_logger ← no_grad (
      items ← log_every data_loader interval h;
      for_each items metric_logger (λ metric_logger b,
        let image := b.*1 in
        let target := b.*2 in
        output ← call_model model image;
        let batch_size := Z.of_nat (length image) in
        mret (record_accuracy metric_logger output target batch_size)));
    metric_logger ← synchronize_between_processes model (peer_batches data_loader)
                      metric_logger;
    top1_accuracy ← global_avg (acc1 metric_logger);
    top5_accuracy ← global_avg (acc5 metric_logger);
    print (MsgAcc top1_accuracy top5_accuracy);;
    set_num_threads threads;;
    r ← global_avg (acc1 metric_logger);
    mret (r, model)).

(** Python's [a > b] on floats. *)
Definition Qgtb (a b : Q) : bool := negb (Qle_bool a b).

(** Python's [range(start, stop)]. *)
Definition range (start stop : Z) : list Z := seqZ start (stop - start).

(** Lines 151-154 of [distill]: the logging interval. *)
Definition log_interval (configured num_batches : Z) : Z :=
  if configured <=? 0 then
    if 20 <=? num_batches then num_batches `div` 20 else 1
  else configured.

(** [student_model.module if isinstance(student_model,
    DistributedDataParallel) else student_model].  The script takes this
    view once, before the loop; it aliases the student, so it is taken here
    from the student at the time it is used. *)
Definition without_ddp (m : nn_model) : nn_model :=
  if is_ddp m then module m else m.

(** The objects and locals the loop of [distill] works on. *)
Record distill_state := DistillState {
  st_box : dbox;                  (* holds teacher_model and student_model *)
  st_optimizer : Optimizer;
  st_lr_scheduler : Scheduler;
  best_val_top1_accuracy : Q;
}.

(** The body of the loop of [distill] (lines 160-174). *)
Definition distill_epoch (train_data_loader val_data_loader : loader)
    (device : string) (distributed : bool) (cfg : config) (a : args)
    (ckpt_file_path : string) (interval : Z)
    (st : distill_state) (epoch : Z) : M distill_state :=
  (if distributed then emit (EvSetEpoch epoch) else mret tt);;
  let box := st_box st in
  let box := {| teacher_model := set_training false (teacher_model box);
                student_model := set_training true (student_model box);
                box_criterion := box_criterion box |} in
  '(box, optimizer) ← distill_one_epoch box train_data_loader (st_optimizer st)
                        device epoch interval (apex a);
  '(val_top1_accuracy, student) ←
    evaluate (student_model box) val_data_loader device interval "Validation" None;
  let box := with_student box student in
  let best := best_val_top1_accuracy st in
  better ← (if Qgtb val_top1_accuracy best then is_main_process else mret false);
  best ← (if better : bool then
            print (MsgUpdatingCkpt best val_top1_accuracy);;
            let best := val_top1_accuracy in
            save_ckpt (without_ddp (student_model box)) optimizer (st_lr_scheduler st)
                      best cfg a ckpt_file_path;;
            mret best
          else mret best);
  '(lr_scheduler, optimizer) ← call_scheduler_step (st_lr_scheduler st) optimizer;
  mret {| st_box := box; st_optimizer := optimizer; st_lr_scheduler := lr_scheduler;
          best_val_top1_accuracy := best |}.

(** Lines 139-150 of [distill]: the objects built before the loop, and the
    resume from an existing checkpoint. *)
Definition distill_setup (teacher_model student_model : nn_model) (cfg : config)
  : M distill_state :=
  print MsgStart;;
  let train_config := train cfg in
  let distillation_box :=
    DistillationBox teacher_model student_model (criterion train_config) in
  let ckpt_file_path := mimic_model_ckpt cfg in
  let optimizer := get_optimizer student_model (optimizer_config train_config) in
  let lr_scheduler := get_scheduler optimizer (scheduler_config train_config) in
  let best_val_top1_accuracy := 0%Q in
  found ← check_if_exists ckpt_file_path;
  '(optimizer, lr_scheduler) ←
    (if found : bool then
       '(ret, (_, o, s)) ← load_ckpt ckpt_file_path None (Some optimizer)
                             (Some lr_scheduler) true;
       match ret with
       | Loaded best_val_map _ _ =>
           (* the objects handed in are the objects loaded into *)
           mret (default optimizer o, default lr_scheduler s)
       | NotFound => raise ValueError   (* unpacking a pair into three names *)
       end
     else mret (optimizer, lr_scheduler));
  mret {| st_box := distillation_box; st_optimizer := optimizer;
          st_lr_scheduler := lr_scheduler;
          best_val_top1_accuracy := best_val_top1_accuracy |}.

(** Lines 139-174 of [distill]: all of it up to the barrier. *)
Definition distill_loop (teacher_model student_model : nn_model)
    (train_data_loader val_data_loader : loader) (device : string)
    (distributed : bool) (start_epoch : Z) (cfg : config) (a : args)
  : M distill_state :=
  st ← distill_setup teacher_model student_model cfg;
  let train_config := train cfg in
  let ckpt_file_path := mimic_model_ckpt cfg in
  let interval :=
    log_interval (interval train_config)
                 (Z.of_nat (length (batches train_data_loader))) in
  for_each (range start_epoch (epoch train_config)) st
    (distill_epoch train_data_loader val_data_loader device distributed
                   cfg a ckpt_file_path interval).

(** [distill] returns nothing in Python; the state it leaves its objects
    and locals in is returned here.  The barrier of line 176 is reached in
    every run, distributed or not. *)
Definition distill (teacher_model student_model : nn_model)
    (train_data_loader val_data_loader : loader) (device : string)
    (distributed : bool) (start_epoch : Z) (cfg : config) (a : args)
  : M distill_state :=
  st ← distill_loop teacher_model student_model train_data_loader val_data_loader
         device distributed start_epoch cfg a;
  barrier;;
  print MsgTrainingTime;;
  mret st.

(** ** Building a model, and the main routine *)

(** [DataParallel(model)] and [DistributedDataParallel(model)]: the wrapper
    shares the parameters and the mode of the module it wraps. *)
Definition wrap_with (wr : wrapper) (m : nn_model) : nn_model :=
  {| wrap := wr; weights := weights m; grads := grads m; training := training m |}.

(** [load_ckpt] was handed the module of [model]; [model] is that module
    again, or the wrapper around it. *)
Definition into_wrapper (model : nn_model) (loaded : option nn_model) : nn_model :=
  match loaded with
  | Some m => if is_ddp model then wrap_with DistributedDataParallel m else m
  | None => model
  end.

Section Zoo.
(** [torchvision.models.__dict__]: the constructors by name, and what
    [SyncBatchNorm.convert_sync_batchnorm] makes of a model. *)
Context {ModelParams : Type}.
Context (zoo : string → option (ModelParams → nn_model)).
Context (convert_sync_batchnorm : nn_model → nn_model).

Record model_config := ModelConfig {
  model_type : string;          (* model_config['type'] *)
  model_params : ModelParams;   (* model_config['params'] *)
  model_ckpt : string;          (* model_config['ckpt'] *)
}.

(** [model.to(device)] moves the model and leaves its state as it is. *)
Definition get_model (mc : model_config) (device : string)
    (distributed sync_bn : bool) : M nn_model :=
  let model_name := model_type mc in
  construct ← getitem model_name (zoo model_name);
  let model := construct (model_params mc) in
  let model := if distributed && sync_bn then convert_sync_batchnorm model else model in
  let ckpt_file_path := model_ckpt mc in
  '(_, (loaded, _, _)) ← load_ckpt ckpt_file_path (Some model) None None true;
  mret (default model loaded).

End Zoo.

(** What [main] gets from the interpreter and from the helpers that are
    not among the sources.  The entries of the config other than
    [config['train']] and [config['mimic_model']['ckpt']] are read by these
    helpers only, so they take the config as a whole.  What a helper prints
    or reads on its way is not followed: the world records the calls and
    the lines of the script's own functions. *)
Record main_env := MainEnv {
  python_major : Z;                       (* sys.version_info *)
  amp_available : bool;                   (* amp is not None *)
  cuda_is_available : bool;               (* torch.cuda.is_available() *)
  (* main_util.init_distributed_mode; the device ids only go to the wrappers *)
  init_distributed_mode : Z → string → bool;
  (* whether main_util.init_distributed_mode calls init_process_group *)
  init_process_group : Z → string → bool;
  args_repr : args → string;              (* str(args) *)
  load_yaml_file : string → config;       (* yaml_util.load_yaml_file *)
  (* dataset_util.get_data_loaders: train, validation, test *)
  get_data_loaders : config → bool → loader * loader * loader;
  (* mimic_util.get_org_model: the teacher and its type *)
  get_org_model : config → string → nn_model * string;
  freeze_module_params : nn_model → nn_model;   (* module_util *)
  get_mimic_model_easily : config → string → nn_model;
  mimic_model_type : config → string;     (* config['mimic_model']['type'] *)
  amp_initialize : nn_model → Optimizer → string → nn_model * Optimizer;
}.

(** Line 190 of [main]: the helper tells whether the run is distributed,
    and may have initialised the default process group on its way. *)
Definition call_init_distributed_mode (env : main_env) (world_size : Z)
    (dist_url : string) : M bool := λ w,
  Ok (init_distributed_mode env world_size dist_url,
      if init_process_group env world_size dist_url then with_process_group w else w).

(** Lines 183-188 of [main]: the message of the RuntimeError, if any. *)
Definition check_apex (env : main_env) (a : args) : option string :=
  if apex a then
    if python_major env <? 3 then
      Some "Apex currently only supports Python 3. Aborting."
    else if negb (amp_available env) then
      Some ("Failed to import apex. Please install apex from " +:+
            "https://www.github.com/nvidia/apex to enable mixed-precision training.")
    else None
  else None.

(** Lines 190-234 of [main].  The models are returned as they are left. *)
Definition main_body (env : main_env) (a : args) : M (nn_model * nn_model) :=
  distributed ← call_init_distributed_mode env (world_size a) (dist_url a);
  print (MsgTitle (args_repr env a));;
  let cfg := load_yaml_file env (arg_config a) in
  let device := if cuda_is_available env then arg_device a else "cpu" in
  let train_config := train cfg in
  let '(train_data_loader, val_data_loader, test_data_loader) :=
    get_data_loaders env cfg distributed in
  let '(teacher_model, teacher_model_type) := get_org_model env cfg device in
  let teacher_model := freeze_module_params env teacher_model in
  let student_model := get_mimic_model_easily env cfg device in
  let optimizer := get_optimizer student_model (optimizer_config train_config) in
  let use_apex := apex a in
  let '(student_model, optimizer) :=
    if use_apex
    then amp_initialize env student_model optimizer (apex_opt_level a)
    else (student_model, optimizer) in
  let teacher_model :=
    if distributed then wrap_with DataParallel teacher_model else teacher_model in
  let student_model :=
    if distributed then wrap_with DistributedDataParallel student_model
    else student_model in
  let start_epoch := arg_start_epoch a in
  '(teacher_model, student_model) ←
    (if negb (test_only a) then
       st ← distill teacher_model student_model train_data_loader val_data_loader
              device distributed start_epoch cfg a;
       (* the objects handed to distill, as it leaves them *)
       let '(DistillationBox teacher_model student_model _) := st_box st in
       let student_model_without_ddp := without_ddp student_model in
       '(_, (loaded, _, _)) ← load_ckpt (mimic_model_ckpt cfg)
                                (Some student_model_without_ddp) None None true;
       mret (teacher_model, into_wrapper student_model loaded)
     else mret (teacher_model, student_model));
  teacher_model ←
    (if negb (student_only a) then
       '(_, m) ← evaluate teacher_model test_data_loader device 1000 "Test"
                   (Some ("[Teacher: " +:+ teacher_model_type +:+ "]"));
       mret m
     else mret teacher_model);
  '(_, student_model) ← evaluate student_model test_data_loader device 1000 "Test"
                          (Some ("[Student: " +:+ mimic_model_type env cfg +:+ "]"));
  mret (teacher_model, student_model).

(** What a call of [main] comes to. *)
Inductive outcome :=
  | RuntimeError (msg : string)
  | Ran (r : result ((nn_model * nn_model) * world)).

Definition main (env : main_env) (a : args) (w : world) : outcome :=
  match check_apex env a with
  | Some msg => RuntimeError msg
  | None => Ran (main_body env a w)
  end.

End Distiller.

(** ** The LeNet variants of [models/classification/lenet5.py]

    The two modules are sequences of layers; what is followed here is the
    shape of the tensor that goes through them: a batch of feature maps
    (N, C, H, W) through [features], a batch of vectors (N, F) through
    [classifier].  A layer that rejects its input gives [None] (the
    framework raises).  The layers are used with their default stride,
    padding and dilation. *)

Module LeNet.

Inductive layer :=
  | Conv2d (in_channels out_channels kernel_size : Z)
  | MaxPool2d (kernel_size : Z)
  | Linear (in_features out_features : Z)
  | ReLU
  | LogSoftmax (dim : Z).

Record shape4 := Shape4 { batch_size : Z; channels : Z; height : Z; width : Z }.

Record shape2 := Shape2 { num_rows : Z; num_cols : Z }.

(** A layer on a batch of feature maps.  A convolution needs the input
    channels it was built for and an input no smaller than its kernel, and
    shrinks each side by [kernel_size - 1]; a pooling layer steps by its
    kernel size and rounds down; a linear layer acts on the last
    dimension. *)
Definition on_maps (l : layer) (x : shape4) : option shape4 :=
  match l with
  | Conv2d ci co k =>
      if (channels x =? ci) && (k <=? height x) && (k <=? width x)
      then Some (Shape4 (batch_size x) co (height x - k + 1) (width x - k + 1))
      else None
  | MaxPool2d k =>
      if (k <=? height x) && (k <=? width x)
      then Some (Shape4 (batch_size x) (channels x)
                        ((height x - k) `div` k + 1) ((width x - k) `div` k + 1))
      else None
  | Linear i o =>
      if width x =? i
      then Some (Shape4 (batch_size x) (channels x) (height x) o)
      else None
  | ReLU => Some x
  | LogSoftmax d => if (-4 <=? d) && (d <? 4) then Some x else None
  end.

(** A layer on a batch of vectors; convolution and pooling reject it. *)
Definition on_rows (l : layer) (x : shape2) : option shape2 :=
  match l with
  | Conv2d _ _ _ => None
  | MaxPool2d _ => None
  | Linear i o => if num_cols x =? i then Some (Shape2 (num_rows x) o) else None
  | ReLU => Some x
  | LogSoftmax d => if (-2 <=? d) && (d <? 2) then Some x else None
  end.

(** [nn.Sequential] *)
Definition sequential {A} (apply : layer → A → option A) (ls : list layer) (x : A)
  : option A :=
  foldl (λ acc l, acc ≫= apply l) (Some x) ls.

Definition numel (x : shape4) : Z := batch_size x * channels x * height x * width x.

(** [x.view(-1, f)]: as many rows as the elements allow, if they divide. *)
Definition view_rows_of (f : Z) (x : shape4) : option shape2 :=
  if (numel x =? 0) || negb (numel x `mod` f =? 0) then None
  else Some (Shape2 (numel x `div` f) f).

(** [x.view(x.size(0), -1)]: one row per sample. *)
Definition view_per_sample (x : shape4) : option shape2 :=
  if (numel x =? 0) then None
  else Some (Shape2 (batch_size x) (numel x `div` batch_size x)).

Record net := Net {
  features : list layer;
  classifier : list layer;
}.

Definition MnistLeNet5 : net :=
  {| features := [Conv2d 1 6 5; MaxPool2d 2; Conv2d 6 16 5; MaxPool2d 2];
     classifier := [Linear (16 * 5 * 5) 120; Linear 120 84; ReLU; Linear 84 10;
                    LogSoftmax 1] |}.

Definition MnistLeNet5_forward (x : shape4) : option shape2 :=
  x ← sequential on_maps (features MnistLeNet5) x;
  x ← view_rows_of (16 * 5 * 5) x;
  sequential on_rows (classifier MnistLeNet5) x.

Definition LeNet5 (num_classes : Z) : net :=
  {| features := [Conv2d 3 6 5; ReLU; MaxPool2d 2; Conv2d 6 16 5; ReLU; MaxPool2d 2];
     classifier := [Linear (16 * 5 * 5) 120; ReLU; Linear 120 84; ReLU;
                    Linear 84 num_classes; LogSoftmax 1] |}.

Definition LeNet5_forward (num_classes : Z) (x : shape4) : option shape2 :=
  x ← sequential on_maps (features (LeNet5 num_classes)) x;
  x ← view_per_sample x;
  sequential on_rows (classifier (LeNet5 num_classes)) x.

(** The side of a feature map after [features]: two rounds of a 5x5
    convolution and a pooling by 2. *)
Definition pooled (side : Z) : Z := ((side - 4) `div` 2 - 4) `div` 2.

End LeNet.

(** ** A small framework to run the script on

    Weights, gradients and states are integers; an image is a number and
    the model scores it by adding its weight; a label is among the k best
    when the score lies in the k classes from the label on. *)

Module Toy.

#[export] Instance tensors : Tensors := {|
  Weights := Z; Grads := Z; StateDict := Z; Optimizer := Z; OptimState := Z;
  Scheduler := Z; SchedState := Z; Loss := Z; Image := nat; Scores := nat;
  Criterion := unit; OptimConfig := unit; SchedConfig := unit |}.

Definition with_weights (x : Z) (m : nn_model) : nn_model :=
  {| wrap := wrap m; weights := x; grads := grads m; training := training m |}.

Definition with_grads (g : Z) (m : nn_model) : nn_model :=
  {| wrap := wrap m; weights := weights m; grads := g; training := training m |}.

#[export] Instance framework : Framework := {|
  state_dict m := weights m;
  load_state_dict sd _ m := with_weights sd m;
  optimizer_state_dict o := o;
  optimizer_load_state_dict sd _ := sd;
  scheduler_state_dict s := s;
  scheduler_load_state_dict sd _ := sd;
  get_optimizer _ _ := 0;
  get_scheduler _ _ := 0;
  box_forward _ _ student b := (Z.of_nat (length b), student);
  zero_grad _ m := with_grads 0 m;
  backward loss m := with_grads (grads m + loss) m;
  amp_scale_loss loss _ := 2 * loss;
  amp_unscale o m := (o, with_grads (grads m `div` 2) m);
  optimizer_step o m := (o + 1, with_weights (weights m + grads m) m);
  scheduler_step s o := (s + 1, o);
  predict m x := (x + Z.to_nat (weights m))%nat;
  in_topk k s y := ((y <=? s) && (s <? y + k))%nat |}.

Definition net (x : Z) : nn_model :=
  {| wrap := Bare; weights := x; grads := 0; training := false |}.

(** One batch with one sample: each epoch adds one to the student's weight. *)
Definition train_loader : loader :=
  {| batches := [[(0%nat, 0%nat)]]; peer_batches := [] |}.

(** Two samples: with weight 1 the first is right and the second wrong;
    with weight 2 both are wrong. *)
Definition val_loader : loader :=
  {| batches := [[(0%nat, 1%nat); (5%nat, 0%nat)]]; peer_batches := [] |}.

(** The same data set split over two workers. *)
Definition sharded_loader : loader :=
  {| batches := [[(0%nat, 1%nat)]]; peer_batches := [[[(5%nat, 0%nat)]]] |}.

Definition empty_loader : loader := {| batches := []; peer_batches := [] |}.

Definition path : string := "ckpt/student.pt".

Definition cfg (epochs : Z) : config :=
  {| train := {| criterion := tt; optimizer_config := tt; scheduler_config := tt;
                 interval := 0; epoch := epochs |};
     mimic_model_ckpt := path |}.

(** The defaults of [get_argparser]. *)
Definition cli : args :=
  {| arg_config := "config.yaml"; arg_device := "cuda"; arg_start_epoch := 0;
     sync_bn := false; test_only := false; student_only := false; apex := false;
     apex_opt_level := "O1"; world_size := 1; dist_url := "env://" |}.

Definition fresh (main : bool) : world :=
  {| fs := ∅; num_threads := 4; grad_enabled := true; main_process := main;
     trace := []; stdout := []; process_group := true; peer_writes := ∅ |}.

(** A checkpoint of an earlier run, with best value 9/10. *)
Definition earlier : ckpt :=
  {| ck_model := Some 7; ck_optimizer := Some 3; ck_best_value := Some (9 # 10)%Q;
     ck_lr_scheduler := Some 3; ck_config := Some (cfg 2); ck_args := Some cli |}.

Definition resumed (main : bool) : world :=
  {| fs := {[ path := earlier ]}; num_threads := 4; grad_enabled := true;
     main_process := main; trace := []; stdout := [];
     process_group := true; peer_writes := ∅ |}.

(** A checkpoint without the optimizer state and the best value. *)
Definition partial : ckpt :=
  {| ck_model := Some 7; ck_optimizer := None; ck_best_value := None;
     ck_lr_scheduler := Some 3; ck_config := Some (cfg 2); ck_args := Some cli |}.

Definition broken (main : bool) : world :=
  {| fs := {[ path := partial ]}; num_threads := 4; grad_enabled := true;
     main_process := main; trace := []; stdout := [];
     process_group := true; peer_writes := ∅ |}.

(** One constructor by name: the model with the weight it is given. *)
Definition zoo (name : string) : option (Z → nn_model) :=
  if String.eqb name "lenet5" then Some net else None.

Definition lenet5_config : @model_config Z :=
  {| model_type := "lenet5"; model_params := 0; model_ckpt := path |}.

(** The command line with [-test_only]. *)
Definition cli_test : args :=
  {| arg_config := "config.yaml"; arg_device := "cuda"; arg_start_epoch := 0;
     sync_bn := false; test_only := true; student_only := false; apex := false;
     apex_opt_level := "O1"; world_size := 1; dist_url := "env://" |}.

(** A process started without a launcher: no process group. *)
Definition lonely (main : bool) : world :=
  {| fs := ∅; num_threads := 4; grad_enabled := true; main_process := main;
     trace := []; stdout := []; process_group := false; peer_writes := ∅ |}.

(** A worker that is not the main process, which writes the checkpoint
    of a student with the weight 1. *)
Definition worker : world :=
  {| fs := ∅; num_threads := 4; grad_enabled := true; main_process := false;
     trace := []; stdout := []; process_group := true;
     peer_writes := {[ path := {| ck_model := Some 1; ck_optimizer := Some 1;
                                  ck_best_value := Some (2 # 4)%Q;
                                  ck_lr_scheduler := Some 0;
                                  ck_config := Some (cfg 2); ck_args := Some cli |} ]} |}.

(** One process without apex and without a GPU; two epochs are configured,
    and the validation set is also the test set. *)
Definition env : main_env :=
  {| python_major := 3; amp_available := false; cuda_is_available := false;
     init_distributed_mode _ _ := false;
     init_process_group _ _ := false;
     args_repr _ := "Namespace";
     load_yaml_file _ := cfg 2;
     get_data_loaders _ _ := (train_loader, val_loader, val_loader);
     get_org_model _ _ := (net 0, "resnet");
     freeze_module_params m := m;
     get_mimic_model_easily _ _ := net 0;
     mimic_model_type _ := "lenet5";
     amp_initialize m o _ := (m, o) |}.

(** The same under a launcher: the run is distributed and the helper
    initialises the process group. *)
Definition env_dist : main_env :=
  {| python_major := 3; amp_available := false; cuda_is_available := false;
     init_distributed_mode _ _ := true;
     init_process_group _ _ := true;
     args_repr _ := "Namespace";
     load_yaml_file _ := cfg 2;
     get_data_loaders _ _ := (train_loader, val_loader, val_loader);
     get_org_model _ _ := (net 0, "resnet");
     freeze_module_params m := m;
     get_mimic_model_easily _ _ := net 0;
     mimic_model_type _ := "lenet5";
     amp_initialize m o _ := (m, o) |}.

End Toy.

(** * Tactics *)

(** Unfolding one step of the monad. *)
Ltac step1 :=
  unfold mbind, M_bind, mret, M_ret, raise, emit, print, get_num_threads,
    set_num_threads, is_grad_enabled, set_grad_enabled, is_main_process,
    check_if_exists, read_file, write_file, torch_load, torch_save,
    save_on_master, make_parent_dirs, getitem;
  cbn.
Ltac step := repeat (progress step1).

(** Two worlds that differ by the bracketing of their lists. *)
Ltac same_world :=
  unfold put_file, extend; cbn; rewrite ?app_nil_r;
  repeat (rewrite <- app_assoc; cbn); reflexivity.

(** The tests a layer makes on the shape it is given, one after the other. *)
Ltac tests :=
  repeat (cbn [LeNet.on_maps LeNet.on_rows foldl mbind option_bind andb orb negb
               LeNet.batch_size LeNet.channels LeNet.height LeNet.width
               LeNet.num_rows LeNet.num_cols];
          match goal with
          | |- context [?x =? ?y] => destruct (Z.eqb_spec x y)
          | |- context [?x <=? ?y] => destruct (Z.leb_spec x y)
          | |- context [?x <? ?y] => destruct (Z.ltb_spec x y)
          end).

(** Arithmetic with the roundings of the pooling layers. *)
Ltac arith := unfold LeNet.pooled in *; Z.div_mod_to_equations; lia.

(** * Specification

    What the functions of the script come to, written as plain functions
    of the objects and of the world: the closed forms the facts below
    relate the script to.  The variables of the section are the arguments
    and locals the loop of [distill] works with. *)

Section Facts.
Context `{F : Framework}.
Context (train_dl val_dl : loader) (device : string) (distributed : bool)
        (cfg : config) (a : args) (path : string) (interval : Z).

(** ** [load_ckpt] and [save_ckpt] *)

(** The 'Loading ...' lines, one per object handed in. *)
Definition loading_lines (model : option nn_model) (optimizer : option Optimizer)
    (lr_scheduler : option Scheduler) : list message :=
  (if model is Some _ then [MsgLoadingModel] else []) ++
  (if optimizer is Some _ then [MsgLoadingOptimizer] else []) ++
  (if lr_scheduler is Some _ then [MsgLoadingScheduler] else []).

(** The dict [save_ckpt] hands to [save_on_master]. *)
Definition snapshot (model : nn_model) (optimizer : Optimizer) (lr_scheduler : Scheduler)
    (best_value : Q) (cfg : config) (a : args) : ckpt :=
  {| ck_model := Some (state_dict (without_ddp model));
     ck_optimizer := Some (optimizer_state_dict optimizer);
     ck_best_value := Some best_value;
     ck_lr_scheduler := Some (scheduler_state_dict lr_scheduler);
     ck_config := Some cfg;
     ck_args := Some a |}.

(** ** The training pass *)

(** One pass of the loop body on the objects: forward, zero the gradients,
    backward, step. *)
Definition cycle (use_apex : bool) (s : dbox * Optimizer) (b : batch) : dbox * Optimizer :=
  let '(loss, student) :=
    box_forward (box_criterion s.1) (teacher_model s.1) (student_model s.1) b in
  let student := zero_grad s.2 student in
  let '(optimizer, student) :=
    if use_apex
    then amp_unscale s.2 (backward (amp_scale_loss loss s.2) student)
    else (s.2, backward loss student) in
  let '(optimizer, student) := optimizer_step optimizer student in
  (with_student s.1 student, optimizer).

Definition cycle_events (use_apex : bool) (b : batch) : list event :=
  [EvBoxForward b; EvZeroGrad; EvBackward use_apex; EvOptimizerStep].

Definition train_events (use_apex : bool) (epoch interval : Z) (dl : loader) : list event :=
  EvLogEvery (HeaderEpoch epoch) interval :: flat_map (cycle_events use_apex) (batches dl).

(** ** [evaluate] and its meters *)

Definition eval_step (m : nn_model) (ml : meters) (b : batch) : meters :=
  record_accuracy ml (predict m <$> b.*1) b.*2 (Z.of_nat (length b.*1)).

Definition merge_meters (ml other : meters) : meters :=
  {| acc1 := merge (acc1 ml) (acc1 other); acc5 := merge (acc5 ml) (acc5 other) |}.

(** The meters after the loop of this worker and the synchronisation. *)
Definition eval_meters (m : nn_model) (dl : loader) : meters :=
  foldl (λ ml shard, merge_meters ml (shard_meters m shard))
        (shard_meters m (batches dl)) (peer_batches dl).

Definition eval_events (interval : Z) (split_name : string) (dl : loader) : list event :=
  EvLogEvery (HeaderSplit split_name) interval ::
  flat_map (λ b : batch, [EvModelForward false b.*1]) (batches dl) ++ [EvSynchronize].

Definition title_lines (title : option string) : list message :=
  match title with Some t => [MsgTitle t] | None => [] end.

Definition avg (sv : smoothed_value) : Q := (total sv / inject_Z (count sv))%Q.

(** All batches of the data set: those of this worker, then its peers'. *)
Definition all_batches (dl : loader) : list batch :=
  batches dl ++ concat (peer_batches dl).

Definition num_samples (bs : list batch) : nat := sum_list_with length bs.

(** Samples of a batch whose true label is among the k highest-scored. *)
Definition batch_correct (k : nat) (m : nn_model) (b : batch) : nat :=
  correct k (predict m <$> b.*1) b.*2.

Definition num_correct (k : nat) (m : nn_model) (bs : list batch) : nat :=
  sum_list_with (batch_correct k m) bs.

(** Sum of the per-batch accuracies, each weighted by its batch size. *)
Definition weighted_sum (k : nat) (m : nn_model) (bs : list batch) : Q :=
  foldr (λ b acc, (compute_accuracy (predict m <$> b.*1) b.*2 k *
                   inject_Z (Z.of_nat (length b)) + acc)%Q) 0%Q bs.

Definition meter_step (k : nat) (m : nn_model) (sv : smoothed_value) (b : batch)
  : smoothed_value :=
  update (compute_accuracy (predict m <$> b.*1) b.*2 k) (Z.of_nat (length b.*1)) sv.

(** One meter through the loop of every worker and the synchronisation. *)
Definition synced (k : nat) (m : nn_model) (sv : smoothed_value)
    (peers : list (list batch)) : smoothed_value :=
  foldl (λ sv shard, merge sv (foldl (meter_step k m) (SmoothedValue 0 0) shard)) sv peers.

(** ** The start of [distill] *)

(** A checkpoint [distill] can resume from: the entries [load_ckpt] reads
    for an optimizer and a scheduler are there. *)
Definition resumable (c : ckpt) : Prop :=
  is_Some (ck_optimizer c) ∧ is_Some (ck_lr_scheduler c) ∧
  is_Some (ck_config c) ∧ is_Some (ck_args c).

Definition ckpt_ok (file : option ckpt) : Prop :=
  match file with Some c => resumable c | None => True end.

Definition setup_state (teacher student : nn_model) (cfg : config)
    (file : option ckpt) : distill_state :=
  let optimizer := get_optimizer student (optimizer_config (train cfg)) in
  let lr_scheduler := get_scheduler optimizer (scheduler_config (train cfg)) in
  {| st_box := DistillationBox teacher student (criterion (train cfg));
     st_optimizer :=
       match file ≫= ck_optimizer with
       | Some sd => optimizer_load_state_dict sd optimizer
       | None => optimizer
       end;
     st_lr_scheduler :=
       match file ≫= ck_lr_scheduler with
       | Some sd => scheduler_load_state_dict sd lr_scheduler
       | None => lr_scheduler
       end;
     best_val_top1_accuracy := 0%Q |}.

Definition setup_events (path : string) (file : option ckpt) : list event :=
  if file is Some _ then [EvTorchLoad path] else [].

Definition setup_lines (file : option ckpt) : list message :=
  MsgStart :: if file is Some _ then [MsgLoadingOptimizer; MsgLoadingScheduler] else [].

(** ** Kinds of calls *)

Definition is_optimizer_step (e : event) : bool :=
  match e with EvOptimizerStep => true | _ => false end.

Definition is_box_forward (e : event) : bool :=
  match e with EvBoxForward _ => true | _ => false end.

Definition count_events (p : event → bool) (evs : list event) : nat :=
  length (List.filter p evs).

Definition is_inference_event (e : event) : bool :=
  match e with
  | EvLogEvery _ _ | EvSynchronize | EvModelForward false _ => true
  | _ => false
  end.

(** ** One epoch of [distill], and the loop *)

(** The box and the optimizer after the training pass of the epoch. *)
Definition epoch_trained (st : distill_state) : dbox * Optimizer :=
  foldl (cycle (apex a))
        ({| teacher_model := set_training false (teacher_model (st_box st));
            student_model := set_training true (student_model (st_box st));
            box_criterion := box_criterion (st_box st) |}, st_optimizer st)
        (batches train_dl).

(** The student as [evaluate] leaves it. *)
Definition epoch_student (st : distill_state) : nn_model :=
  set_training false (student_model (epoch_trained st).1).

Definition epoch_meters (st : distill_state) : meters :=
  eval_meters (epoch_student st) val_dl.

(** The value [evaluate] returns in the epoch. *)
Definition epoch_accuracy (st : distill_state) : Q := avg (acc1 (epoch_meters st)).

(** The test of line 168. *)
Definition epoch_better (main : bool) (st : distill_state) : bool :=
  Qgtb (epoch_accuracy st) (best_val_top1_accuracy st) && main.

Definition epoch_snapshot (st : distill_state) : ckpt :=
  snapshot (without_ddp (epoch_student st)) (epoch_trained st).2 (st_lr_scheduler st)
           (epoch_accuracy st) cfg a.

Definition epoch_state (main : bool) (st : distill_state) : distill_state :=
  let stepped := scheduler_step (st_lr_scheduler st) (epoch_trained st).2 in
  {| st_box := with_student (epoch_trained st).1 (epoch_student st);
     st_optimizer := stepped.2;
     st_lr_scheduler := stepped.1;
     best_val_top1_accuracy :=
       if epoch_better main st then epoch_accuracy st else best_val_top1_accuracy st |}.

Definition save_events (main : bool) (st : distill_state) : list event :=
  if epoch_better main st
  then [EvMakeParentDirs path; EvTorchSave path (epoch_snapshot st)]
  else [].

Definition epoch_events (main : bool) (st : distill_state) (e : Z) : list event :=
  (if distributed then [EvSetEpoch e] else []) ++
  train_events (apex a) e interval train_dl ++
  eval_events interval "Validation" val_dl ++
  save_events main st ++
  [EvSchedulerStep].

Definition epoch_lines (main : bool) (st : distill_state) : list message :=
  MsgAcc (epoch_accuracy st) (avg (acc5 (epoch_meters st))) ::
  (if epoch_better main st
   then [MsgUpdatingCkpt (best_val_top1_accuracy st) (epoch_accuracy st)]
   else []).

Definition epoch_world (st : distill_state) (e : Z) (w : world) : world :=
  let w' := extend (epoch_events (main_process w) st e) (epoch_lines (main_process w) st) w in
  if epoch_better (main_process w) st then put_file path (epoch_snapshot st) w' else w'.

Fixpoint loop_state (main : bool) (es : list Z) (st : distill_state) : distill_state :=
  match es with
  | [] => st
  | _ :: es' => loop_state main es' (epoch_state main st)
  end.

Fixpoint loop_world (es : list Z) (st : distill_state) (w : world) : world :=
  match es with
  | [] => w
  | e :: es' => loop_world es' (epoch_state (main_process w) st) (epoch_world st e w)
  end.

Fixpoint loop_events (main : bool) (es : list Z) (st : distill_state) : list (list event) :=
  match es with
  | [] => []
  | e :: es' => epoch_events main st e :: loop_events main es' (epoch_state main st)
  end.

Fixpoint loop_lines (main : bool) (es : list Z) (st : distill_state) : list message :=
  match es with
  | [] => []
  | e :: es' => epoch_lines main st ++ loop_lines main es' (epoch_state main st)
  end.

(** The values [evaluate] returns, epoch after epoch. *)
Fixpoint loop_accuracies (main : bool) (es : list Z) (st : distill_state) : list Q :=
  match es with
  | [] => []
  | e :: es' => epoch_accuracy st :: loop_accuracies main es' (epoch_state main st)
  end.

(** ** What is seen of a run from outside *)


(** Every iteration with progress lines uses the interval [interval]. *)
Definition logs_with (i : Z) (e : event) : Prop :=
  match e with EvLogEvery _ j => j = i | _ => True end.

Definition is_save (e : event) : bool :=
  match e with EvTorchSave _ _ => true | _ => false end.

(** The top-1 values [evaluate] printed. *)
Definition val_accuracies (out : list message) : list Q :=
  omap (λ m, match m with MsgAcc top1 _ => Some top1 | _ => None end) out.

(** [x] is the greatest value of [l]. *)
Definition is_max (x : Q) (l : list Q) : Prop :=
  x ∈ l ∧ Forall (λ y, (y <= x)%Q) l.

(** ** Entries of a checkpoint *)

Definition has {A} (entry : option A) : bool := if entry is Some _ then true else false.

(** The keys [load_ckpt] indexes with [ckpt[key]], in the order it does,
    given the objects it was handed; each with whether the checkpoint holds
    the entry. *)
Definition entries_read (model optimizer lr_scheduler : bool) (c : ckpt)
  : list (string * bool) :=
  (if model then [("model", has (ck_model c))] else []) ++
  (if optimizer then [("optimizer", has (ck_optimizer c))] else []) ++
  (if lr_scheduler then [("lr_scheduler", has (ck_lr_scheduler c))] else []) ++
  [("config", has (ck_config c)); ("args", has (ck_args c))].

Definition first_missing (entries : list (string * bool)) : option string :=
  fst <$> List.find (λ e, negb e.2) entries.

(** A checkpoint that can be loaded into a model and resumed from. *)
Definition complete (c : ckpt) : Prop := is_Some (ck_model c) ∧ resumable c.

(** A checkpoint with all six entries. *)
Definition full (c : ckpt) : Prop := is_Some (ck_best_value c) ∧ complete c.

(** The world after the barrier and the last line of [distill]. *)
Definition after_barrier (w : world) : world :=
  extend [EvBarrier] [MsgTrainingTime] (sync_files w).

(** The checkpoint the loop wrote last, if it wrote one. *)
Fixpoint loop_saved (main : bool) (es : list Z) (st : distill_state) : option ckpt :=
  match es with
  | [] => None
  | _ :: es' =>
      match loop_saved main es' (epoch_state main st) with
      | Some c => Some c
      | None => if epoch_better main st then Some (epoch_snapshot st) else None
      end
  end.

(** ** What [main] builds, and what it tests *)

Definition main_distributed (env : main_env) (ar : args) : bool :=
  init_distributed_mode env (world_size ar) (dist_url ar).

Definition main_config (env : main_env) (ar : args) : config :=
  load_yaml_file env (arg_config ar).

Definition main_device (env : main_env) (ar : args) : string :=
  if cuda_is_available env then arg_device ar else "cpu".

Definition main_loaders (env : main_env) (ar : args) : loader * loader * loader :=
  get_data_loaders env (main_config env ar) (main_distributed env ar).

(** The world [main] trains or tests in: after the call of
    [init_distributed_mode] and the printing of the args. *)
Definition main_start (env : main_env) (ar : args) (w : world) : world :=
  extend [] [MsgTitle (args_repr env ar)]
    (if init_process_group env (world_size ar) (dist_url ar)
     then with_process_group w else w).

(** The teacher as handed to [distill]: frozen, and wrapped when the run
    is distributed. *)
Definition main_teacher (env : main_env) (ar : args) : nn_model :=
  let m := freeze_module_params env
             (get_org_model env (main_config env ar) (main_device env ar)).1 in
  if main_distributed env ar then wrap_with DataParallel m else m.

(** The student as handed to [distill]. *)
Definition main_student (env : main_env) (ar : args) : nn_model :=
  let m := get_mimic_model_easily env (main_config env ar) (main_device env ar) in
  let m :=
    if apex ar
    then (amp_initialize env m
            (get_optimizer m (optimizer_config (train (main_config env ar))))
            (apex_opt_level ar)).1
    else m in
  if main_distributed env ar then wrap_with DistributedDataParallel m else m.

Definition teacher_title (env : main_env) (ar : args) : string :=
  "[Teacher: " +:+ (get_org_model env (main_config env ar) (main_device env ar)).2 +:+ "]".

Definition student_title (env : main_env) (ar : args) : string :=
  "[Student: " +:+ mimic_model_type env (main_config env ar) +:+ "]".

(** The student after the [load_ckpt] of line 230: the stored state is in
    its module when a checkpoint is there. *)
Definition reloaded (student : nn_model) (file : option ckpt) : nn_model :=
  match file ≫= ck_model with
  | Some sd => into_wrapper student (Some (load_state_dict sd true (without_ddp student)))
  | None => student
  end.

(** The calls and the lines of one test at the end of [main]. *)
Definition test_events (dl : loader) : list event := eval_events 1000 "Test" dl.

Definition test_lines (title : string) (m : nn_model) (dl : loader) : list message :=
  let ml := eval_meters (set_training false m) dl in
  [MsgTitle title; MsgAcc (avg (acc1 ml)) (avg (acc5 ml))].

(** * Facts *)

(** ** The world *)

Lemma extend_nil w : extend [] [] w = w.
Proof. destruct w; unfold extend; simpl. by rewrite !app_nil_r. Qed.

Lemma extend_extend evs1 out1 evs2 out2 w :
  extend evs2 out2 (extend evs1 out1 w) = extend (evs1 ++ evs2) (out1 ++ out2) w.
Proof. unfold extend; simpl. by rewrite !app_assoc. Qed.

Lemma extend_put_file evs out file_path c w :
  extend evs out (put_file file_path c w) = put_file file_path c (extend evs out w).
Proof. reflexivity. Qed.

Lemma Qgtb_lt x y : Qgtb x y = true ↔ (y < x)%Q.
Proof.
  unfold Qgtb. rewrite negb_true_iff. split.
  - intros H. apply Qnot_le_lt. intros Hle. apply Qle_bool_iff in Hle. congruence.
  - intros H. destruct (Qle_bool x y) eqn:E; [|done].
    apply Qle_bool_iff in E. exfalso. exact (Qlt_not_le _ _ H E).
Qed.

(** ** [load_ckpt] and [save_ckpt] *)

Lemma load_ckpt_missing file_path model optimizer lr_scheduler strict w :
  fs w !! file_path = None →
  load_ckpt file_path model optimizer lr_scheduler strict w =
    Ok ((NotFound, (model, optimizer, lr_scheduler)), extend [] [MsgCkptNotFound file_path] w).
Proof.
  intros Hnone. unfold load_ckpt, check_if_exists. step.
  rewrite Hnone. rewrite bool_decide_eq_false_2; [done|]. by intros [? ?].
Qed.

Lemma load_ckpt_run file_path model optimizer lr_scheduler strict w c stored_cfg stored_args :
  fs w !! file_path = Some c →
  ck_config c = Some stored_cfg →
  ck_args c = Some stored_args →
  (is_Some model → is_Some (ck_model c)) →
  (is_Some optimizer → is_Some (ck_optimizer c)) →
  (is_Some lr_scheduler → is_Some (ck_lr_scheduler c)) →
  load_ckpt file_path model optimizer lr_scheduler strict w =
    Ok ((Loaded (default 0%Q (ck_best_value c)) stored_cfg stored_args,
         (model ≫= (λ m, (λ sd, load_state_dict sd strict m) <$> ck_model c),
          optimizer ≫= (λ o, (λ sd, optimizer_load_state_dict sd o) <$> ck_optimizer c),
          lr_scheduler ≫= (λ s, (λ sd, scheduler_load_state_dict sd s) <$> ck_lr_scheduler c))),
        extend [EvTorchLoad file_path] (loading_lines model optimizer lr_scheduler) w).
Proof.
  intros Hc Hcfg Ha Hm Ho Hs.
  unfold load_ckpt, check_if_exists, torch_load, read_file, loading_lines. step.
  rewrite Hc. rewrite bool_decide_eq_true_2 by eauto. cbn. rewrite Hc.
  destruct model as [m|]; [destruct Hm as [sd Hsd]; [eauto|]; rewrite Hsd|];
  (destruct optimizer as [o|]; [destruct Ho as [sdo Hsdo]; [eauto|]; rewrite Hsdo|]);
  (destruct lr_scheduler as [sc|]; [destruct Hs as [sds Hsds]; [eauto|]; rewrite Hsds|]);
  cbn; rewrite Hcfg, Ha; cbn; rewrite ?extend_extend, ?extend_nil; reflexivity.
Qed.

Lemma save_ckpt_run model optimizer lr_scheduler best_value cf ar file_path w :
  save_ckpt model optimizer lr_scheduler best_value cf ar file_path w =
    Ok (tt,
        let c := snapshot model optimizer lr_scheduler best_value cf ar in
        if main_process w
        then put_file file_path c (extend [EvMakeParentDirs file_path; EvTorchSave file_path c] [] w)
        else extend [EvMakeParentDirs file_path] [] w).
Proof.
  unfold save_ckpt, save_on_master, make_parent_dirs, snapshot, without_ddp.
  destruct w as [f n g [] t o pg pw], (is_ddp model); step; try reflexivity.
  all: unfold put_file, extend; cbn; by rewrite <- ?app_assoc.
Qed.

(** ** The training pass and the evaluation *)

Lemma for_each_run {A S} (P : world → Prop) (f : S → A → S) (ev : A → list event)
    (body : S → A → M S) xs s w :
  (∀ w evs, P w → P (extend evs [] w)) →
  (∀ s x w, P w → body s x w = Ok (f s x, extend (ev x) [] w)) →
  P w →
  for_each xs s body w = Ok (foldl f s xs, extend (flat_map ev xs) [] w).
Proof.
  intros HP Hbody. revert s w.
  induction xs as [|x xs IH]; intros s w Hw; cbn.
  - by rewrite extend_nil.
  - unfold mbind, M_bind. rewrite Hbody by done.
    rewrite IH by auto. by rewrite extend_extend.
Qed.

Lemma distill_one_epoch_run box dl optimizer dev epoch every use_apex w :
  distill_one_epoch box dl optimizer dev epoch every use_apex w =
    Ok (foldl (cycle use_apex) (box, optimizer) (batches dl),
        extend (train_events use_apex epoch every dl) [] w).
Proof.
  unfold distill_one_epoch, log_every, train_events. step.
  erewrite (for_each_run (λ _, True) (cycle use_apex) (cycle_events use_apex)); [|done| |done].
  - by rewrite extend_extend.
  - intros [b o] x w' _. unfold call_box, call_zero_grad, call_scaled_backward,
      call_backward, call_step, cycle, cycle_events. cbn.
    destruct (box_forward _ _ _ _) as [loss student] eqn:E1. step.
    destruct use_apex; step.
    + destruct (amp_unscale _ _) as [o2 s2]. step.
      destruct (optimizer_step _ _) as [o3 s3]. step.
      by rewrite !extend_extend.
    + destruct (optimizer_step _ _) as [o3 s3]. step.
      by rewrite !extend_extend.
Qed.

Lemma evaluate_run m dl dev every split_name title w :
  let m' := set_training false m in
  let ml := eval_meters m' dl in
  evaluate m dl dev every split_name title w =
    if (count (acc1 ml) =? 0) || (count (acc5 ml) =? 0)
    then Raise ZeroDivisionError
    else Ok ((avg (acc1 ml), m'),
             extend (eval_events every split_name dl)
                    (title_lines title ++ [MsgAcc (avg (acc1 ml)) (avg (acc5 ml))]) w).
Proof.
  intros m' ml. unfold evaluate, no_grad, log_every, synchronize_between_processes.
  destruct w as [f n g mp t o pg pw]. destruct title as [ti|]; step.
  all: erewrite (for_each_run (λ w, grad_enabled w = false) (eval_step m')
                   (λ b : batch, [EvModelForward false b.*1]));
    [|done|intros ? x w' Hg; unfold call_model; step; rewrite Hg; reflexivity|done].
  all: step; fold (shard_meters m' (batches dl)); fold merge_meters;
    change (foldl _ (foldl (eval_step m') new_metric_logger (batches dl)) (peer_batches dl))
      with ml.
  all: unfold global_avg; destruct (count (acc1 ml) =? 0); [reflexivity|];
    destruct (count (acc5 ml) =? 0); [reflexivity|]; step.
  all: unfold extend, eval_events, avg; cbn; rewrite <- ?app_assoc; reflexivity.
Qed.

(** ** What the meters hold *)

Lemma acc1_eval_step m ml bs :
  acc1 (foldl (eval_step m) ml bs) = foldl (meter_step 1 m) (acc1 ml) bs.
Proof. revert ml. induction bs as [|b bs IH]; intros ml; cbn; [done|]. by rewrite IH. Qed.

Lemma acc5_eval_step m ml bs :
  acc5 (foldl (eval_step m) ml bs) = foldl (meter_step 5 m) (acc5 ml) bs.
Proof. revert ml. induction bs as [|b bs IH]; intros ml; cbn; [done|]. by rewrite IH. Qed.

Lemma correct_le k output target : (correct k output target ≤ length target)%nat.
Proof.
  unfold correct. etrans; [apply length_filter|].
  rewrite length_zip_with. apply Nat.le_min_r.
Qed.

Lemma weighted_accuracy k (m : nn_model) (b : batch) :
  (compute_accuracy (predict m <$> b.*1) b.*2 k * inject_Z (Z.of_nat (length b))
   == inject_Z (Z.of_nat (batch_correct k m b)))%Q.
Proof.
  unfold compute_accuracy, batch_correct.
  pose proof (correct_le k (predict m <$> b.*1) b.*2) as Hle.
  rewrite (length_fmap snd b) in *.
  destruct (decide (length b = 0%nat)) as [Hz|Hnz].
  - rewrite Hz in *. assert (correct k (predict m <$> b.*1) b.*2 = 0%nat) as -> by lia.
    cbn. apply Qmult_0_r.
  - field. intros Hq. unfold Qeq in Hq. cbn in Hq. lia.
Qed.

Lemma meter_step_count k m sv bs :
  count (foldl (meter_step k m) sv bs) = count sv + Z.of_nat (num_samples bs).
Proof.
  revert sv. induction bs as [|b bs IH]; intros sv; cbn; [lia|].
  rewrite IH. cbn. rewrite length_fmap. unfold num_samples. lia.
Qed.

Lemma meter_step_total k m sv bs :
  (total (foldl (meter_step k m) sv bs) == total sv + weighted_sum k m bs)%Q.
Proof.
  revert sv. induction bs as [|b bs IH]; intros sv.
  - cbn [foldl weighted_sum foldr]. by rewrite Qplus_0_r.
  - cbn [foldl]. rewrite IH. unfold meter_step, update.
    cbn [total weighted_sum foldr]. fold (weighted_sum k m bs).
    rewrite length_fmap. ring.
Qed.

Lemma weighted_sum_correct k m bs :
  (weighted_sum k m bs == inject_Z (Z.of_nat (num_correct k m bs)))%Q.
Proof.
  induction bs as [|b bs IH]; [reflexivity|].
  cbn [weighted_sum foldr]. fold (weighted_sum k m bs).
  rewrite IH, weighted_accuracy. unfold num_correct. cbn [sum_list_with].
  rewrite Nat2Z.inj_add, inject_Z_plus. reflexivity.
Qed.

Lemma weighted_sum_app k m bs1 bs2 :
  (weighted_sum k m (bs1 ++ bs2) == weighted_sum k m bs1 + weighted_sum k m bs2)%Q.
Proof.
  induction bs1 as [|b bs1 IH].
  - cbn [app weighted_sum foldr]. by rewrite Qplus_0_l.
  - cbn [app weighted_sum foldr]. fold (weighted_sum k m (bs1 ++ bs2)).
    fold (weighted_sum k m bs1). rewrite IH. ring.
Qed.

Lemma num_samples_app bs1 bs2 :
  num_samples (bs1 ++ bs2) = (num_samples bs1 + num_samples bs2)%nat.
Proof. apply sum_list_with_app. Qed.

Lemma shard_meters_foldl m shard :
  shard_meters m shard = foldl (eval_step m) new_metric_logger shard.
Proof. reflexivity. Qed.

Lemma acc1_synced m ml peers :
  acc1 (foldl (λ ml shard, merge_meters ml (shard_meters m shard)) ml peers) =
    synced 1 m (acc1 ml) peers.
Proof.
  revert ml. induction peers as [|sh shs IH]; intros ml; [done|].
  cbn [foldl synced]. rewrite IH. unfold synced. cbn [merge_meters acc1].
  by rewrite shard_meters_foldl, acc1_eval_step.
Qed.

Lemma acc5_synced m ml peers :
  acc5 (foldl (λ ml shard, merge_meters ml (shard_meters m shard)) ml peers) =
    synced 5 m (acc5 ml) peers.
Proof.
  revert ml. induction peers as [|sh shs IH]; intros ml; [done|].
  cbn [foldl synced]. rewrite IH. unfold synced. cbn [merge_meters acc5].
  by rewrite shard_meters_foldl, acc5_eval_step.
Qed.

Lemma acc1_eval_meters m dl :
  acc1 (eval_meters m dl) =
    synced 1 m (foldl (meter_step 1 m) (SmoothedValue 0 0) (batches dl)) (peer_batches dl).
Proof.
  unfold eval_meters. by rewrite acc1_synced, shard_meters_foldl, acc1_eval_step.
Qed.

Lemma acc5_eval_meters m dl :
  acc5 (eval_meters m dl) =
    synced 5 m (foldl (meter_step 5 m) (SmoothedValue 0 0) (batches dl)) (peer_batches dl).
Proof.
  unfold eval_meters. by rewrite acc5_synced, shard_meters_foldl, acc5_eval_step.
Qed.

Lemma synced_count k m sv peers :
  count (synced k m sv peers) = count sv + Z.of_nat (num_samples (concat peers)).
Proof.
  revert sv. induction peers as [|sh shs IH]; intros sv; cbn; [lia|].
  unfold synced in *. rewrite IH. cbn [merge count].
  rewrite meter_step_count, num_samples_app. cbn [count]. lia.
Qed.

Lemma synced_total k m sv peers :
  (total (synced k m sv peers) == total sv + weighted_sum k m (concat peers))%Q.
Proof.
  revert sv. induction peers as [|sh shs IH]; intros sv.
  - cbn [synced foldl concat weighted_sum foldr]. by rewrite Qplus_0_r.
  - unfold synced in *. cbn [foldl concat]. rewrite IH. unfold merge. cbn [total].
    rewrite meter_step_total, weighted_sum_app. cbn [total]. ring.
Qed.

Lemma eval_meters_count m dl :
  count (acc1 (eval_meters m dl)) = Z.of_nat (num_samples (all_batches dl)) ∧
  count (acc5 (eval_meters m dl)) = Z.of_nat (num_samples (all_batches dl)).
Proof.
  rewrite acc1_eval_meters, acc5_eval_meters, !synced_count, !meter_step_count.
  unfold all_batches. rewrite num_samples_app. cbn [count]. lia.
Qed.

Lemma eval_meters_total m dl :
  (total (acc1 (eval_meters m dl)) == weighted_sum 1 m (all_batches dl))%Q ∧
  (total (acc5 (eval_meters m dl)) == weighted_sum 5 m (all_batches dl))%Q.
Proof.
  rewrite acc1_eval_meters, acc5_eval_meters, !synced_total, !meter_step_total.
  unfold all_batches. rewrite !weighted_sum_app. cbn [total]. split; ring.
Qed.

(** With at least one sample in the data set, [evaluate] returns. *)
Lemma evaluate_ok m dl dev every split_name title w :
  (0 < num_samples (all_batches dl))%nat →
  let m' := set_training false m in
  let ml := eval_meters m' dl in
  evaluate m dl dev every split_name title w =
    Ok ((avg (acc1 ml), m'),
        extend (eval_events every split_name dl)
               (title_lines title ++ [MsgAcc (avg (acc1 ml)) (avg (acc5 ml))]) w).
Proof.
  intros Hn. cbv zeta. rewrite evaluate_run. cbv zeta.
  destruct (eval_meters_count (set_training false m) dl) as [-> ->].
  rewrite orb_diag. destruct (Z.eqb_spec (Z.of_nat (num_samples (all_batches dl))) 0); [lia|done].
Qed.

(** ** One epoch *)

Lemma distill_epoch_run st e w :
  (0 < num_samples (all_batches val_dl))%nat →
  distill_epoch train_dl val_dl device distributed cfg a path interval st e w =
    Ok (epoch_state (main_process w) st, epoch_world st e w).
Proof.
  intros Hn. unfold distill_epoch.
  unfold mbind at 1, M_bind at 1.
  assert ((if distributed then emit (EvSetEpoch e) else mret ()) w =
          Ok ((), extend (if distributed then [EvSetEpoch e] else []) [] w)) as ->.
  { destruct distributed; step; [done|by rewrite extend_nil]. }
  unfold mbind at 1, M_bind at 1. rewrite distill_one_epoch_run.
  fold (epoch_trained st). destruct (epoch_trained st) as [box optimizer] eqn:Etr.
  unfold mbind at 1, M_bind at 1. rewrite evaluate_ok by done.
  assert (set_training false (student_model box) = epoch_student st) as Est
    by (unfold epoch_student; by rewrite Etr).
  rewrite Est. fold (epoch_meters st). fold (epoch_accuracy st).
  unfold epoch_state, epoch_world, epoch_events, epoch_lines, save_events,
    epoch_better, epoch_snapshot.
  rewrite Etr. cbn [fst snd title_lines app].
  destruct (Qgtb (epoch_accuracy st) (best_val_top1_accuracy st)); cbn [andb].
  - unfold mbind at 1, M_bind at 1. unfold is_main_process at 1.
    rewrite !extend_extend. cbn [main_process extend].
    destruct (main_process w) eqn:Emain.
    + unfold mbind at 1, M_bind at 1. unfold mbind at 1, M_bind at 1.
      unfold print at 1. unfold mbind at 1, M_bind at 1.
      rewrite save_ckpt_run. cbn [main_process extend]. rewrite Emain.
      unfold call_scheduler_step. step.
      destruct (scheduler_step _ _) as [lr opt]. cbn.
      unfold put_file, extend, eval_events, train_events. cbn.
      repeat (rewrite <- app_assoc; cbn). reflexivity.
    + unfold call_scheduler_step. step.
      destruct (scheduler_step _ _) as [lr opt]. cbn.
      unfold extend, eval_events, train_events. cbn. rewrite ?app_nil_r.
      repeat (rewrite <- app_assoc; cbn). reflexivity.
  - unfold call_scheduler_step. step.
    destruct (scheduler_step _ _) as [lr opt]. cbn.
    unfold extend, eval_events, train_events. cbn. rewrite ?app_nil_r.
    repeat (rewrite <- app_assoc; cbn). reflexivity.
Qed.

Lemma main_process_epoch_world st e w :
  main_process (epoch_world st e w) = main_process w.
Proof. unfold epoch_world. by destruct (epoch_better _ _). Qed.

Lemma trace_epoch_world st e w :
  trace (epoch_world st e w) = trace w ++ epoch_events (main_process w) st e.
Proof. unfold epoch_world. by destruct (epoch_better _ _). Qed.

Lemma stdout_epoch_world st e w :
  stdout (epoch_world st e w) = stdout w ++ epoch_lines (main_process w) st.
Proof. unfold epoch_world. by destruct (epoch_better _ _). Qed.

Lemma fs_epoch_world st e w :
  fs (epoch_world st e w) =
    if epoch_better (main_process w) st
    then <[path := epoch_snapshot st]> (fs w) else fs w.
Proof. unfold epoch_world. by destruct (epoch_better _ _). Qed.

Lemma threads_epoch_world st e w :
  num_threads (epoch_world st e w) = num_threads w ∧
  grad_enabled (epoch_world st e w) = grad_enabled w.
Proof. unfold epoch_world. by destruct (epoch_better _ _). Qed.

(** ** The loop *)

Lemma loop_run es st w :
  (0 < num_samples (all_batches val_dl))%nat →
  for_each es st
    (distill_epoch train_dl val_dl device distributed cfg a path interval) w =
    Ok (loop_state (main_process w) es st, loop_world es st w).
Proof.
  intros Hn. revert st w. induction es as [|e es IH]; intros st w; [done|].
  cbn [for_each loop_state loop_world]. unfold mbind, M_bind.
  rewrite distill_epoch_run by done. rewrite IH.
  by rewrite main_process_epoch_world.
Qed.

Lemma main_process_loop_world es st w :
  main_process (loop_world es st w) = main_process w.
Proof.
  revert st w. induction es as [|e es IH]; intros st w; [done|].
  cbn. by rewrite IH, main_process_epoch_world.
Qed.

Lemma trace_loop_world es st w :
  trace (loop_world es st w) = trace w ++ concat (loop_events (main_process w) es st).
Proof.
  revert st w. induction es as [|e es IH]; intros st w; cbn; [by rewrite app_nil_r|].
  by rewrite IH, trace_epoch_world, main_process_epoch_world, <- app_assoc.
Qed.

Lemma stdout_loop_world es st w :
  stdout (loop_world es st w) = stdout w ++ loop_lines (main_process w) es st.
Proof.
  revert st w. induction es as [|e es IH]; intros st w; cbn; [by rewrite app_nil_r|].
  by rewrite IH, stdout_epoch_world, main_process_epoch_world, <- app_assoc.
Qed.

Lemma threads_loop_world es st w :
  num_threads (loop_world es st w) = num_threads w ∧
  grad_enabled (loop_world es st w) = grad_enabled w.
Proof.
  revert st w. induction es as [|e es IH]; intros st w; [done|].
  cbn. destruct (IH (epoch_state (main_process w) st) (epoch_world st e w)) as [-> ->].
  apply threads_epoch_world.
Qed.

Lemma group_epoch_world st e w :
  process_group (epoch_world st e w) = process_group w ∧
  peer_writes (epoch_world st e w) = peer_writes w.
Proof. unfold epoch_world. by destruct (epoch_better _ _). Qed.

Lemma group_loop_world es st w :
  process_group (loop_world es st w) = process_group w ∧
  peer_writes (loop_world es st w) = peer_writes w.
Proof.
  revert st w. induction es as [|e es IH]; intros st w; [done|].
  cbn. destruct (IH (epoch_state (main_process w) st) (epoch_world st e w)) as [-> ->].
  apply group_epoch_world.
Qed.

Lemma loop_state_app main es1 es2 st :
  loop_state main (es1 ++ es2) st = loop_state main es2 (loop_state main es1 st).
Proof. revert st. induction es1 as [|e es1 IH]; intros st; [done|]. cbn. apply IH. Qed.

(** ** The calls of the loop, epoch by epoch *)




Lemma train_events_logs e : Forall (logs_with interval) (train_events (apex a) e interval train_dl).
Proof.
  unfold train_events. constructor; [done|].
  induction (batches train_dl) as [|b bs IH]; cbn; [constructor|].
  by repeat (constructor; [done|]).
Qed.

Lemma eval_events_logs split_name : Forall (logs_with interval) (eval_events interval split_name val_dl).
Proof.
  unfold eval_events. constructor; [done|]. apply Forall_app. split; [|by repeat constructor].
  induction (batches val_dl) as [|b bs IH]; cbn; [constructor|]. by constructor.
Qed.

Lemma epoch_events_logs main st e : Forall (logs_with interval) (epoch_events main st e).
Proof.
  unfold epoch_events. rewrite !Forall_app. split; [destruct distributed; by repeat constructor|].
  split; [apply train_events_logs|]. split; [apply eval_events_logs|].
  split; [|by repeat constructor].
  unfold save_events. destruct (epoch_better main st); by repeat constructor.
Qed.

Lemma loop_events_logs main es st :
  Forall (logs_with interval) (concat (loop_events main es st)).
Proof.
  revert st. induction es as [|e es IH]; intros st; cbn; [constructor|].
  apply Forall_app. split; [apply epoch_events_logs|apply IH].
Qed.

Lemma loop_events_has_logs main es st e :
  e ∈ es →
  EvLogEvery (HeaderEpoch e) interval ∈ concat (loop_events main es st) ∧
  EvLogEvery (HeaderSplit "Validation") interval ∈ concat (loop_events main es st).
Proof.
  revert st. induction es as [|e' es IH]; intros st Hin; [by apply elem_of_nil in Hin|].
  cbn [loop_events concat]. rewrite !elem_of_app.
  apply elem_of_cons in Hin as [->|Hin].
  - split; left; unfold epoch_events, train_events, eval_events;
      rewrite !elem_of_app; right.
    + left. left.
    + right. left. left.
  - split; right; by apply IH.
Qed.

Lemma epoch_events_no_save main st e :
  epoch_better main st = false →
  Forall (λ ev, is_save ev = false) (epoch_events main st e).
Proof.
  intros Hb. unfold epoch_events, save_events, train_events, eval_events. rewrite Hb.
  rewrite !Forall_app. split; [destruct distributed; by repeat constructor|].
  split; [|split; [|by repeat constructor]].
  - constructor; [done|].
    induction (batches train_dl) as [|b bs IH]; cbn; [constructor|].
    by repeat (constructor; [done|]).
  - constructor; [done|]. apply Forall_app. split; [|by repeat constructor].
    induction (batches val_dl) as [|b bs IH]; cbn; [constructor|]. by constructor.
Qed.

(** ** The running best *)

Lemma val_accuracies_app out1 out2 :
  val_accuracies (out1 ++ out2) = val_accuracies out1 ++ val_accuracies out2.
Proof. apply omap_app. Qed.

Lemma val_accuracies_epoch main st : val_accuracies (epoch_lines main st) = [epoch_accuracy st].
Proof. unfold epoch_lines. by destruct (epoch_better main st). Qed.

Lemma val_accuracies_loop main es st :
  val_accuracies (loop_lines main es st) = loop_accuracies main es st.
Proof.
  revert st. induction es as [|e es IH]; intros st; [done|].
  cbn [loop_lines loop_accuracies].
  by rewrite val_accuracies_app, IH, val_accuracies_epoch.
Qed.

Lemma loop_accuracies_length main es st : length (loop_accuracies main es st) = length es.
Proof. revert st. induction es as [|e es IH]; intros st; cbn; [done|]. by rewrite IH. Qed.

Lemma is_max_cons_keep b x l : (x <= b)%Q → ∀ y, is_max y (b :: l) → is_max y (b :: x :: l).
Proof.
  intros Hx y [Hin Hall]. split.
  - apply elem_of_cons in Hin as [->|Hin]; [left|right; by right].
  - apply Forall_cons in Hall as [Hb Hl]. repeat constructor; [done| |done].
    by apply Qle_trans with b.
Qed.

Lemma is_max_cons_new b x l : (b < x)%Q → ∀ y, is_max y (x :: l) → is_max y (b :: x :: l).
Proof.
  intros Hx y [Hin Hall]. split; [by right|].
  apply Forall_cons in Hall as [Hb Hl]. constructor; [|by constructor].
  apply Qlt_le_weak. eapply Qlt_le_trans; done.
Qed.

Lemma Qgtb_false x y : Qgtb x y = false → (x <= y)%Q.
Proof. unfold Qgtb. rewrite negb_false_iff. apply Qle_bool_iff. Qed.

(** On the main process the running best is the greatest of its first
    value and the accuracies seen. *)
Lemma loop_best_max es st :
  is_max (best_val_top1_accuracy (loop_state true es st))
         (best_val_top1_accuracy st :: loop_accuracies true es st).
Proof.
  revert st. induction es as [|e es IH]; intros st; cbn [loop_state loop_accuracies].
  - split; [left|]. repeat constructor. apply Qle_refl.
  - specialize (IH (epoch_state true st)). revert IH.
    cbn [epoch_state best_val_top1_accuracy]. unfold epoch_better. rewrite andb_true_r.
    destruct (Qgtb _ _) eqn:E.
    + apply is_max_cons_new. by apply Qgtb_lt.
    + apply is_max_cons_keep. by apply Qgtb_false.
Qed.

(** Elsewhere it never moves. *)
Lemma loop_best_other es st :
  best_val_top1_accuracy (loop_state false es st) = best_val_top1_accuracy st.
Proof.
  revert st. induction es as [|e es IH]; intros st; cbn [loop_state]; [done|].
  rewrite IH. cbn. unfold epoch_better. by rewrite andb_false_r.
Qed.

Lemma loop_fs_other es st w :
  main_process w = false → fs (loop_world es st w) = fs w.
Proof.
  revert st w. induction es as [|e es IH]; intros st w Hm; cbn [loop_world]; [done|].
  rewrite IH by (by rewrite main_process_epoch_world).
  rewrite fs_epoch_world, Hm. unfold epoch_better. by rewrite andb_false_r.
Qed.

(** On the main process: either no accuracy exceeded the first value of
    the running best and the files are untouched, or the file at [path]
    is a snapshot whose best value is the running best. *)
Lemma loop_fs_main es st w :
  main_process w = true →
  let accs := loop_accuracies true es st in
  let st' := loop_state true es st in
  (Forall (λ x, (x <= best_val_top1_accuracy st)%Q) accs ∧
   fs (loop_world es st w) = fs w ∧
   best_val_top1_accuracy st' = best_val_top1_accuracy st) ∨
  (Exists (λ x, (best_val_top1_accuracy st < x)%Q) accs ∧
   ∃ c, fs (loop_world es st w) = <[path := c]> (fs w) ∧
        ck_best_value c = Some (best_val_top1_accuracy st') ∧
        ck_config c = Some cfg ∧ ck_args c = Some a).
Proof.
  revert st w. induction es as [|e es IH]; intros st w Hm; cbn zeta.
  - left. by repeat split.
  - cbn [loop_accuracies loop_state loop_world]. rewrite Hm.
    pose proof (IH (epoch_state true st) (epoch_world st e w)) as IH'.
    rewrite main_process_epoch_world in IH'. specialize (IH' Hm). cbn zeta in IH'.
    rewrite fs_epoch_world, Hm in IH'. revert IH'.
    cbn [epoch_state best_val_top1_accuracy]. unfold epoch_better. rewrite andb_true_r.
    destruct (Qgtb _ _) eqn:E; intros [(Hall & Hfs & Hbest)|(Hex & c & Hfs & Hc)].
    + right. split; [left; by apply Qgtb_lt|]. eexists. split; [done|].
      rewrite Hbest. by repeat split.
    + right. split; [left; by apply Qgtb_lt|]. exists c.
      split; [by rewrite Hfs, insert_insert_eq|done].
    + left. split; [|done]. constructor; [by apply Qgtb_false|done].
    + right. split; [by right|]. exists c. by split.
Qed.

(** ** Checkpoints with missing entries *)

Lemma load_ckpt_raises file_path model optimizer lr_scheduler strict w c k :
  fs w !! file_path = Some c →
  first_missing (entries_read (has model) (has optimizer) (has lr_scheduler) c) = Some k →
  load_ckpt file_path model optimizer lr_scheduler strict w = Raise (KeyError k).
Proof.
  intros Hc. unfold load_ckpt, check_if_exists, torch_load, read_file. step.
  rewrite Hc, bool_decide_eq_true_2 by eauto. cbn. rewrite Hc.
  destruct model, optimizer, lr_scheduler, c as [[?|] [?|] ? [?|] [?|] [?|]]; cbn;
    intros [= <-]; reflexivity.
Qed.

Lemma first_missing_none model optimizer lr_scheduler c :
  first_missing (entries_read model optimizer lr_scheduler c) = None →
  (model = true → is_Some (ck_model c)) ∧
  (optimizer = true → is_Some (ck_optimizer c)) ∧
  (lr_scheduler = true → is_Some (ck_lr_scheduler c)) ∧
  is_Some (ck_config c) ∧ is_Some (ck_args c).
Proof.
  destruct model, optimizer, lr_scheduler, c as [[?|] [?|] ? [?|] [?|] [?|]]; cbn;
    intros [=]; repeat split; intros; try done; by eexists.
Qed.

Lemma has_is_Some {A} (o : option A) : is_Some o → has o = true.
Proof. by intros [? ->]. Qed.

Lemma is_Some_has {A} (o : option A) : has o = true → is_Some o.
Proof. destruct o; [by eexists|done]. Qed.

(** ** The file the loop leaves *)

Lemma without_ddp_idemp m : without_ddp (without_ddp m) = without_ddp m.
Proof. unfold without_ddp, is_ddp. by destruct m as [[] ? ? ?]. Qed.

Lemma snapshot_complete m o s b : complete (snapshot m o s b cfg a).
Proof. repeat split; by eexists. Qed.

Lemma fs_loop_world es st w :
  fs (loop_world es st w) =
    match loop_saved (main_process w) es st with
    | Some c => <[path := c]> (fs w)
    | None => fs w
    end.
Proof.
  revert st w. induction es as [|e es IH]; intros st w; [done|].
  cbn [loop_world loop_saved]. rewrite IH, main_process_epoch_world, fs_epoch_world.
  destruct (loop_saved _ es _) as [c|], (epoch_better _ st); try done.
  by rewrite insert_insert_eq.
Qed.

Lemma loop_saved_complete main es st c :
  loop_saved main es st = Some c →
  complete c ∧ ck_config c = Some cfg ∧ ck_args c = Some a.
Proof.
  revert st. induction es as [|e es IH]; intros st; [done|].
  cbn [loop_saved]. destruct (loop_saved main es _) as [c'|] eqn:E.
  - intros [= <-]. by eapply IH.
  - destruct (epoch_better main st); [|done]. intros [= <-].
    split; [apply snapshot_complete|done].
Qed.

(** The checkpoint the loop leaves is the one of the epoch that reached
    the running best: it holds the student as that epoch left it. *)
Lemma loop_saved_none main es st :
  loop_saved main es st = None →
  best_val_top1_accuracy (loop_state main es st) = best_val_top1_accuracy st.
Proof.
  revert st. induction es as [|e es IH]; intros st; [done|].
  cbn [loop_saved loop_state].
  destruct (loop_saved main es _) eqn:E; [done|].
  destruct (epoch_better main st) eqn:B; [done|]. intros _.
  rewrite IH by done. cbn. by rewrite B.
Qed.

Lemma loop_saved_none_le es st :
  loop_saved true es st = None →
  Forall (λ x, (x <= best_val_top1_accuracy st)%Q) (loop_accuracies true es st).
Proof.
  revert st. induction es as [|e es IH]; intros st; [constructor|].
  cbn [loop_saved loop_accuracies].
  destruct (loop_saved true es _) eqn:E; [done|].
  destruct (epoch_better true st) eqn:B; [done|]. intros _.
  unfold epoch_better in B. rewrite andb_true_r in B.
  constructor; [by apply Qgtb_false|].
  specialize (IH _ E). revert IH. cbn [epoch_state best_val_top1_accuracy].
  unfold epoch_better. by rewrite B.
Qed.

Lemma loop_accuracies_lookup main es st k e :
  es !! k = Some e →
  loop_accuracies main es st !! k = Some (epoch_accuracy (loop_state main (take k es) st)).
Proof.
  revert st k. induction es as [|e' es IH]; intros st k; [done|].
  destruct k as [|k]; cbn; [done|]. apply IH.
Qed.

Lemma loop_saved_best main es st c :
  loop_saved main es st = Some c →
  ∃ k e,
    es !! k = Some e ∧
    ck_model c =
      Some (state_dict (without_ddp
              (student_model (st_box (loop_state main (take (S k) es) st))))) ∧
    ck_best_value c = Some (best_val_top1_accuracy (loop_state main es st)) ∧
    loop_accuracies main es st !! k =
      Some (best_val_top1_accuracy (loop_state main es st)) ∧
    full c.
Proof.
  revert st. induction es as [|e es IH]; intros st; [done|].
  cbn [loop_saved]. destruct (loop_saved main es _) as [c'|] eqn:E.
  - intros [= <-]. destruct (IH _ E) as (k & e' & Hk & Hm & Hb & Ha & Hf).
    exists (S k), e'. split; [exact Hk|]. split; [exact Hm|]. split; [exact Hb|].
    split; [exact Ha|exact Hf].
  - destruct (epoch_better main st) eqn:B; [|done]. intros [= <-].
    exists 0%nat, e. split; [done|].
    apply loop_saved_none in E. cbn [loop_state]. rewrite E.
    cbn [take loop_state epoch_state st_box with_student student_model
         best_val_top1_accuracy loop_accuracies lookup list_lookup].
    rewrite B. unfold epoch_snapshot, snapshot. cbn [ck_model ck_best_value].
    rewrite without_ddp_idemp. repeat split; by eexists.
Qed.

(** ** The modes the models are left in *)

Lemma teacher_cycle s bs :
  teacher_model (foldl (cycle (apex a)) s bs).1 = teacher_model s.1.
Proof.
  revert s. induction bs as [|b bs IH]; intros s; [done|].
  cbn [foldl]. rewrite IH. unfold cycle.
  destruct (box_forward _ _ _ _) as [loss student].
  destruct (if apex a then _ else _) as [o1 s1].
  by destruct (optimizer_step _ _).
Qed.

Lemma teacher_epoch_state main st :
  teacher_model (st_box (epoch_state main st)) =
    set_training false (teacher_model (st_box st)).
Proof. cbn. unfold epoch_trained. by rewrite teacher_cycle. Qed.

Lemma loop_state_modes main es st :
  es ≠ [] →
  training (student_model (st_box (loop_state main es st))) = false ∧
  teacher_model (st_box (loop_state main es st)) =
    set_training false (teacher_model (st_box st)).
Proof.
  revert st. induction es as [|e es IH]; intros st Hes; [done|].
  cbn [loop_state]. destruct es as [|e' es].
  - cbn [loop_state]. split; [done|apply teacher_epoch_state].
  - destruct (IH (epoch_state main st)) as [Hs Ht]; [done|].
    split; [exact Hs|]. rewrite Ht, teacher_epoch_state. done.
Qed.

End Facts.

(** * The claims *)

Section Claims.
Context `{F : Framework}.

(** ** The start of [distill], and the whole of it *)

Lemma distill_setup_run teacher student cfg w :
  let file := fs w !! mimic_model_ckpt cfg in
  ckpt_ok file →
  distill_setup teacher student cfg w =
    Ok (setup_state teacher student cfg file,
        extend (setup_events (mimic_model_ckpt cfg) file) (setup_lines file) w).
Proof.
  intros file Hok. unfold distill_setup, setup_state, setup_events, setup_lines.
  unfold mbind at 1, M_bind at 1, print at 1.
  unfold mbind at 1, M_bind at 1, check_if_exists at 1. cbn [fs extend].
  subst file. destruct (fs w !! mimic_model_ckpt cfg) as [c|] eqn:Hfile.
  - rewrite bool_decide_eq_true_2 by eauto.
    destruct Hok as ([sdo Ho] & [sds Hs] & [cf Hcf] & [ar Har]).
    unfold mbind at 1, M_bind at 1. unfold mbind at 1, M_bind at 1.
    erewrite load_ckpt_run; [|exact Hfile|exact Hcf|exact Har| | |].
    + cbn [mbind option_bind]. rewrite Ho, Hs. step. same_world.
    + by intros [? ?].
    + by rewrite Ho.
    + by rewrite Hs.
  - rewrite bool_decide_eq_false_2 by (by intros [? ?]). step. same_world.
Qed.

Lemma distill_loop_run teacher student train_dl val_dl device distributed start_epoch
    cfg a w :
  let path := mimic_model_ckpt cfg in
  let file := fs w !! path in
  let i := log_interval (interval (train cfg)) (Z.of_nat (length (batches train_dl))) in
  let es := range start_epoch (epoch (train cfg)) in
  let st0 := setup_state teacher student cfg file in
  let w0 := extend (setup_events path file) (setup_lines file) w in
  ckpt_ok file →
  (0 < num_samples (all_batches val_dl))%nat →
  distill_loop teacher student train_dl val_dl device distributed start_epoch cfg a w =
    Ok (loop_state train_dl val_dl a (main_process w) es st0,
        loop_world train_dl val_dl distributed cfg a path i es st0 w0).
Proof.
  intros path file i es st0 w0 Hok Hn. unfold distill_loop.
  unfold mbind at 1, M_bind at 1. rewrite distill_setup_run by done.
  by rewrite loop_run by done.
Qed.

(** What follows the loop: the barrier, which needs the process group. *)
Lemma distill_after_loop teacher student train_dl val_dl device distributed start_epoch
    cfg a w st w' :
  distill_loop teacher student train_dl val_dl device distributed start_epoch cfg a w =
    Ok (st, w') →
  distill teacher student train_dl val_dl device distributed start_epoch cfg a w =
    if process_group w' then Ok (st, after_barrier w') else Raise ProcessGroupError.
Proof.
  intros Hloop. unfold distill. unfold mbind at 1, M_bind at 1. rewrite Hloop.
  unfold mbind at 1, M_bind at 1, barrier. destruct (process_group w'); [|done].
  step. unfold after_barrier. by rewrite extend_extend.
Qed.

(** The loop changes neither the process group nor what the peers write. *)
Lemma distill_loop_group teacher student train_dl val_dl device distributed start_epoch
    cfg a w st w' :
  ckpt_ok (fs w !! mimic_model_ckpt cfg) →
  (0 < num_samples (all_batches val_dl))%nat →
  distill_loop teacher student train_dl val_dl device distributed start_epoch cfg a w =
    Ok (st, w') →
  process_group w' = process_group w ∧ peer_writes w' = peer_writes w.
Proof.
  intros Hok Hn. rewrite distill_loop_run by done. intros [= <- <-].
  split; (etrans; [apply group_loop_world|done]).
Qed.

(** The outcome of [distill], given the one of its loop. *)
Lemma distill_outcome teacher student train_dl val_dl device distributed start_epoch
    cfg a w st w' :
  ckpt_ok (fs w !! mimic_model_ckpt cfg) →
  (0 < num_samples (all_batches val_dl))%nat →
  distill_loop teacher student train_dl val_dl device distributed start_epoch cfg a w =
    Ok (st, w') →
  if process_group w
  then ∃ w'',
         distill teacher student train_dl val_dl device distributed start_epoch cfg a w =
           Ok (st, w'') ∧
         trace w'' = trace w' ++ [EvBarrier] ∧
         stdout w'' = stdout w' ++ [MsgTrainingTime] ∧
         fs w'' = peer_writes w ∪ fs w'
  else distill teacher student train_dl val_dl device distributed start_epoch cfg a w =
         Raise ProcessGroupError.
Proof.
  intros Hok Hn Hloop. rewrite (distill_after_loop _ _ _ _ _ _ _ _ _ _ _ _ Hloop).
  destruct (distill_loop_group _ _ _ _ _ _ _ _ _ _ _ _ Hok Hn Hloop) as [-> Hpw].
  destruct (process_group w); [|done].
  eexists. split; [reflexivity|]. cbn. by rewrite Hpw.
Qed.

(** ** Claims about [load_ckpt] and [save_ckpt] *)

Lemma load_ckpt_loaded path model optimizer lr_scheduler strict w r objs w' :
  is_Some (fs w !! path) →
  load_ckpt path model optimizer lr_scheduler strict w = Ok ((r, objs), w') →
  ∃ best_value cfg a, r = Loaded best_value cfg a.
Proof.
  intros [c Hc]. unfold load_ckpt. step.
  rewrite Hc, bool_decide_eq_true_2 by eauto. cbn. rewrite Hc.
  destruct model, (ck_model c); cbn; try discriminate;
  destruct optimizer, (ck_optimizer c); cbn; try discriminate;
  destruct lr_scheduler, (ck_lr_scheduler c); cbn; try discriminate;
  destruct (ck_config c), (ck_args c); cbn; try discriminate;
  intros [= <- <- <-]; eauto.
Qed.

(** C9: when the checkpoint file does not exist, [load_ckpt] returns the
    pair (None, None), where a successful call returns a triple, and hands
    back the model, the optimizer and the scheduler as they were; nothing
    is read or written, only the 'not found' line is printed. *)
Theorem load_ckpt_not_found path model optimizer lr_scheduler strict w :
  fs w !! path = None →
  ∃ w',
    load_ckpt path model optimizer lr_scheduler strict w =
      Ok ((NotFound, (model, optimizer, lr_scheduler)), w') ∧
    tuple_len NotFound = 2%nat ∧
    (∀ w2 r objs w2',
       is_Some (fs w2 !! path) →
       load_ckpt path model optimizer lr_scheduler strict w2 = Ok ((r, objs), w2') →
       tuple_len r = 3%nat) ∧
    fs w' = fs w ∧ trace w' = trace w ∧
    num_threads w' = num_threads w ∧ grad_enabled w' = grad_enabled w ∧
    stdout w' = stdout w ++ [MsgCkptNotFound path].
Proof.
  intros Hnone. eexists. split; [by apply load_ckpt_missing|].
  split; [done|]. split; [|cbn; by rewrite app_nil_r].
  intros w2 r objs w2' Hsome Hrun.
  destruct (load_ckpt_loaded _ _ _ _ _ _ _ _ _ Hsome Hrun) as (b & c & a & ->). done.
Qed.

(** C4: when the file exists (and holds the entries that are read),
    [load_ckpt] loads the stored states into exactly the objects that were
    handed in, leaves [None] where nothing was handed in, and returns the
    stored best value (0.0 when the checkpoint has none), config and args. *)
Theorem load_ckpt_found path model optimizer lr_scheduler strict w c cfg a :
  fs w !! path = Some c →
  ck_config c = Some cfg →
  ck_args c = Some a →
  (is_Some model → is_Some (ck_model c)) →
  (is_Some optimizer → is_Some (ck_optimizer c)) →
  (is_Some lr_scheduler → is_Some (ck_lr_scheduler c)) →
  ∃ model' optimizer' lr_scheduler' w',
    load_ckpt path model optimizer lr_scheduler strict w =
      Ok ((Loaded (default 0%Q (ck_best_value c)) cfg a,
           (model', optimizer', lr_scheduler')), w') ∧
    match model with
    | Some m => ∃ sd, ck_model c = Some sd ∧ model' = Some (load_state_dict sd strict m)
    | None => model' = None
    end ∧
    match optimizer with
    | Some o => ∃ sd, ck_optimizer c = Some sd ∧
                      optimizer' = Some (optimizer_load_state_dict sd o)
    | None => optimizer' = None
    end ∧
    match lr_scheduler with
    | Some s => ∃ sd, ck_lr_scheduler c = Some sd ∧
                      lr_scheduler' = Some (scheduler_load_state_dict sd s)
    | None => lr_scheduler' = None
    end ∧
    fs w' = fs w ∧ trace w' = trace w ++ [EvTorchLoad path].
Proof.
  intros Hc Hcfg Ha Hm Ho Hs. do 4 eexists.
  split; [by apply load_ckpt_run|].
  split; [|split; [|split; [|done]]].
  - destruct model as [m|]; [|done]. destruct Hm as [sd Hsd]; [eauto|].
    exists sd. by rewrite Hsd.
  - destruct optimizer as [o|]; [|done]. destruct Ho as [sd Hsd]; [eauto|].
    exists sd. by rewrite Hsd.
  - destruct lr_scheduler as [s|]; [|done]. destruct Hs as [sd Hsd]; [eauto|].
    exists sd. by rewrite Hsd.
Qed.

(** C3: [save_ckpt] hands [save_on_master] exactly the six-entry snapshot
    (state dict of the model, taken from the wrapped module when the model
    is a DistributedDataParallel; optimizer and scheduler state dicts; best
    value; config; args) for the output path: on the main process the file
    at that path then holds this snapshot and no other file changes. *)
Theorem save_ckpt_snapshot model optimizer lr_scheduler best_value cfg a path w :
  let c := {| ck_model :=
                Some (state_dict (if is_ddp model then module model else model));
              ck_optimizer := Some (optimizer_state_dict optimizer);
              ck_best_value := Some best_value;
              ck_lr_scheduler := Some (scheduler_state_dict lr_scheduler);
              ck_config := Some cfg;
              ck_args := Some a |} in
  ∃ w',
    save_ckpt model optimizer lr_scheduler best_value cfg a path w = Ok (tt, w') ∧
    trace w' = trace w ++ EvMakeParentDirs path ::
                 (if main_process w then [EvTorchSave path c] else []) ∧
    fs w' = (if main_process w then <[path := c]> (fs w) else fs w) ∧
    (if main_process w
     then fs w' !! path = Some c ∧ ∀ p, p ≠ path → fs w' !! p = fs w !! p
     else fs w' = fs w) ∧
    stdout w' = stdout w ∧ num_threads w' = num_threads w ∧
    grad_enabled w' = grad_enabled w ∧ main_process w' = main_process w.
Proof.
  intros c. eexists. split; [apply save_ckpt_run|].
  change (snapshot model optimizer lr_scheduler best_value cfg a) with c.
  cbv zeta. destruct (main_process w) eqn:Emain; cbn; rewrite ?app_nil_r, ?Emain.
  - repeat split; try done.
    + apply lookup_insert_eq.
    + intros p Hp. by apply lookup_insert_ne.
  - repeat split; done.
Qed.

(** X1: what [save_ckpt] writes on the main process, [load_ckpt] reads back:
    the states go into the objects handed in, and the best value, the
    config and the args are returned. *)
Theorem save_then_load model optimizer lr_scheduler best_value cfg a path
    (m : nn_model) (o : Optimizer) (sc : Scheduler) strict w :
  main_process w = true →
  ∃ w1 w2,
    save_ckpt model optimizer lr_scheduler best_value cfg a path w = Ok (tt, w1) ∧
    load_ckpt path (Some m) (Some o) (Some sc) strict w1 =
      Ok ((Loaded best_value cfg a,
           (Some (load_state_dict (state_dict (without_ddp model)) strict m),
            Some (optimizer_load_state_dict (optimizer_state_dict optimizer) o),
            Some (scheduler_load_state_dict (scheduler_state_dict lr_scheduler) sc))),
          w2) ∧
    fs w2 = fs w1.
Proof.
  intros Hm. do 2 eexists. split; [apply save_ckpt_run|].
  rewrite Hm. cbv zeta.
  rewrite (load_ckpt_run path (Some m) (Some o) (Some sc) strict _
             (snapshot model optimizer lr_scheduler best_value cfg a) cfg a);
    [split; reflexivity|..]; cbn; try done; try by eauto.
  apply lookup_insert_eq.
Qed.

(** ** Claims about [distill_one_epoch] and [evaluate] *)

Lemma count_cycle_events p use_apex bs :
  count_events p (flat_map (cycle_events use_apex) bs) =
    sum_list_with (λ b, count_events p (cycle_events use_apex b)) bs.
Proof.
  unfold count_events. induction bs as [|b bs IH]; [done|].
  cbn [flat_map sum_list_with]. by rewrite List.filter_app, length_app, IH.
Qed.

(** C5: [distill_one_epoch] runs one cycle per batch of the loader, each
    cycle being the forward pass that gives the loss, then zeroing the
    gradients, then the backward pass, then one optimizer step; so an epoch
    takes as many optimizer steps as there are batches. *)
Theorem distill_one_epoch_cycles box dl optimizer device epoch interval use_apex w :
  ∃ r w' evs,
    distill_one_epoch box dl optimizer device epoch interval use_apex w = Ok (r, w') ∧
    r = foldl (cycle use_apex) (box, optimizer) (batches dl) ∧
    trace w' = trace w ++ EvLogEvery (HeaderEpoch epoch) interval :: evs ∧
    evs = flat_map (λ b, [EvBoxForward b; EvZeroGrad; EvBackward use_apex;
                          EvOptimizerStep]) (batches dl) ∧
    count_events is_optimizer_step evs = length (batches dl) ∧
    count_events is_box_forward evs = length (batches dl) ∧
    fs w' = fs w ∧ stdout w' = stdout w.
Proof.
  do 3 eexists. split; [apply distill_one_epoch_run|].
  split; [done|]. split; [done|]. split; [done|].
  fold (cycle_events use_apex). rewrite !count_cycle_events. cbn.
  rewrite app_nil_r. repeat split; try done.
  all: induction (batches dl) as [|b bs IH]; cbn; [done|by rewrite IH].
Qed.

Lemma eval_events_inference interval split_name dl :
  Forall (λ e, is_inference_event e = true) (eval_events interval split_name dl).
Proof.
  unfold eval_events. constructor; [done|]. apply Forall_app. split; [|by repeat constructor].
  induction (batches dl) as [|b bs IH]; cbn; [constructor|]. by constructor.
Qed.

(** C7: [evaluate] is inference only.  Whenever it returns, the model it
    leaves is the model it got, put into eval mode (same wrapper, weights
    and gradients); the calls it made are the iteration of the loader,
    forward passes with autograd switched off, and the synchronisation of
    the meters; the thread count and the autograd switch are as before the
    call, and no file changed. *)
Theorem evaluate_inference_only model dl device interval split_name title w r model' w' :
  evaluate model dl device interval split_name title w = Ok ((r, model'), w') →
  model' = set_training false model ∧
  wrap model' = wrap model ∧ weights model' = weights model ∧
  grads model' = grads model ∧ training model' = false ∧
  num_threads w' = num_threads w ∧ grad_enabled w' = grad_enabled w ∧
  fs w' = fs w ∧
  ∃ evs, trace w' = trace w ++ evs ∧ Forall (λ e, is_inference_event e = true) evs.
Proof.
  rewrite evaluate_run. cbv zeta.
  destruct (_ || _); [discriminate|]. intros [= <- <- <-].
  repeat split; try done. eexists. split; [done|]. apply eval_events_inference.
Qed.

(** C6: when the data set holds at least one sample, [evaluate] returns the
    top-1 accuracy as the global average of the per-batch top-1 accuracies
    weighted by batch size, over the batches of all workers; this is the
    fraction of all samples whose true label is the highest-scored
    prediction.  The top-5 accuracy it prints is accumulated the same way
    and is the fraction of samples whose label is among the five
    highest-scored predictions. *)
Theorem evaluate_accuracy model dl device interval split_name title w :
  (0 < num_samples (all_batches dl))%nat →
  ∃ top1 top5 w',
    evaluate model dl device interval split_name title w =
      Ok ((top1, set_training false model), w') ∧
    stdout w' = stdout w ++ title_lines title ++ [MsgAcc top1 top5] ∧
    let m := set_training false model in
    let n := inject_Z (Z.of_nat (num_samples (all_batches dl))) in
    (top1 == weighted_sum 1 m (all_batches dl) / n)%Q ∧
    (top1 == inject_Z (Z.of_nat (num_correct 1 m (all_batches dl))) / n)%Q ∧
    (top5 == weighted_sum 5 m (all_batches dl) / n)%Q ∧
    (top5 == inject_Z (Z.of_nat (num_correct 5 m (all_batches dl))) / n)%Q.
Proof.
  intros Hn. do 3 eexists. split; [by apply evaluate_ok|]. split; [done|].
  cbv zeta. set (m := set_training false model).
  destruct (eval_meters_count m dl) as [Hc1 Hc5].
  destruct (eval_meters_total m dl) as [Ht1 Ht5].
  unfold avg. rewrite Hc1, Hc5, Ht1, Ht5, !weighted_sum_correct.
  repeat split; reflexivity.
Qed.

(** ** Claims about [distill] *)

Lemma Exists_lt_Forall_le (b : Q) (l : list Q) :
  Exists (λ x, (b < x)%Q) l → Forall (λ x, (x <= b)%Q) l → False.
Proof.
  rewrite Exists_exists, Forall_forall. intros (x & Hin & Hlt) Hall.
  exact (Qlt_not_le _ _ Hlt (Hall x Hin)).
Qed.

(** One epoch, seen from outside. *)
Lemma epoch_summary train_dl val_dl device distributed cfg a path i st e w :
  (0 < num_samples (all_batches val_dl))%nat →
  ∃ st' w' acc out evs,
    distill_epoch train_dl val_dl device distributed cfg a path i st e w = Ok (st', w') ∧
    stdout w' = stdout w ++ out ∧ val_accuracies out = [acc] ∧
    trace w' = trace w ++ evs ∧
    ((∃ c, EvTorchSave path c ∈ evs) ↔
       ((best_val_top1_accuracy st < acc)%Q ∧ main_process w = true)) ∧
    best_val_top1_accuracy st' =
      (if Qgtb acc (best_val_top1_accuracy st) && main_process w
       then acc else best_val_top1_accuracy st) ∧
    (if Qgtb acc (best_val_top1_accuracy st) && main_process w
     then ∃ c, fs w' = <[path := c]> (fs w) ∧ ck_best_value c = Some acc
     else fs w' = fs w).
Proof.
  intros Hn. do 5 eexists. split; [by apply distill_epoch_run|].
  split; [apply stdout_epoch_world|]. split; [apply val_accuracies_epoch|].
  split; [apply trace_epoch_world|].
  rewrite fs_epoch_world. unfold epoch_better.
  set (acc := epoch_accuracy train_dl val_dl a st). split; [|split].
  - unfold epoch_events, save_events, epoch_better, train_events, eval_events. fold acc.
    rewrite <- Qgtb_lt, <- andb_true_iff.
    destruct (Qgtb acc _ && main_process w) eqn:Eb; split; try done.
    + intros _. eexists. rewrite !elem_of_app. do 3 right. left. right. left.
    + intros [c Hin]. exfalso.
      pose proof (epoch_events_no_save train_dl val_dl distributed cfg a path i
                    (main_process w) st e) as Hno.
      unfold epoch_better in Hno. fold acc in Hno.
      specialize (Hno Eb). rewrite Forall_forall in Hno.
      unfold epoch_events, save_events, epoch_better, train_events, eval_events in Hno.
      fold acc in Hno. rewrite Eb in Hno.
      by specialize (Hno _ Hin).
  - cbn. unfold epoch_better. by fold acc.
  - fold acc. destruct (Qgtb acc _ && main_process w); [|done]. by eexists.
Qed.

(** Any number of epochs, seen from outside. *)
Lemma loop_summary train_dl val_dl device distributed cfg a path i es st w :
  (0 < num_samples (all_batches val_dl))%nat →
  ∃ st' w' out,
    for_each es st (distill_epoch train_dl val_dl device distributed cfg a path i) w =
      Ok (st', w') ∧
    stdout w' = stdout w ++ out ∧
    main_process w' = main_process w ∧
    length (val_accuracies out) = length es ∧
    (if main_process w
     then is_max (best_val_top1_accuracy st')
                 (best_val_top1_accuracy st :: val_accuracies out) ∧
          (Exists (λ x, (best_val_top1_accuracy st < x)%Q) (val_accuracies out) →
           ∃ c, fs w' = <[path := c]> (fs w) ∧
                ck_best_value c = Some (best_val_top1_accuracy st')) ∧
          (Forall (λ x, (x <= best_val_top1_accuracy st)%Q) (val_accuracies out) →
           fs w' = fs w ∧ best_val_top1_accuracy st' = best_val_top1_accuracy st)
     else best_val_top1_accuracy st' = best_val_top1_accuracy st ∧ fs w' = fs w).
Proof.
  intros Hn. do 3 eexists. split; [by apply loop_run|].
  split; [apply stdout_loop_world|]. split; [apply main_process_loop_world|].
  rewrite val_accuracies_loop. split; [apply loop_accuracies_length|].
  destruct (main_process w) eqn:Hm.
  - split; [apply loop_best_max|].
    destruct (loop_fs_main train_dl val_dl distributed cfg a path i es st w Hm)
      as [(Hall & Hfs & Hbest)|(Hex & c & Hfs & Hc & _)].
    + split; [|done]. intros Hex. destruct (Exists_lt_Forall_le _ _ Hex Hall).
    + split; [by eauto|]. intros Hall. destruct (Exists_lt_Forall_le _ _ Hex Hall).
  - split; [apply loop_best_other|by apply loop_fs_other].
Qed.

Lemma range_length start stop : length (range start stop) = Z.to_nat (stop - start).
Proof. apply length_seqZ. Qed.


Lemma val_accuracies_setup file : val_accuracies (setup_lines file) = [].
Proof. unfold setup_lines. by destruct file. Qed.


(** C10: the interval [distill] logs with is at least 1.  A positive
    configured interval is used as it is; one that is zero or negative is
    replaced by the number of training batches divided by 20 (rounding
    down) when there are at least 20 batches, and by 1 otherwise.  Every
    training and validation pass of the run is logged with that interval:
    these are all the passes up to the barrier of line 176, after which
    [distill] logs no pass (it returns, or raises without a process
    group). *)
Theorem log_interval_at_least_one teacher student train_dl val_dl device distributed
    start_epoch cfg a w :
  let path := mimic_model_ckpt cfg in
  let configured := interval (train cfg) in
  let num_batches := Z.of_nat (length (batches train_dl)) in
  let i := log_interval configured num_batches in
  ckpt_ok (fs w !! path) →
  (0 < num_samples (all_batches val_dl))%nat →
  1 <= i ∧
  (0 < configured → i = configured) ∧
  (configured <= 0 → 20 <= num_batches → i = num_batches `div` 20) ∧
  (configured <= 0 → num_batches < 20 → i = 1) ∧
  ∃ st' w' evs,
    distill_loop teacher student train_dl val_dl device distributed start_epoch cfg a w =
      Ok (st', w') ∧
    trace w' = trace w ++ evs ∧
    (∀ h j, EvLogEvery h j ∈ evs → j = i) ∧
    (∀ e, start_epoch <= e < epoch (train cfg) →
       EvLogEvery (HeaderEpoch e) i ∈ evs ∧
       EvLogEvery (HeaderSplit "Validation") i ∈ evs) ∧
    (if process_group w
     then ∃ w'',
            distill teacher student train_dl val_dl device distributed start_epoch cfg a w =
              Ok (st', w'') ∧
            trace w'' = trace w' ++ [EvBarrier]
     else distill teacher student train_dl val_dl device distributed start_epoch cfg a w =
            Raise ProcessGroupError).
Proof.
  intros path configured num_batches i Hok Hn.
  assert (1 <= i ∧ (0 < configured → i = configured) ∧
          (configured <= 0 → 20 <= num_batches → i = num_batches `div` 20) ∧
          (configured <= 0 → num_batches < 20 → i = 1)) as Harith.
  { subst i. unfold log_interval.
    destruct (Z.leb_spec configured 0), (Z.leb_spec 20 num_batches);
      repeat split; try lia.
    apply (Z.div_le_lower_bound num_batches 20 1); lia. }
  destruct Harith as (H1 & H2 & H3 & H4). repeat (split; [done|]).
  pose proof (distill_loop_run teacher student train_dl val_dl device distributed
                start_epoch cfg a w Hok Hn) as Hloop. cbv zeta in Hloop.
  eexists _, _, (setup_events path (fs w !! path) ++
                 concat (loop_events train_dl val_dl distributed cfg a path i
                           (main_process w) (range start_epoch (epoch (train cfg)))
                           (setup_state teacher student cfg (fs w !! path)))).
  split; [exact Hloop|].
  split.
  { rewrite trace_loop_world. cbn [trace extend main_process].
    rewrite <- !app_assoc. reflexivity. }
  split; [|split].
  - intros h j Hin.
    assert (Forall (logs_with i)
              (setup_events path (fs w !! path) ++
               concat (loop_events train_dl val_dl distributed cfg a path i
                         (main_process w) (range start_epoch (epoch (train cfg)))
                         (setup_state teacher student cfg (fs w !! path))))) as Hall.
    { rewrite !Forall_app. split; [|apply loop_events_logs].
      unfold setup_events. destruct (fs w !! path); by repeat constructor. }
    rewrite Forall_forall in Hall. exact (Hall _ Hin).
  - intros e He.
    assert (e ∈ range start_epoch (epoch (train cfg))) as Hin
      by (unfold range; apply elem_of_seqZ; lia).
    pose proof (loop_events_has_logs train_dl val_dl distributed cfg a path i
                  (main_process w) _ (setup_state teacher student cfg (fs w !! path))
                  e Hin) as [Ht Hv].
    rewrite !elem_of_app. split; by right.
  - pose proof (distill_outcome _ _ _ _ _ _ _ _ _ _ _ _ Hok Hn Hloop) as Hout.
    destruct (process_group w); [|exact Hout].
    destruct Hout as (w'' & Hrun & Htr & _). by exists w''.
Qed.

(** The checkpoint a loop on the main process leaves, once an accuracy has
    exceeded the first value of the running best. *)
Lemma loop_best_file train_dl val_dl device distributed cfg a path i es st w :
  (0 < num_samples (all_batches val_dl))%nat →
  main_process w = true →
  Exists (λ x, (best_val_top1_accuracy st < x)%Q) (loop_accuracies train_dl val_dl a true es st) →
  ∃ c,
    fs (loop_world train_dl val_dl distributed cfg a path i es st w) = <[path := c]> (fs w) ∧
    ck_best_value c = Some (best_val_top1_accuracy (loop_state train_dl val_dl a true es st)) ∧
    full c ∧
    ∃ k stk wk,
      for_each (take (S k) es) st
        (distill_epoch train_dl val_dl device distributed cfg a path i) w = Ok (stk, wk) ∧
      loop_accuracies train_dl val_dl a true es st !! k =
        Some (best_val_top1_accuracy (loop_state train_dl val_dl a true es st)) ∧
      ck_model c = Some (state_dict (without_ddp (student_model (st_box stk)))).
Proof.
  intros Hn Hm Hex. rewrite fs_loop_world, Hm.
  destruct (loop_saved train_dl val_dl cfg a true es st) as [c|] eqn:E.
  - destruct (loop_saved_best _ _ _ _ _ _ _ _ E) as (k & e & Hk & Hmod & Hb & Ha & Hf).
    exists c. split; [done|]. split; [exact Hb|]. split; [exact Hf|].
    eexists k, _, _. split; [rewrite loop_run by done; rewrite Hm; reflexivity|].
    split; [exact Ha|exact Hmod].
  - apply loop_saved_none_le in E. destruct (Exists_lt_Forall_le _ _ Hex E).
Qed.

(** C1, amended: a checkpoint is written in an epoch exactly when the
    validation top-1 accuracy of the epoch strictly exceeds the running best
    and the process is the main process.  On the main process the running
    best is, after any number of epochs, the greatest of its first value
    (0.0 in [distill]) and the validation accuracies seen so far, and once
    an accuracy has exceeded that first value the checkpoint on disk is the
    best one: it stores the running best as its best value and the student
    as it was left by the epoch that reached it; until then the files are
    as they were.  On any other process the running best never moves and
    nothing is written.  After the loop [distill] calls the barrier of line
    176: it returns when the process group is initialised, and raises
    otherwise. *)
Theorem best_checkpoint teacher student train_dl val_dl device distributed
    start_epoch cfg a w :
  let path := mimic_model_ckpt cfg in
  let i := log_interval (interval (train cfg)) (Z.of_nat (length (batches train_dl))) in
  let body := distill_epoch train_dl val_dl device distributed cfg a path i in
  let es := range start_epoch (epoch (train cfg)) in
  ckpt_ok (fs w !! path) →
  (0 < num_samples (all_batches val_dl))%nat →
  (* one epoch, from any state *)
  (∀ st e w1, ∃ st' w1' acc out evs,
     body st e w1 = Ok (st', w1') ∧
     stdout w1' = stdout w1 ++ out ∧ val_accuracies out = [acc] ∧
     trace w1' = trace w1 ++ evs ∧
     ((∃ c, EvTorchSave path c ∈ evs) ↔
        ((best_val_top1_accuracy st < acc)%Q ∧ main_process w1 = true)) ∧
     best_val_top1_accuracy st' =
       (if Qgtb acc (best_val_top1_accuracy st) && main_process w1
        then acc else best_val_top1_accuracy st)) ∧
  (* any number of epochs, from any state *)
  (∀ es st w1, ∃ st' w1' out,
     for_each es st body w1 = Ok (st', w1') ∧
     stdout w1' = stdout w1 ++ out ∧
     length (val_accuracies out) = length es ∧
     (if main_process w1
      then is_max (best_val_top1_accuracy st')
                  (best_val_top1_accuracy st :: val_accuracies out) ∧
           (Exists (λ x, (best_val_top1_accuracy st < x)%Q) (val_accuracies out) →
            ∃ c, fs w1' = <[path := c]> (fs w1) ∧
                 ck_best_value c = Some (best_val_top1_accuracy st') ∧
                 ∃ k stk wk,
                   for_each (take (S k) es) st body w1 = Ok (stk, wk) ∧
                   val_accuracies out !! k = Some (best_val_top1_accuracy st') ∧
                   ck_model c =
                     Some (state_dict (without_ddp (student_model (st_box stk))))) ∧
           (Forall (λ x, (x <= best_val_top1_accuracy st)%Q) (val_accuracies out) →
            fs w1' = fs w1)
      else best_val_top1_accuracy st' = best_val_top1_accuracy st ∧ fs w1' = fs w1)) ∧
  (* the whole of distill *)
  ∃ st0 w0 st' w' out,
    distill_setup teacher student cfg w = Ok (st0, w0) ∧
    distill_loop teacher student train_dl val_dl device distributed start_epoch cfg a w =
      Ok (st', w') ∧
    stdout w' = stdout w ++ out ∧
    length (val_accuracies out) = Z.to_nat (epoch (train cfg) - start_epoch) ∧
    (if main_process w
     then is_max (best_val_top1_accuracy st') (0%Q :: val_accuracies out) ∧
          (Exists (λ x, (0 < x)%Q) (val_accuracies out) →
           ∃ c, fs w' !! path = Some c ∧
                ck_best_value c = Some (best_val_top1_accuracy st') ∧
                ∃ k stk wk,
                  for_each (take (S k) es) st0 body w0 = Ok (stk, wk) ∧
                  val_accuracies out !! k = Some (best_val_top1_accuracy st') ∧
                  ck_model c =
                    Some (state_dict (without_ddp (student_model (st_box stk))))) ∧
          (Forall (λ x, (x <= 0)%Q) (val_accuracies out) → fs w' = fs w)
     else best_val_top1_accuracy st' = 0%Q ∧ fs w' = fs w) ∧
    (if process_group w
     then ∃ w'',
            distill teacher student train_dl val_dl device distributed start_epoch cfg a w =
              Ok (st', w'') ∧
            stdout w'' = stdout w' ++ [MsgTrainingTime] ∧
            fs w'' = peer_writes w ∪ fs w'
     else distill teacher student train_dl val_dl device distributed start_epoch cfg a w =
            Raise ProcessGroupError).
Proof.
  intros path i body es Hok Hn. split; [|split].
  - intros st e w1.
    destruct (epoch_summary train_dl val_dl device distributed cfg a path i st e w1 Hn)
      as (st' & w1' & acc & out & evs & Hrun & Hout & Hacc & Htr & Hiff & Hbest & _).
    by exists st', w1', acc, out, evs.
  - intros es1 st w1.
    eexists _, _, (loop_lines train_dl val_dl a (main_process w1) es1 st).
    split; [by apply loop_run|]. split; [apply stdout_loop_world|].
    rewrite val_accuracies_loop. split; [apply loop_accuracies_length|].
    destruct (main_process w1) eqn:Hm.
    + split; [apply loop_best_max|]. split.
      * intros Hex.
        destruct (loop_best_file train_dl val_dl device distributed cfg a path i es1 st w1
                    Hn Hm Hex) as (c & Hfs & Hb & _ & k & stk & wk & Hrun & Hacc & Hmod).
        exists c. split; [exact Hfs|]. split; [exact Hb|]. by exists k, stk, wk.
      * intros Hall.
        destruct (loop_fs_main train_dl val_dl distributed cfg a path i es1 st w1 Hm)
          as [(_ & Hfs & _)|(Hex & _)]; [exact Hfs|].
        destruct (Exists_lt_Forall_le _ _ Hex Hall).
    + split; [apply loop_best_other|by apply loop_fs_other].
  - set (st0 := setup_state teacher student cfg (fs w !! path)).
    set (w0 := extend (setup_events path (fs w !! path)) (setup_lines (fs w !! path)) w).
    pose proof (distill_loop_run teacher student train_dl val_dl device distributed
                  start_epoch cfg a w Hok Hn) as Hloop. cbv zeta in Hloop.
    fold path i es st0 w0 in Hloop.
    eexists st0, w0, _, _, (setup_lines (fs w !! path) ++
                            loop_lines train_dl val_dl a (main_process w) es st0).
    split; [by apply distill_setup_run|]. split; [exact Hloop|].
    split.
    { rewrite stdout_loop_world. subst w0. cbn [stdout extend main_process].
      rewrite <- !app_assoc. reflexivity. }
    rewrite !val_accuracies_app, val_accuracies_setup, val_accuracies_loop.
    cbn [app].
    split; [subst es; by rewrite loop_accuracies_length, range_length|].
    assert (main_process w0 = main_process w) as Hw0 by done.
    assert (fs w0 = fs w) as Hfs0 by done.
    split.
    + destruct (main_process w) eqn:Hm.
      * split; [apply (loop_best_max train_dl val_dl a es st0)|]. split.
        -- intros Hex.
           destruct (loop_best_file train_dl val_dl device distributed cfg a path i es st0
                       w0 Hn Hw0 Hex) as (c & Hfs & Hb & _ & k & stk & wk & Hrun & Hacc & Hmod).
           exists c. split.
           { etrans; [exact (f_equal (λ m, m !! path) Hfs)|]. apply lookup_insert_eq. }
           split; [exact Hb|]. by exists k, stk, wk.
        -- intros Hall.
           destruct (loop_fs_main train_dl val_dl distributed cfg a path i es st0 w0 Hw0)
             as [(_ & Hfs & _)|(Hex & _)]; [exact (eq_trans Hfs Hfs0)|].
           destruct (Exists_lt_Forall_le _ _ Hex Hall).
      * split; [apply (loop_best_other train_dl val_dl a es st0)|].
        exact (eq_trans (loop_fs_other train_dl val_dl distributed cfg a path i es st0 w0 Hw0)
                        Hfs0).
    + pose proof (distill_outcome _ _ _ _ _ _ _ _ _ _ _ _ Hok Hn Hloop) as Hout.
      destruct (process_group w); [|exact Hout].
      destruct Hout as (w'' & Hrun & _ & Hstd & Hfs). by exists w''.
Qed.

(** C8: when the checkpoint file exists as [distill] starts, the stored
    optimizer and scheduler states are loaded and nothing else: the student
    is the one handed in, and the running best starts at 0.0 whatever best
    value the file stores.  So, on the main process, as long as no
    validation accuracy is positive the file stays as it was, and the first
    epoch whose validation accuracy is positive writes the checkpoint anew
    with that accuracy as best value, be it lower than the stored one. *)
Theorem resume_forgets_best teacher student train_dl val_dl device distributed cfg a w c :
  let path := mimic_model_ckpt cfg in
  let i := log_interval (interval (train cfg)) (Z.of_nat (length (batches train_dl))) in
  let body := distill_epoch train_dl val_dl device distributed cfg a path i in
  let optimizer := get_optimizer student (optimizer_config (train cfg)) in
  let lr_scheduler := get_scheduler optimizer (scheduler_config (train cfg)) in
  fs w !! path = Some c →
  resumable c →
  (0 < num_samples (all_batches val_dl))%nat →
  main_process w = true →
  ∃ st0 w0 sdo sds,
    distill_setup teacher student cfg w = Ok (st0, w0) ∧
    ck_optimizer c = Some sdo ∧ ck_lr_scheduler c = Some sds ∧
    st_optimizer st0 = optimizer_load_state_dict sdo optimizer ∧
    st_lr_scheduler st0 = scheduler_load_state_dict sds lr_scheduler ∧
    student_model (st_box st0) = student ∧
    teacher_model (st_box st0) = teacher ∧
    best_val_top1_accuracy st0 = 0%Q ∧
    fs w0 = fs w ∧ trace w0 = trace w ++ [EvTorchLoad path] ∧
    ∀ es, ∃ st1 w1 out,
      for_each es st0 body w0 = Ok (st1, w1) ∧
      stdout w1 = stdout w0 ++ out ∧
      (Forall (λ x, (x <= 0)%Q) (val_accuracies out) →
       fs w1 = fs w ∧ best_val_top1_accuracy st1 = 0%Q ∧
       ∀ e, ∃ st2 w2 acc out2,
         body st1 e w1 = Ok (st2, w2) ∧
         stdout w2 = stdout w1 ++ out2 ∧ val_accuracies out2 = [acc] ∧
         ((0 < acc)%Q →
          ∃ c', fs w2 !! path = Some c' ∧ ck_best_value c' = Some acc ∧
                best_val_top1_accuracy st2 = acc)).
Proof.
  intros path i body optimizer lr_scheduler Hc Hres Hn Hm.
  pose proof Hres as ([sdo Ho] & [sds Hs] & _ & _).
  pose proof (distill_setup_run teacher student cfg w) as Hsetup.
  cbv zeta in Hsetup. fold path in Hsetup. rewrite Hc in Hsetup.
  specialize (Hsetup Hres).
  eexists _, _, sdo, sds. split; [exact Hsetup|].
  split; [done|]. split; [done|].
  split; [cbn; by rewrite Ho|]. split; [cbn; by rewrite Hs|].
  do 5 (split; [done|]).
  intros es.
  set (st0 := setup_state teacher student cfg (Some c)).
  set (w0 := extend _ _ w).
  destruct (loop_summary train_dl val_dl device distributed cfg a path i es st0 w0 Hn)
    as (st1 & w1 & out & Hrun & Hout & Hmain & _ & Hcases).
  exists st1, w1, out. split; [exact Hrun|]. split; [exact Hout|].
  change (main_process w0) with (main_process w) in *. rewrite Hm in *.
  change (best_val_top1_accuracy st0) with 0%Q in *.
  change (fs w0) with (fs w) in *.
  destruct Hcases as (_ & _ & Hkeep). intros Hall.
  destruct (Hkeep Hall) as [Hfs Hbest]. split; [exact Hfs|]. split; [exact Hbest|].
  intros e.
  destruct (epoch_summary train_dl val_dl device distributed cfg a path i st1 e w1 Hn)
    as (st2 & w2 & acc & out2 & evs & Hrun2 & Hout2 & Hacc & _ & _ & Hbest2 & Hfs2).
  exists st2, w2, acc, out2. split; [exact Hrun2|]. split; [exact Hout2|].
  split; [exact Hacc|]. intros Hpos.
  rewrite Hmain, Hbest, andb_true_r in *.
  assert (Qgtb acc 0 = true) as Hgt by (by apply Qgtb_lt).
  rewrite Hgt in *. destruct Hfs2 as (c' & Hfs2 & Hc').
  exists c'. split; [|done]. rewrite Hfs2. apply lookup_insert_eq.
Qed.

End Claims.

(** * Further properties of the script *)

Section Further.
Context `{F : Framework}.

(** ** Checkpoints that lack an entry *)

(** X2: [load_ckpt] on a file that is there: the entries of the objects handed
    in, then 'config' and 'args', are indexed in this order; the first one
    the checkpoint lacks is the key of the KeyError raised, and the call
    returns a triple when none is lacking.  'best_value' is never the key. *)
Theorem load_ckpt_key_error path model optimizer lr_scheduler strict w c :
  fs w !! path = Some c →
  match first_missing (entries_read (has model) (has optimizer) (has lr_scheduler) c) with
  | Some k => load_ckpt path model optimizer lr_scheduler strict w = Raise (KeyError k)
  | None =>
      ∃ cfg a objs w',
        load_ckpt path model optimizer lr_scheduler strict w =
          Ok ((Loaded (default 0%Q (ck_best_value c)) cfg a, objs), w')
  end.
Proof.
  intros Hc. destruct (first_missing _) as [k|] eqn:E.
  - by eapply load_ckpt_raises.
  - apply first_missing_none in E as (Hm & Ho & Hs & [cf Hcf] & [ar Har]).
    do 4 eexists. eapply load_ckpt_run; eauto using has_is_Some.
Qed.

(** X3: [distill] on a checkpoint that lacks the optimizer state, the scheduler
    state, the config or the args raises the KeyError of the first of them
    before any epoch is run, whatever the data. *)
Theorem distill_resume_key_error teacher student train_dl val_dl device distributed
    start_epoch cfg a w c k :
  fs w !! mimic_model_ckpt cfg = Some c →
  first_missing (entries_read false true true c) = Some k →
  distill teacher student train_dl val_dl device distributed start_epoch cfg a w =
    Raise (KeyError k).
Proof.
  intros Hc Hk.
  assert (distill_setup teacher student cfg w = Raise (KeyError k)) as Hsetup.
  { unfold distill_setup.
    unfold mbind at 1, M_bind at 1, print at 1.
    unfold mbind at 1, M_bind at 1, check_if_exists at 1. cbn [fs extend].
    rewrite Hc, bool_decide_eq_true_2 by eauto.
    unfold mbind at 1, M_bind at 1. unfold mbind at 1, M_bind at 1.
    by erewrite load_ckpt_raises. }
  unfold distill, distill_loop. unfold mbind at 1, M_bind at 1.
  unfold mbind at 1, M_bind at 1. by rewrite Hsetup.
Qed.

(** ** Runs of [distill] *)

(** X4: with [start_epoch] at or beyond [train_config['epoch']], [distill]
    runs no epoch: up to the barrier it only loads the optimizer and
    scheduler states if a checkpoint is there; the models are not touched,
    no file is written, and the validation set is not looked at (it may be
    empty).  It then calls the barrier of line 176, and returns if the
    process group is initialised and raises if not. *)
Theorem distill_no_epochs teacher student train_dl val_dl device distributed
    start_epoch cfg a w :
  let path := mimic_model_ckpt cfg in
  ckpt_ok (fs w !! path) →
  epoch (train cfg) <= start_epoch →
  ∃ st w',
    distill_loop teacher student train_dl val_dl device distributed start_epoch cfg a w =
      Ok (st, w') ∧
    teacher_model (st_box st) = teacher ∧ student_model (st_box st) = student ∧
    best_val_top1_accuracy st = 0%Q ∧
    trace w' = trace w ++ (if fs w !! path is Some _ then [EvTorchLoad path] else []) ∧
    fs w' = fs w ∧
    (if process_group w
     then ∃ w'',
            distill teacher student train_dl val_dl device distributed start_epoch cfg a w =
              Ok (st, w'') ∧
            trace w'' = trace w' ++ [EvBarrier] ∧
            fs w'' = peer_writes w ∪ fs w
     else distill teacher student train_dl val_dl device distributed start_epoch cfg a w =
            Raise ProcessGroupError).
Proof.
  intros path Hok Hle.
  assert (distill_loop teacher student train_dl val_dl device distributed start_epoch
            cfg a w =
          Ok (setup_state teacher student cfg (fs w !! path),
              extend (setup_events path (fs w !! path)) (setup_lines (fs w !! path)) w))
    as Hloop.
  { unfold distill_loop. unfold mbind at 1, M_bind at 1.
    rewrite distill_setup_run by done. unfold range. by rewrite seqZ_nil by lia. }
  do 2 eexists. split; [exact Hloop|]. do 5 (split; [done|]).
  rewrite (distill_after_loop _ _ _ _ _ _ _ _ _ _ _ _ Hloop). cbn [process_group extend].
  destruct (process_group w); [|done].
  eexists. split; [reflexivity|]. by cbn.
Qed.

(** X5: a run of at least one epoch leaves both models in eval mode: the
    teacher by [teacher_model.eval()], the student by the [model.eval()] of
    the validation that ends the last epoch.  This is how the loop leaves
    them, and how [distill] returns them when it passes the barrier. *)
Theorem distill_leaves_eval_mode teacher student train_dl val_dl device distributed
    start_epoch cfg a w :
  ckpt_ok (fs w !! mimic_model_ckpt cfg) →
  (0 < num_samples (all_batches val_dl))%nat →
  start_epoch < epoch (train cfg) →
  ∃ st w',
    distill_loop teacher student train_dl val_dl device distributed start_epoch cfg a w =
      Ok (st, w') ∧
    training (student_model (st_box st)) = false ∧
    training (teacher_model (st_box st)) = false ∧
    (if process_group w
     then ∃ w'',
            distill teacher student train_dl val_dl device distributed start_epoch cfg a w =
              Ok (st, w'')
     else distill teacher student train_dl val_dl device distributed start_epoch cfg a w =
            Raise ProcessGroupError).
Proof.
  intros Hok Hn Hlt.
  pose proof (distill_loop_run teacher student train_dl val_dl device distributed
                start_epoch cfg a w Hok Hn) as Hloop. cbv zeta in Hloop.
  do 2 eexists. split; [exact Hloop|].
  destruct (loop_state_modes train_dl val_dl a (main_process w)
              (range start_epoch (epoch (train cfg)))
              (setup_state teacher student cfg (fs w !! mimic_model_ckpt cfg)))
    as [Hs Ht].
  - intros Hnil. apply (f_equal length) in Hnil. rewrite range_length in Hnil.
    cbn in Hnil. lia.
  - split; [exact Hs|]. split; [by rewrite Ht|].
    pose proof (distill_outcome _ _ _ _ _ _ _ _ _ _ _ _ Hok Hn Hloop) as Hout.
    destruct (process_group w); [|exact Hout].
    destruct Hout as (w'' & Hrun & _). by exists w''.
Qed.

Lemma train_events_no_save use_apex e i dl :
  Forall (λ ev, is_save ev = false) (train_events use_apex e i dl).
Proof.
  unfold train_events. constructor; [done|].
  induction (batches dl) as [|b bs IH]; cbn; [constructor|].
  by repeat (constructor; [done|]).
Qed.

Lemma eval_events_no_save i split_name dl :
  Forall (λ ev, is_save ev = false) (eval_events i split_name dl).
Proof.
  unfold eval_events. constructor; [done|]. apply Forall_app. split; [|by repeat constructor].
  induction (batches dl) as [|b bs IH]; cbn; [constructor|]. by constructor.
Qed.

Lemma epoch_events_save train_dl val_dl distributed cfg a path i main st e p c :
  EvTorchSave p c ∈ epoch_events train_dl val_dl distributed cfg a path i main st e →
  epoch_better train_dl val_dl a main st = true ∧ p = path ∧
  c = epoch_snapshot train_dl val_dl cfg a st.
Proof.
  unfold epoch_events, save_events. rewrite !elem_of_app.
  intros [Hin|[Hin|[Hin|[Hin|Hin]]]].
  - destruct distributed; [|by apply elem_of_nil in Hin].
    by apply list_elem_of_singleton in Hin.
  - pose proof (train_events_no_save (apex a) e i train_dl) as Hno.
    rewrite Forall_forall in Hno. by specialize (Hno _ Hin).
  - pose proof (eval_events_no_save i "Validation" val_dl) as Hno.
    rewrite Forall_forall in Hno. by specialize (Hno _ Hin).
  - destruct (epoch_better _ _ _ _ _); [|by apply elem_of_nil in Hin].
    apply elem_of_cons in Hin as [?|Hin]; [done|].
    apply list_elem_of_singleton in Hin. by injection Hin as -> ->.
  - by apply list_elem_of_singleton in Hin.
Qed.

(** X6: whenever an epoch of [distill] saves, it is on the main process and to
    the checkpoint path, and the file then holds: the student as the epoch
    leaves it, the running best as the epoch leaves it, the optimizer as it
    is after the training pass, and the scheduler as it was before the
    epoch, that is one [lr_scheduler.step()] behind the scheduler the loop
    goes on with. *)
Theorem distill_epoch_checkpoint train_dl val_dl device distributed cfg a path i st e w :
  (0 < num_samples (all_batches val_dl))%nat →
  ∃ st' w' evs o,
    distill_epoch train_dl val_dl device distributed cfg a path i st e w = Ok (st', w') ∧
    trace w' = trace w ++ evs ∧
    (st_lr_scheduler st', st_optimizer st') = scheduler_step (st_lr_scheduler st) o ∧
    ∀ p c, EvTorchSave p c ∈ evs →
      p = path ∧ main_process w = true ∧ fs w' !! path = Some c ∧
      c = {| ck_model := Some (state_dict (without_ddp (student_model (st_box st'))));
             ck_optimizer := Some (optimizer_state_dict o);
             ck_best_value := Some (best_val_top1_accuracy st');
             ck_lr_scheduler := Some (scheduler_state_dict (st_lr_scheduler st));
             ck_config := Some cfg;
             ck_args := Some a |}.
Proof.
  intros Hn.
  eexists _, _, (epoch_events train_dl val_dl distributed cfg a path i (main_process w) st e),
    (epoch_trained train_dl a st).2.
  split; [by apply distill_epoch_run|]. split; [apply trace_epoch_world|].
  split; [cbn; by destruct (scheduler_step _ _)|].
  intros p c Hin. apply epoch_events_save in Hin as (Hb & -> & ->).
  split; [done|]. split.
  { unfold epoch_better in Hb. by apply andb_true_iff in Hb as [_ ?]. }
  rewrite fs_epoch_world, Hb. split; [apply lookup_insert_eq|].
  unfold epoch_snapshot, snapshot. cbn [epoch_state st_box with_student student_model
    best_val_top1_accuracy]. by rewrite Hb, without_ddp_idemp.
Qed.

Lemma into_wrapper_same m : into_wrapper m (Some (without_ddp m)) = m.
Proof. unfold into_wrapper, without_ddp, is_ddp. by destruct m as [[] ? ? ?]. Qed.

(** [load_ckpt] for a model alone, on a file that is complete or missing. *)
Lemma load_model_run path m w :
  match fs w !! path with Some c => complete c | None => True end →
  ∃ r w',
    load_ckpt path (Some m) None None true w =
      Ok ((r, (Some (match fs w !! path ≫= ck_model with
                     | Some sd => load_state_dict sd true m
                     | None => m
                     end), None, None)), w') ∧
    fs w' = fs w ∧
    trace w' = trace w ++ (if fs w !! path is Some _ then [EvTorchLoad path] else []) ∧
    stdout w' = stdout w ++ (if fs w !! path is Some _ then [MsgLoadingModel]
                             else [MsgCkptNotFound path]).
Proof.
  destruct (fs w !! path) as [c|] eqn:Hc.
  - intros ([sd Hsd] & _ & _ & [cf Hcf] & [ar Har]). do 2 eexists.
    erewrite load_ckpt_run; [|exact Hc|exact Hcf|exact Har|by eauto|by intros [? ?]..].
    cbn. rewrite Hsd. split; [reflexivity|]. by cbn.
  - intros _. do 2 eexists. rewrite load_ckpt_missing by done.
    split; [reflexivity|]. cbn. by rewrite app_nil_r.
Qed.

(** X7: up to its barrier [distill] writes no file but the checkpoint of
    the student, and what it leaves there is the file it found or a
    checkpoint of this run with all six entries.  A later call of [distill]
    can always resume from the file; [load_ckpt] can load it into a model
    when it holds a model state, as every file written by this run does; a
    file without one is the file found at the start, left as it was, and
    loading it into a model raises. *)
Theorem distill_leaves_complete_ckpt teacher student train_dl val_dl device distributed
    start_epoch cfg a w :
  let path := mimic_model_ckpt cfg in
  ckpt_ok (fs w !! path) →
  (0 < num_samples (all_batches val_dl))%nat →
  ∃ st w',
    distill_loop teacher student train_dl val_dl device distributed start_epoch cfg a w =
      Ok (st, w') ∧
    (∀ p, p ≠ path → fs w' !! p = fs w !! p) ∧
    (fs w' !! path = fs w !! path ∨
     ∃ c, fs w' !! path = Some c ∧ full c ∧
          ck_config c = Some cfg ∧ ck_args c = Some a) ∧
    (* resuming *)
    (∀ teacher2 student2, ∃ st2 w2,
       distill_setup teacher2 student2 cfg w' = Ok (st2, w2)) ∧
    (* loading into a model *)
    (∀ c m, fs w' !! path = Some c → is_Some (ck_model c) →
       ∃ r m' w2,
         load_ckpt path (Some m) None None true w' = Ok ((r, (Some m', None, None)), w2)) ∧
    (∀ c m, fs w' !! path = Some c → ck_model c = None →
       fs w !! path = Some c ∧
       load_ckpt path (Some m) None None true w' = Raise (KeyError "model")).
Proof.
  intros path Hok Hn.
  pose proof (distill_loop_run teacher student train_dl val_dl device distributed
                start_epoch cfg a w Hok Hn) as Hloop. cbv zeta in Hloop.
  do 2 eexists. split; [exact Hloop|].
  set (w' := loop_world _ _ _ _ _ _ _ _ _ _).
  assert (fs w' = match loop_saved train_dl val_dl cfg a (main_process w)
                          (range start_epoch (epoch (train cfg)))
                          (setup_state teacher student cfg (fs w !! path)) with
                  | Some c => <[path := c]> (fs w)
                  | None => fs w
                  end) as Hfs by (subst w'; by rewrite fs_loop_world).
  assert (fs w' !! path = fs w !! path ∨
          ∃ c, fs w' !! path = Some c ∧ full c ∧
               ck_config c = Some cfg ∧ ck_args c = Some a) as Hfile.
  { rewrite Hfs. destruct (loop_saved _ _ _ _ _ _ _) as [c|] eqn:E; [|by left].
    right. exists c. rewrite lookup_insert_eq. split; [done|].
    destruct (loop_saved_best _ _ _ _ _ _ _ _ E) as (_ & _ & _ & _ & _ & _ & Hf).
    by apply loop_saved_complete in E as (_ & ? & ?). }
  assert (ckpt_ok (fs w' !! path)) as Hok'.
  { destruct Hfile as [->|(c & -> & Hf & _)]; [done|]. apply Hf. }
  split.
  { intros p Hp. rewrite Hfs. destruct (loop_saved _ _ _ _ _ _ _); [|done].
    by apply lookup_insert_ne. }
  split; [exact Hfile|]. split; [|split].
  - intros t2 s2. do 2 eexists. by apply distill_setup_run.
  - intros c m Hc Hmod.
    destruct (load_model_run path m w') as (r & w2 & Hload & _); [|by eauto].
    rewrite Hc. split; [exact Hmod|]. by rewrite Hc in Hok'.
  - intros c m Hc Hnone.
    destruct Hfile as [Heq|(c' & Hc' & Hf & _)].
    + split; [by rewrite <- Heq|]. apply (load_ckpt_raises path (Some m) None None true w' c).
      * exact Hc.
      * unfold first_missing, entries_read. cbn. by rewrite Hnone.
    + rewrite Hc in Hc'. injection Hc' as <-. destruct Hf as (_ & [sd Hsd] & _). congruence.
Qed.

(** ** [get_model] *)

Lemma get_model_run {ModelParams : Type}
    (zoo : string → option (ModelParams → nn_model))
    (convert_sync_batchnorm : nn_model → nn_model)
    (mc : model_config) device distributed sync construct w :
  let built :=
    if distributed && sync then convert_sync_batchnorm (construct (model_params mc))
    else construct (model_params mc) in
  zoo (model_type mc) = Some construct →
  get_model zoo convert_sync_batchnorm mc device distributed sync w =
    match load_ckpt (model_ckpt mc) (Some built) None None true w with
    | Ok ((_, (loaded, _, _)), w') => Ok (default built loaded, w')
    | Raise e => Raise e
    end.
Proof.
  intros built Hzoo. unfold get_model, mbind, M_bind, getitem. rewrite Hzoo.
  cbn [mret M_ret]. fold built.
  by destruct (load_ckpt _ _ _ _ _ _) as [[[r [[l o] s]] w']|].
Qed.

(** X8: without a file at [model_config['ckpt']], [get_model] returns the model
    as its constructor built it (converted to synchronised batch norm when
    the run is distributed and [sync_bn] is set): the missing checkpoint is
    reported by a printed line only, and nothing is read. *)
Theorem get_model_without_ckpt {ModelParams : Type}
    (zoo : string → option (ModelParams → nn_model))
    (convert_sync_batchnorm : nn_model → nn_model)
    (mc : model_config) device distributed sync construct w :
  let built :=
    if distributed && sync then convert_sync_batchnorm (construct (model_params mc))
    else construct (model_params mc) in
  zoo (model_type mc) = Some construct →
  fs w !! model_ckpt mc = None →
  ∃ w',
    get_model zoo convert_sync_batchnorm mc device distributed sync w = Ok (built, w') ∧
    fs w' = fs w ∧ trace w' = trace w ∧
    stdout w' = stdout w ++ [MsgCkptNotFound (model_ckpt mc)].
Proof.
  intros built Hzoo Hnone. rewrite (get_model_run _ _ _ _ _ _ construct) by done.
  rewrite load_ckpt_missing by done.
  eexists. split; [reflexivity|]. cbn. by rewrite app_nil_r.
Qed.

(** X9: with a file there, [get_model] loads the stored model state into the
    model it built, always strictly, whatever the device.  The file must
    also hold 'config' and 'args', which [get_model] has no use for: the
    first of 'model', 'config', 'args' it lacks is the key of the KeyError
    raised. *)
Theorem get_model_with_ckpt {ModelParams : Type}
    (zoo : string → option (ModelParams → nn_model))
    (convert_sync_batchnorm : nn_model → nn_model)
    (mc : model_config) device distributed sync construct w c :
  let built :=
    if distributed && sync then convert_sync_batchnorm (construct (model_params mc))
    else construct (model_params mc) in
  zoo (model_type mc) = Some construct →
  fs w !! model_ckpt mc = Some c →
  match first_missing (entries_read true false false c) with
  | Some k =>
      get_model zoo convert_sync_batchnorm mc device distributed sync w =
        Raise (KeyError k)
  | None =>
      ∃ sd w',
        ck_model c = Some sd ∧
        get_model zoo convert_sync_batchnorm mc device distributed sync w =
          Ok (load_state_dict sd true built, w') ∧
        fs w' = fs w ∧ trace w' = trace w ++ [EvTorchLoad (model_ckpt mc)]
  end.
Proof.
  intros built Hzoo Hc. rewrite (get_model_run _ _ _ _ _ _ construct) by done.
  fold built. destruct (first_missing _) as [k|] eqn:E.
  - by erewrite load_ckpt_raises.
  - apply first_missing_none in E as (Hm & _ & _ & [cf Hcf] & [ar Har]).
    destruct Hm as [sd Hsd]; [done|].
    exists sd. eexists. split; [done|].
    erewrite load_ckpt_run; [|exact Hc|exact Hcf|exact Har|by eauto|by intros [? ?]..].
    cbn. rewrite Hsd. cbn. done.
Qed.

(** ** [main] *)

(** [main] in terms of what it builds. *)
Lemma main_body_run env a w :
  let cfg := main_config env a in
  let device := main_device env a in
  let test_dl := (main_loaders env a).2 in
  main_body env a w =
    (print (MsgTitle (args_repr env a));;
     '(teacher, student) ←
       (if negb (test_only a) then
          st ← distill (main_teacher env a) (main_student env a)
                 (main_loaders env a).1.1 (main_loaders env a).1.2 device
                 (main_distributed env a) (arg_start_epoch a) cfg a;
          '(_, (loaded, _, _)) ← load_ckpt (mimic_model_ckpt cfg)
                                   (Some (without_ddp (student_model (st_box st))))
                                   None None true;
          mret (teacher_model (st_box st), into_wrapper (student_model (st_box st)) loaded)
        else mret (main_teacher env a, main_student env a));
     teacher ←
       (if negb (student_only a) then
          '(_, m) ← evaluate teacher test_dl device 1000 "Test" (Some (teacher_title env a));
          mret m
        else mret teacher);
     '(_, student) ← evaluate student test_dl device 1000 "Test"
                       (Some (student_title env a));
     mret (teacher, student))
      (if init_process_group env (world_size a) (dist_url a)
       then with_process_group w else w).
Proof.
  cbv zeta. unfold main_body.
  unfold mbind at 1, M_bind at 1, call_init_distributed_mode at 1.
  generalize (if init_process_group env (world_size a) (dist_url a)
              then with_process_group w else w).
  clear w. intros w.
  unfold main_teacher, main_student, main_loaders, teacher_title,
    student_title, main_device, main_config, main_distributed.
  destruct (get_data_loaders _ _ _) as [[train_dl val_dl] test_dl].
  destruct (get_org_model _ _ _) as [teacher ty]. cbn [fst snd].
  assert (∀ teacher student,
    (print (MsgTitle (args_repr env a));;
     '(teacher_model, student_model) ←
       (if negb (test_only a) then
          st ← distill teacher student train_dl val_dl
                 (if cuda_is_available env then arg_device a else "cpu")
                 (init_distributed_mode env (world_size a) (dist_url a))
                 (arg_start_epoch a) (load_yaml_file env (arg_config a)) a;
          let '(DistillationBox teacher_model student_model _) := st_box st in
          '(_, (loaded, _, _)) ← load_ckpt
                                   (mimic_model_ckpt (load_yaml_file env (arg_config a)))
                                   (Some (without_ddp student_model)) None None true;
          mret (teacher_model, into_wrapper student_model loaded)
        else mret (teacher, student));
     teacher_model ←
       (if negb (student_only a) then
          '(_, m) ← evaluate teacher_model test_dl
                      (if cuda_is_available env then arg_device a else "cpu") 1000 "Test"
                      (Some ("[Teacher: " +:+ ty +:+ "]"));
          mret m
        else mret teacher_model);
     '(_, student_model) ← evaluate student_model test_dl
                             (if cuda_is_available env then arg_device a else "cpu")
                             1000 "Test"
                             (Some ("[Student: " +:+
                                    mimic_model_type env (load_yaml_file env (arg_config a))
                                    +:+ "]"));
     mret (teacher_model, student_model)) w =
    (print (MsgTitle (args_repr env a));;
     '(teacher_model, student_model) ←
       (if negb (test_only a) then
          st ← distill teacher student train_dl val_dl
                 (if cuda_is_available env then arg_device a else "cpu")
                 (init_distributed_mode env (world_size a) (dist_url a))
                 (arg_start_epoch a) (load_yaml_file env (arg_config a)) a;
          '(_, (loaded, _, _)) ← load_ckpt
                                   (mimic_model_ckpt (load_yaml_file env (arg_config a)))
                                   (Some (without_ddp (student_model (st_box st))))
                                   None None true;
          mret (teacher_model (st_box st), into_wrapper (student_model (st_box st)) loaded)
        else mret (teacher, student));
     teacher_model ←
       (if negb (student_only a) then
          '(_, m) ← evaluate teacher_model test_dl
                      (if cuda_is_available env then arg_device a else "cpu") 1000 "Test"
                      (Some ("[Teacher: " +:+ ty +:+ "]"));
          mret m
        else mret teacher_model);
     '(_, student_model) ← evaluate student_model test_dl
                             (if cuda_is_available env then arg_device a else "cpu")
                             1000 "Test"
                             (Some ("[Student: " +:+
                                    mimic_model_type env (load_yaml_file env (arg_config a))
                                    +:+ "]"));
     mret (teacher_model, student_model)) w) as Hbody.
  { intros t s. unfold mbind, M_bind, print. cbv beta.
    destruct (test_only a); cbn [negb]; [reflexivity|].
    destruct (distill _ _ _ _ _ _ _ _ _ _) as [[st w1]|]; [|reflexivity].
    by destruct (st_box st). }
  destruct (apex a).
  - destruct (amp_initialize _ _ _ _) as [student o]. cbn [fst snd]. apply Hbody.
  - apply Hbody.
Qed.

(** X10: with [-test_only], [main] neither trains nor calls [load_ckpt]: the
    models are tested as they were built.  Its calls are those of the
    evaluation of the teacher on the test set (left out with
    [-student_only]) and then of the student; no file is written. *)
Theorem main_test_only env a w :
  let test_dl := (main_loaders env a).2 in
  test_only a = true →
  check_apex env a = None →
  (0 < num_samples (all_batches test_dl))%nat →
  ∃ w',
    main env a w =
      Ran (Ok ((if student_only a then main_teacher env a
                else set_training false (main_teacher env a),
                set_training false (main_student env a)), w')) ∧
    fs w' = fs w ∧
    trace w' = trace w ++ (if student_only a then [] else test_events test_dl) ++
                 test_events test_dl ∧
    stdout w' = stdout w ++ [MsgTitle (args_repr env a)] ++
                  (if student_only a then []
                   else test_lines (teacher_title env a) (main_teacher env a) test_dl) ++
                  test_lines (student_title env a) (main_student env a) test_dl.
Proof.
  intros test_dl Ht Hcheck Hn. unfold main. rewrite Hcheck, main_body_run. cbv zeta.
  fold test_dl. rewrite Ht. cbn [negb].
  set (w0 := if init_process_group env (world_size a) (dist_url a)
             then with_process_group w else w).
  assert (fs w0 = fs w ∧ trace w0 = trace w ∧ stdout w0 = stdout w) as (Hf & Htr & Hs)
    by (subst w0; by destruct (init_process_group _ _ _)).
  clearbody w0.
  unfold mbind, M_bind, mret, M_ret, print. cbv beta iota.
  destruct (student_only a); cbn [negb]; cbv beta iota.
  - rewrite evaluate_ok by done. cbv beta iota zeta.
    eexists. split; [reflexivity|]. unfold test_events, test_lines.
    cbn [fs trace stdout extend]. rewrite Hf, Htr, Hs, ?app_nil_r, <- ?app_assoc.
    repeat split; reflexivity.
  - rewrite evaluate_ok by done. cbv beta iota zeta.
    rewrite evaluate_ok by done. cbv beta iota zeta.
    eexists. split; [reflexivity|]. unfold test_events, test_lines.
    cbn [fs trace stdout extend]. rewrite Hf, Htr, Hs, ?app_nil_r, <- ?app_assoc.
    repeat split; reflexivity.
Qed.

(** X11: without [-test_only], and with the process group initialised (or
    [distill] raises at its barrier), the student [main] tests is not the
    student of the last epoch: after [distill], the model state stored in
    the checkpoint file is loaded into it (strictly).  The file is the one
    on the shared disk after the barrier: a file written by another process
    is the one loaded; on the main process, with no other process writing
    the file, it is the checkpoint of the epoch that reached the best
    validation accuracy, holding the student as that epoch left it, or the
    file found at the start when no epoch was saved.  Only with no file at
    all is the student tested as training left it. *)
Theorem main_tests_stored_student env a w :
  let cfg := main_config env a in
  let path := mimic_model_ckpt cfg in
  let train_dl := (main_loaders env a).1.1 in
  let val_dl := (main_loaders env a).1.2 in
  let test_dl := (main_loaders env a).2 in
  let w0 := main_start env a w in
  let i := log_interval (interval (train cfg)) (Z.of_nat (length (batches train_dl))) in
  let body := distill_epoch train_dl val_dl (main_device env a) (main_distributed env a)
                cfg a path i in
  let es := range (arg_start_epoch a) (epoch (train cfg)) in
  test_only a = false →
  check_apex env a = None →
  process_group w0 = true →
  (∀ c, fs w !! path = Some c ∨ peer_writes w !! path = Some c → complete c) →
  (0 < num_samples (all_batches val_dl))%nat →
  (0 < num_samples (all_batches test_dl))%nat →
  ∃ st0 ws st wl w1 w' out,
    distill_setup (main_teacher env a) (main_student env a) cfg w0 = Ok (st0, ws) ∧
    for_each es st0 body ws = Ok (st, wl) ∧
    stdout wl = stdout ws ++ out ∧
    distill (main_teacher env a) (main_student env a) train_dl val_dl
      (main_device env a) (main_distributed env a) (arg_start_epoch a) cfg a w0 =
      Ok (st, w1) ∧
    fs w1 = peer_writes w ∪ fs wl ∧
    main env a w =
      Ran (Ok ((if student_only a then teacher_model (st_box st)
                else set_training false (teacher_model (st_box st)),
                set_training false (reloaded (student_model (st_box st)) (fs w1 !! path))),
               w')) ∧
    fs w' = fs w1 ∧
    trace w' = trace w1 ++ (if fs w1 !! path is Some _ then [EvTorchLoad path] else []) ++
                 (if student_only a then [] else test_events test_dl) ++
                 test_events test_dl ∧
    (* the file another process has written is the one loaded *)
    (∀ c, peer_writes w !! path = Some c → fs w1 !! path = Some c) ∧
    (* the main process, when no other process writes the file *)
    (main_process w = true → peer_writes w !! path = None →
     (Exists (λ x, (0 < x)%Q) (val_accuracies out) →
      ∃ c k stk wk,
        fs w1 !! path = Some c ∧
        for_each (take (S k) es) st0 body ws = Ok (stk, wk) ∧
        val_accuracies out !! k = Some (best_val_top1_accuracy st) ∧
        ck_model c = Some (state_dict (without_ddp (student_model (st_box stk))))) ∧
     (Forall (λ x, (x <= 0)%Q) (val_accuracies out) → fs w1 !! path = fs w !! path)).
Proof.
  intros cfg path train_dl val_dl test_dl w0 i body es Ht Hcheck Hpg Hfile Hval Htest.
  assert (fs w0 = fs w ∧ peer_writes w0 = peer_writes w ∧ main_process w0 = main_process w)
    as (Hfs0 & Hpw0 & Hmp0).
  { subst w0. unfold main_start. by destruct (init_process_group _ _ _). }
  assert (ckpt_ok (fs w0 !! path)) as Hok.
  { rewrite Hfs0. unfold ckpt_ok. destruct (fs w !! path) as [c|] eqn:E; [|done].
    apply (Hfile c). by left. }
  pose (st0 := setup_state (main_teacher env a) (main_student env a) cfg (fs w0 !! path)).
  pose (ws := extend (setup_events path (fs w0 !! path)) (setup_lines (fs w0 !! path)) w0).
  pose (st := loop_state train_dl val_dl a (main_process w0) es st0).
  pose (wl := loop_world train_dl val_dl (main_distributed env a) cfg a path i es st0 ws).
  assert (distill_setup (main_teacher env a) (main_student env a) cfg w0 = Ok (st0, ws))
    as Hsetup by (by apply distill_setup_run).
  assert (for_each es st0 body ws = Ok (st, wl)) as Hloop
    by (subst body; rewrite loop_run by done; reflexivity).
  assert (distill_loop (main_teacher env a) (main_student env a) train_dl val_dl
            (main_device env a) (main_distributed env a) (arg_start_epoch a) cfg a w0 =
          Ok (st, wl)) as Hdl by (by apply distill_loop_run).
  destruct (distill_loop_group _ _ _ _ _ _ _ _ _ _ _ _ Hok Hval Hdl) as [Hpgl Hpwl].
  pose proof (distill_after_loop _ _ _ _ _ _ _ _ _ _ _ _ Hdl) as Hd.
  rewrite Hpgl, Hpg in Hd.
  pose (w1 := after_barrier wl).
  assert (fs w1 = peer_writes w ∪ fs wl) as Hfs1.
  { subst w1. cbn. by rewrite Hpwl, Hpw0. }
  assert (fs wl = match loop_saved train_dl val_dl cfg a (main_process w0) es st0 with
                  | Some c => <[path := c]> (fs ws)
                  | None => fs ws
                  end) as Hfsl by (subst wl; by rewrite fs_loop_world).
  assert (match fs w1 !! path with Some c => complete c | None => True end) as Hfile1.
  { rewrite Hfs1. destruct (peer_writes w !! path) as [c|] eqn:Ep.
    - rewrite (lookup_union_Some_l _ _ _ _ Ep). apply (Hfile c). by right.
    - rewrite lookup_union_r by done. rewrite Hfsl.
      destruct (loop_saved _ _ _ _ _ _ _) as [c|] eqn:E.
      + rewrite lookup_insert_eq. by apply loop_saved_complete in E as [? _].
      + change (fs ws) with (fs w0). rewrite Hfs0.
        destruct (fs w !! path) as [c|] eqn:Ef; [|done]. apply (Hfile c). by left. }
  destruct (load_model_run path (without_ddp (student_model (st_box st))) w1 Hfile1)
    as (r & w2 & Hload & Hfs2 & Htr2 & _).
  exists st0, ws, st, wl, w1.
  assert (∃ w',
    main env a w =
      Ran (Ok ((if student_only a then teacher_model (st_box st)
                else set_training false (teacher_model (st_box st)),
                set_training false (reloaded (student_model (st_box st)) (fs w1 !! path))),
               w')) ∧
    fs w' = fs w1 ∧
    trace w' = trace w1 ++ (if fs w1 !! path is Some _ then [EvTorchLoad path] else []) ++
                 (if student_only a then [] else test_events test_dl) ++
                 test_events test_dl) as (w' & Hmain & Hfs' & Htr').
  { unfold main. rewrite Hcheck, main_body_run. cbv zeta.
    fold cfg path train_dl val_dl test_dl. rewrite Ht. cbn [negb].
    unfold mbind at 1, M_bind at 1, print at 1.
    change (extend [] [MsgTitle (args_repr env a)] _) with w0.
    unfold mbind at 1, M_bind at 1. unfold mbind at 1, M_bind at 1.
    rewrite Hd. unfold mbind at 1, M_bind at 1. fold w1. rewrite Hload. cbn [mret M_ret].
    assert (into_wrapper (student_model (st_box st))
              (Some (match fs w1 !! path ≫= ck_model with
                     | Some sd =>
                         load_state_dict sd true (without_ddp (student_model (st_box st)))
                     | None => without_ddp (student_model (st_box st))
                     end)) = reloaded (student_model (st_box st)) (fs w1 !! path)) as ->.
    { unfold reloaded. destruct (fs w1 !! path ≫= ck_model); [done|apply into_wrapper_same]. }
    unfold mbind, M_bind, mret, M_ret. cbv beta iota.
    destruct (student_only a); cbn [negb]; cbv beta iota.
    - rewrite evaluate_ok by done. cbv beta iota zeta.
      eexists. split; [reflexivity|]. split; [exact Hfs2|].
      unfold test_events. cbn [fs trace stdout extend].
      rewrite Htr2, ?app_nil_r, <- ?app_assoc. reflexivity.
    - rewrite evaluate_ok by done. cbv beta iota zeta.
      rewrite evaluate_ok by done. cbv beta iota zeta.
      eexists. split; [reflexivity|]. split; [exact Hfs2|].
      unfold test_events. cbn [fs trace stdout extend].
      rewrite Htr2, ?app_nil_r, <- ?app_assoc. reflexivity. }
  exists w', (loop_lines train_dl val_dl a (main_process w0) es st0).
  split; [exact Hsetup|]. split; [exact Hloop|].
  split; [exact (stdout_loop_world train_dl val_dl (main_distributed env a) cfg a path i
                  es st0 ws)|].
  split; [exact Hd|]. split; [exact Hfs1|]. split; [exact Hmain|].
  split; [exact Hfs'|]. split; [exact Htr'|]. split.
  - intros c Hc. rewrite Hfs1. by apply lookup_union_Some_l.
  - intros Hm Hnone. rewrite val_accuracies_loop.
    assert (main_process ws = true) as Hms by (by rewrite <- Hm, <- Hmp0).
    assert (main_process w0 = true) as Hm0 by (by rewrite Hmp0).
    rewrite Hfs1, (lookup_union_r _ _ _ Hnone). subst st. rewrite Hm0. split.
    + intros Hex.
      destruct (loop_best_file train_dl val_dl (main_device env a) (main_distributed env a)
                  cfg a path i es st0 ws Hval Hms Hex)
        as (c & Hfs & Hb & _ & k & stk & wk & Hrun & Hacc & Hmod).
      exists c, k, stk, wk. split; [|by repeat split].
      fold wl in Hfs. rewrite Hfs. apply lookup_insert_eq.
    + intros Hall.
      destruct (loop_fs_main train_dl val_dl (main_distributed env a) cfg a path i es st0
                  ws Hms) as [(_ & Hfs & _)|(Hex & _)].
      * fold wl in Hfs. rewrite Hfs. change (fs ws) with (fs w0). by rewrite Hfs0.
      * destruct (Exists_lt_Forall_le _ _ Hex Hall).
Qed.

End Further.

(** * The LeNet variants *)

Lemma pooled_ge h : 16 <= h → 1 <= LeNet.pooled h.
Proof. unfold LeNet.pooled. intros. Z.div_mod_to_equations. lia. Qed.


Lemma features_plain ci n c h w :
  LeNet.sequential LeNet.on_maps
    [LeNet.Conv2d ci 6 5; LeNet.MaxPool2d 2; LeNet.Conv2d 6 16 5; LeNet.MaxPool2d 2]
    (LeNet.Shape4 n c h w) =
  if (c =? ci) && (16 <=? h) && (16 <=? w)
  then Some (LeNet.Shape4 n 16 (LeNet.pooled h) (LeNet.pooled w))
  else None.
Proof.
  unfold LeNet.sequential.
  tests; try reflexivity; try (exfalso; arith).
  f_equal. f_equal; arith.
Qed.

Lemma features_relu ci n c h w :
  LeNet.sequential LeNet.on_maps
    [LeNet.Conv2d ci 6 5; LeNet.ReLU; LeNet.MaxPool2d 2;
     LeNet.Conv2d 6 16 5; LeNet.ReLU; LeNet.MaxPool2d 2]
    (LeNet.Shape4 n c h w) =
  if (c =? ci) && (16 <=? h) && (16 <=? w)
  then Some (LeNet.Shape4 n 16 (LeNet.pooled h) (LeNet.pooled w))
  else None.
Proof.
  unfold LeNet.sequential.
  tests; try reflexivity; try (exfalso; arith).
  f_equal. f_equal; arith.
Qed.

Lemma pooled_product h w :
  16 <= h → 16 <= w →
  LeNet.pooled h * LeNet.pooled w = 25 ↔
  (32 <= h <= 35 ∧ 32 <= w <= 35) ∨
  (16 <= h <= 19 ∧ 112 <= w <= 115) ∨
  (112 <= h <= 115 ∧ 16 <= w <= 19).
Proof.
  intros Hh Hw.
  pose proof (pooled_ge h Hh) as Hp. pose proof (pooled_ge w Hw) as Hq.
  assert (LeNet.pooled h = 5 ↔ 32 <= h <= 35) as H5 by arith.
  assert (LeNet.pooled w = 5 ↔ 32 <= w <= 35) as W5 by arith.
  assert (LeNet.pooled h = 1 ↔ 16 <= h <= 19) as H1 by arith.
  assert (LeNet.pooled w = 1 ↔ 16 <= w <= 19) as W1 by arith.
  assert (LeNet.pooled h = 25 ↔ 112 <= h <= 115) as H25 by arith.
  assert (LeNet.pooled w = 25 ↔ 112 <= w <= 115) as W25 by arith.
  rewrite <- H5, <- W5, <- H1, <- W1, <- H25, <- W25.
  generalize dependent (LeNet.pooled w). generalize dependent (LeNet.pooled h).
  intros p Hp _ _ _ q Hq _ _ _. split.
  - intros Hpq. assert (p <= 25) by nia.
    assert (p = 1 ∨ p = 2 ∨ p = 3 ∨ p = 4 ∨ p = 5 ∨ 6 <= p <= 24 ∨ p = 25) as Hcases by lia.
    destruct Hcases as [E|[E|[E|[E|[E|[E|E]]]]]]; try subst p; try lia.
    assert (q <= 4) by nia. assert (q = 1 ∨ q = 2 ∨ q = 3 ∨ q = 4) as Hq' by lia.
    destruct Hq' as [E'|[E'|[E'|E']]]; subst q; lia.
  - intros [[E1 E2]|[[E1 E2]|[E1 E2]]]; subst p q; reflexivity.
Qed.

Lemma LeNet5_forward_run num_classes n c h w :
  0 < n →
  LeNet.LeNet5_forward num_classes (LeNet.Shape4 n c h w) =
    if (c =? 3) && (16 <=? h) && (16 <=? w) && (LeNet.pooled h * LeNet.pooled w =? 25)
    then Some (LeNet.Shape2 n num_classes) else None.
Proof.
  intros Hn. unfold LeNet.LeNet5_forward. cbn [LeNet.features LeNet.classifier LeNet.LeNet5].
  rewrite features_relu.
  destruct (Z.eqb_spec c 3) as [->|Hc]; cbn [andb]; [|done].
  destruct (Z.leb_spec 16 h) as [Hh|Hh]; cbn [andb]; [|done].
  destruct (Z.leb_spec 16 w) as [Hw|Hw]; cbn [andb]; [|done].
  pose proof (pooled_ge h Hh) as Hp. pose proof (pooled_ge w Hw) as Hq.
  generalize dependent (LeNet.pooled w). generalize dependent (LeNet.pooled h).
  intros p Hp q Hq.
  cbn [mbind option_bind]. unfold LeNet.view_per_sample, LeNet.numel, LeNet.sequential.
  cbn [LeNet.batch_size LeNet.channels LeNet.height LeNet.width].
  assert (n * 16 * p * q = (16 * p * q) * n) as -> by ring.
  rewrite Z.div_mul by lia.
  destruct (Z.eqb_spec (16 * p * q * n) 0) as [H0|H0]; [nia|].
  tests; try done; lia.
Qed.

Lemma MnistLeNet5_forward_run n c h w :
  0 < n →
  LeNet.MnistLeNet5_forward (LeNet.Shape4 n c h w) =
    let numel := n * 16 * LeNet.pooled h * LeNet.pooled w in
    if (c =? 1) && (16 <=? h) && (16 <=? w) && (numel `mod` 400 =? 0)
    then Some (LeNet.Shape2 (numel `div` 400) 10) else None.
Proof.
  intros Hn. unfold LeNet.MnistLeNet5_forward.
  cbn [LeNet.features LeNet.classifier LeNet.MnistLeNet5].
  rewrite features_plain.
  destruct (Z.eqb_spec c 1) as [->|Hc]; cbn [andb]; [|done].
  destruct (Z.leb_spec 16 h) as [Hh|Hh]; cbn [andb]; [|done].
  destruct (Z.leb_spec 16 w) as [Hw|Hw]; cbn [andb]; [|done].
  pose proof (pooled_ge h Hh) as Hp. pose proof (pooled_ge w Hw) as Hq.
  generalize dependent (LeNet.pooled w). generalize dependent (LeNet.pooled h).
  intros p Hp q Hq.
  cbn [mbind option_bind]. unfold LeNet.view_rows_of, LeNet.numel, LeNet.sequential.
  cbn [LeNet.batch_size LeNet.channels LeNet.height LeNet.width].
  change (16 * 5 * 5) with 400.
  destruct (Z.eqb_spec (n * 16 * p * q) 0) as [H0|H0]; [nia|].
  destruct (Z.eqb_spec ((n * 16 * p * q) `mod` 400) 0) as [Hd|Hd]; cbn [orb negb]; [|done].
  tests; try done; lia.
Qed.

(** X12: [LeNet5] takes batches of three-channel images, and only of the sizes
    that leave 25 positions per channel after [features]: 32 to 35 pixels
    on each side (or 16 to 19 by 112 to 115); every other size is rejected
    by the first linear layer or by a layer of [features].  What it returns
    has one row per sample and [num_classes] columns. *)
Theorem LeNet5_accepts num_classes n c h w s :
  0 < n →
  LeNet.LeNet5_forward num_classes (LeNet.Shape4 n c h w) = Some s ↔
  c = 3 ∧ s = LeNet.Shape2 n num_classes ∧
  ((32 <= h <= 35 ∧ 32 <= w <= 35) ∨
   (16 <= h <= 19 ∧ 112 <= w <= 115) ∨
   (112 <= h <= 115 ∧ 16 <= w <= 19)).
Proof.
  intros Hn. rewrite LeNet5_forward_run by done.
  destruct (Z.eqb_spec c 3) as [->|Hc]; cbn [andb]; [|intuition congruence].
  destruct (Z.leb_spec 16 h) as [Hh|Hh]; cbn [andb]; [|split; [done|lia]].
  destruct (Z.leb_spec 16 w) as [Hw|Hw]; cbn [andb]; [|split; [done|lia]].
  rewrite <- (pooled_product h w Hh Hw).
  destruct (Z.eqb_spec (LeNet.pooled h * LeNet.pooled w) 25) as [Hpq|Hpq].
  - split; [by intros [= <-]|]. by intros (_ & -> & _).
  - split; [done|]. by intros (_ & _ & ?).
Qed.

(** X13: [MnistLeNet5] takes batches of one-channel images of at least 16 by 16
    pixels whose feature maps, all samples together, fill whole rows of 400
    values: [x.view(-1, 16 * 5 * 5)] lets the number of rows follow from
    the number of elements, so what is returned has that many rows (not
    one per sample) and 10 columns. *)
Theorem MnistLeNet5_accepts n c h w s :
  0 < n →
  LeNet.MnistLeNet5_forward (LeNet.Shape4 n c h w) = Some s ↔
  c = 1 ∧ 16 <= h ∧ 16 <= w ∧
  (n * 16 * LeNet.pooled h * LeNet.pooled w) `mod` 400 = 0 ∧
  s = LeNet.Shape2 ((n * 16 * LeNet.pooled h * LeNet.pooled w) `div` 400) 10.
Proof.
  intros Hn. rewrite MnistLeNet5_forward_run by done. cbv zeta.
  destruct (Z.eqb_spec c 1) as [->|Hc]; cbn [andb]; [|intuition congruence].
  destruct (Z.leb_spec 16 h) as [Hh|Hh]; cbn [andb]; [|split; [done|lia]].
  destruct (Z.leb_spec 16 w) as [Hw|Hw]; cbn [andb]; [|split; [done|lia]].
  destruct (Z.eqb_spec ((n * 16 * LeNet.pooled h * LeNet.pooled w) `mod` 400) 0) as [Hd|Hd].
  - split; [by intros [= <-]|]. by intros (_ & _ & _ & _ & ->).
  - split; [done|]. by intros (_ & _ & _ & ? & _).
Qed.

(** X14: on 28 by 28 images [features] leaves 256 values per sample.  A batch
    of 25 k such images goes through [MnistLeNet5] and comes out with 16 k
    rows, the values of different samples sharing rows, where [LeNet5],
    which keeps one row per sample, rejects the batch. *)
Theorem MnistLeNet5_mixes_samples k :
  0 < k →
  LeNet.MnistLeNet5_forward (LeNet.Shape4 (25 * k) 1 28 28) =
    Some (LeNet.Shape2 (16 * k) 10) ∧
  (∀ num_classes, LeNet.LeNet5_forward num_classes (LeNet.Shape4 (25 * k) 3 28 28) = None).
Proof.
  intros Hk. split; [|intros nc; by rewrite LeNet5_forward_run by lia].
  rewrite MnistLeNet5_forward_run by lia. cbv zeta.
  change (LeNet.pooled 28) with 4.
  replace (25 * k * 16 * 4 * 4) with (16 * k * 400) by ring.
  by rewrite Z.mod_mul, Z.div_mul by lia.
Qed.

(** * The claims on the small framework *)

Import Toy.

Example log_interval_examples :
  log_interval 0 100 = 5 ∧ log_interval (-1) 19 = 1 ∧ log_interval 0 0 = 1 ∧
  log_interval 7 100 = 7 ∧ log_interval 0 39 = 1 ∧ log_interval 0 40 = 2.
Proof. by vm_compute. Qed.

Example range_examples :
  range 2 5 = [2; 3; 4] ∧ range 3 3 = [] ∧ range 5 2 = [].
Proof. by vm_compute. Qed.

(** Without any sample the average is a division by zero. *)
Example evaluate_empty :
  evaluate (net 1) empty_loader "cpu" 1 "Test" None (fresh true) = Raise ZeroDivisionError.
Proof. by vm_compute. Qed.

(** Two epochs on the main process: the first reaches 1/2 and is saved, the
    second reaches 0 and is not. *)
Example distill_two_epochs :
  ∃ st w,
    distill (net 0) (net 0) train_loader val_loader "cpu" true 0 (cfg 2) cli
      (fresh true) = Ok (st, w) ∧
    stdout w = [MsgStart; MsgAcc (2 # 4) (2 # 4); MsgUpdatingCkpt 0 (2 # 4);
                MsgAcc (0 # 4) (2 # 4); MsgTrainingTime] ∧
    best_val_top1_accuracy st = (2 # 4)%Q ∧
    (fs w !! path ≫= ck_best_value) = Some (2 # 4)%Q ∧
    (fs w !! path ≫= ck_model) = Some 1.
Proof. do 2 eexists. split; [by vm_compute|]. by vm_compute. Qed.

(** The same without a process group: the loop runs and saves, and the
    barrier raises. *)
Example distill_without_process_group :
  (∃ st w,
     distill_loop (net 0) (net 0) train_loader val_loader "cpu" false 0 (cfg 2) cli
       (lonely true) = Ok (st, w) ∧
     (fs w !! path ≫= ck_model) = Some 1) ∧
  distill (net 0) (net 0) train_loader val_loader "cpu" false 0 (cfg 2) cli
    (lonely true) = Raise ProcessGroupError.
Proof. split; [do 2 eexists; split; by vm_compute|by vm_compute]. Qed.

(** Resuming from a checkpoint whose best value is 9/10: one epoch that
    reaches 1/2 replaces it. *)
Example resume_overwrites :
  ∃ st w,
    distill (net 0) (net 0) train_loader val_loader "cpu" true 0 (cfg 1) cli
      (resumed true) = Ok (st, w) ∧
    (fs (resumed true) !! path ≫= ck_best_value) = Some (9 # 10)%Q ∧
    (fs w !! path ≫= ck_best_value) = Some (2 # 4)%Q ∧
    (2 # 4 < 9 # 10)%Q.
Proof. do 2 eexists. split; [by vm_compute|]. by vm_compute. Qed.

(** A worker that is not the main process tests the student the main
    process has saved, not its own after the last epoch. *)
Example worker_tests_stored_student :
  ∃ teacher student w',
    main env_dist cli worker = Ran (Ok ((teacher, student), w')) ∧
    weights student = 1.
Proof. do 3 eexists. split; by vm_compute. Qed.

(** No file is stored in a fresh world. *)
Lemma load_ckpt_not_found_witness :
  fs (fresh true) !! path = None ∧
  ∃ w',
    load_ckpt path (Some (net 0)) None None true (fresh true) =
      Ok ((NotFound, (Some (net 0), None, None)), w') ∧
    fs w' = fs (fresh true) ∧
    stdout w' = [MsgCkptNotFound path].
Proof.
  split; [reflexivity|].
  destruct (load_ckpt_not_found path (Some (net 0)) None None true (fresh true) eq_refl)
    as (w' & Hrun & _ & _ & Hfs & _ & _ & _ & Hout).
  exists w'. split; [exact Hrun|]. split; [exact Hfs|exact Hout].
Defined.

(** Loading the earlier checkpoint into a model and an optimizer. *)
Lemma load_ckpt_found_witness :
  fs (resumed true) !! path = Some earlier ∧
  ∃ w',
    load_ckpt path (Some (net 0)) (Some 0) None true (resumed true) =
      Ok ((Loaded (9 # 10) (cfg 2) cli, (Some (net 7), Some 3, None)), w') ∧
    fs w' = fs (resumed true).
Proof.
  split; [reflexivity|].
  destruct (load_ckpt_found path (Some (net 0)) (Some 0) None true (resumed true)
              earlier (cfg 2) cli eq_refl eq_refl eq_refl)
    as (m' & o' & s' & w' & Hrun & (sd & Hsd & ->) & (sdo & Hsdo & ->) & -> & Hfs & _).
  - intros _. by eexists.
  - intros _. by eexists.
  - by intros [? ?].
  - exists w'. split; [|exact Hfs].
    injection Hsd as <-. injection Hsdo as <-. exact Hrun.
Defined.

(** An evaluation of the model with weight 1 on the validation loader. *)
Lemma evaluate_inference_only_witness :
  let w := fresh true in
  let w' := {| fs := ∅; num_threads := 4; grad_enabled := true; main_process := true;
               trace := [EvLogEvery (HeaderSplit "Test") 1;
                         EvModelForward false [0%nat; 5%nat]; EvSynchronize];
               stdout := [MsgAcc (2 # 4) (2 # 4)];
               process_group := true; peer_writes := ∅ |} in
  evaluate (net 1) val_loader "cpu" 1 "Test" None w = Ok ((2 # 4, net 1)%Q, w') ∧
  weights (net 1) = 1 ∧ training (net 1) = false ∧
  num_threads w' = num_threads w ∧ grad_enabled w' = grad_enabled w ∧ fs w' = fs w.
Proof.
  intros w w'.
  assert (evaluate (net 1) val_loader "cpu" 1 "Test" None w = Ok ((2 # 4, net 1)%Q, w'))
    as Hrun by (vm_compute; reflexivity).
  split; [exact Hrun|].
  destruct (evaluate_inference_only _ _ _ _ _ _ _ _ _ _ Hrun)
    as (_ & _ & Hw & _ & Ht & Hth & Hg & Hfs & _).
  repeat split; assumption.
Defined.

(** The data set split over two workers: one of two samples is right. *)
Lemma evaluate_accuracy_witness :
  (0 < num_samples (all_batches sharded_loader))%nat ∧
  ∃ top1 top5 w',
    evaluate (net 1) sharded_loader "cpu" 1 "Test" None (fresh true) =
      Ok ((top1, net 1), w') ∧
    (top1 == 1 # 2)%Q ∧ (top5 == 1 # 2)%Q.
Proof.
  assert (0 < num_samples (all_batches sharded_loader))%nat as Hn by (vm_compute; lia).
  split; [exact Hn|].
  destruct (evaluate_accuracy (net 1) sharded_loader "cpu" 1 "Test" None (fresh true) Hn)
    as (top1 & top5 & w' & Hrun & _ & _ & H1 & _ & H5).
  exists top1, top5, w'. split; [exact Hrun|].
  split; [rewrite H1|rewrite H5]; by vm_compute.
Defined.


(** One training batch and no configured interval: the interval is 1. *)
Lemma log_interval_at_least_one_witness :
  ckpt_ok (fs (fresh true) !! mimic_model_ckpt (cfg 2)) ∧
  (0 < num_samples (all_batches val_loader))%nat ∧
  1 <= log_interval (interval (train (cfg 2))) (Z.of_nat (length (batches train_loader))) ∧
  ∃ st' w' evs,
    distill_loop (net 0) (net 0) train_loader val_loader "cpu" true 0 (cfg 2) cli
      (fresh true) = Ok (st', w') ∧
    trace w' = trace (fresh true) ++ evs ∧
    EvLogEvery (HeaderEpoch 1) 1 ∈ evs.
Proof.
  assert (ckpt_ok (fs (fresh true) !! mimic_model_ckpt (cfg 2))) as Hok by (vm_compute; exact I).
  assert (0 < num_samples (all_batches val_loader))%nat as Hn by (vm_compute; lia).
  split; [exact Hok|]. split; [exact Hn|].
  destruct (log_interval_at_least_one (net 0) (net 0) train_loader val_loader "cpu"
              true 0 (cfg 2) cli (fresh true) Hok Hn)
    as (H1 & _ & _ & _ & st' & w' & evs & Hrun & Htr & _ & Hlogs & _).
  split; [exact H1|]. exists st', w', evs. split; [exact Hrun|]. split; [exact Htr|].
  assert (0 <= 1 < epoch (train (cfg 2))) as He by (cbn; lia).
  exact (proj1 (Hlogs 1 He)).
Defined.

(** Two epochs of a distributed run on the main process, from a fresh
    world. *)
Lemma best_checkpoint_witness :
  ckpt_ok (fs (fresh true) !! mimic_model_ckpt (cfg 2)) ∧
  (0 < num_samples (all_batches val_loader))%nat ∧
  ∃ st' w' w'' out,
    distill_loop (net 0) (net 0) train_loader val_loader "cpu" true 0 (cfg 2) cli
      (fresh true) = Ok (st', w') ∧
    stdout w' = stdout (fresh true) ++ out ∧
    length (val_accuracies out) = 2%nat ∧
    is_max (best_val_top1_accuracy st') (0%Q :: val_accuracies out) ∧
    distill (net 0) (net 0) train_loader val_loader "cpu" true 0 (cfg 2) cli
      (fresh true) = Ok (st', w'').
Proof.
  assert (ckpt_ok (fs (fresh true) !! mimic_model_ckpt (cfg 2))) as Hok by (vm_compute; exact I).
  assert (0 < num_samples (all_batches val_loader))%nat as Hn by (vm_compute; lia).
  split; [exact Hok|]. split; [exact Hn|].
  destruct (best_checkpoint (net 0) (net 0) train_loader val_loader "cpu" true 0 (cfg 2)
              cli (fresh true) Hok Hn)
    as (_ & _ & st0 & w0 & st' & w' & out & _ & Hrun & Hout & Hlen & (Hmax & _) &
        w'' & Hd & _).
  exists st', w', w'', out. split; [exact Hrun|]. split; [exact Hout|].
  split; [exact Hlen|]. split; [exact Hmax|exact Hd].
Defined.

(** C1 as stated fails.  On a process that is not the main one, an epoch
    whose validation accuracy is 1/2 leaves the running best at 0.0 and
    writes nothing.  On the main process, an epoch whose validation
    accuracy is 0.0 leaves no checkpoint on disk at all. *)
Lemma best_checkpoint_counterexample :
  (∃ st' w',
     distill (net 0) (net 0) train_loader val_loader "cpu" true 0 (cfg 1) cli
       (fresh false) = Ok (st', w') ∧
     val_accuracies (stdout w') = [(2 # 4)%Q] ∧
     best_val_top1_accuracy st' = 0%Q ∧
     (best_val_top1_accuracy st' < 2 # 4)%Q ∧
     fs w' !! path = None) ∧
  (∃ st' w',
     distill (net 0) (net 5) train_loader val_loader "cpu" true 0 (cfg 1) cli
       (fresh true) = Ok (st', w') ∧
     val_accuracies (stdout w') = [(0 # 4)%Q] ∧
     best_val_top1_accuracy st' = 0%Q ∧
     fs w' !! path = None).
Proof.
  split; do 2 eexists; (split; [by vm_compute|]); by vm_compute.
Qed.

(** The start of [distill] on the earlier checkpoint. *)
Lemma resume_forgets_best_witness :
  fs (resumed true) !! mimic_model_ckpt (cfg 1) = Some earlier ∧
  resumable earlier ∧
  (0 < num_samples (all_batches val_loader))%nat ∧
  main_process (resumed true) = true ∧
  ∃ st0 w0,
    distill_setup (net 0) (net 0) (cfg 1) (resumed true) = Ok (st0, w0) ∧
    st_optimizer st0 = 3 ∧ st_lr_scheduler st0 = 3 ∧
    student_model (st_box st0) = net 0 ∧
    best_val_top1_accuracy st0 = 0%Q ∧
    fs w0 = fs (resumed true).
Proof.
  assert (resumable earlier) as Hres by (repeat split; by eexists).
  assert (0 < num_samples (all_batches val_loader))%nat as Hn by (vm_compute; lia).
  split; [reflexivity|]. split; [exact Hres|]. split; [exact Hn|]. split; [reflexivity|].
  destruct (resume_forgets_best (net 0) (net 0) train_loader val_loader "cpu" false (cfg 1)
              cli (resumed true) earlier eq_refl Hres Hn eq_refl)
    as (st0 & w0 & sdo & sds & Hrun & Ho & Hs & Hopt & Hsch & Hstu & _ & Hbest & Hfs & _).
  exists st0, w0. split; [exact Hrun|].
  injection Ho as <-. injection Hs as <-.
  repeat split; assumption.
Defined.

(** A checkpoint saved on the main process and read back. *)
Lemma save_then_load_witness :
  main_process (fresh true) = true ∧
  ∃ w1 w2,
    save_ckpt (net 7) 3 4 (9 # 10) (cfg 2) cli path (fresh true) = Ok (tt, w1) ∧
    load_ckpt path (Some (net 0)) (Some 0) (Some 0) true w1 =
      Ok ((Loaded (9 # 10) (cfg 2) cli, (Some (net 7), Some 3, Some 4)), w2).
Proof.
  split; [reflexivity|].
  destruct (save_then_load (net 7) 3 4 (9 # 10)%Q (cfg 2) cli path (net 0) 0 0 true
              (fresh true) eq_refl)
    as (w1 & w2 & Hsave & Hload & _).
  exists w1, w2. split; [exact Hsave|exact Hload].
Defined.

(** * The further properties on the small framework *)

(** Loading an optimizer from a checkpoint that has no optimizer state. *)
Lemma load_ckpt_key_error_witness :
  fs (broken true) !! path = Some partial ∧
  load_ckpt path None (Some 0) None true (broken true) = Raise (KeyError "optimizer") ∧
  ∃ cf ar objs w',
    load_ckpt path (Some (net 0)) None None true (broken true) =
      Ok ((Loaded 0 cf ar, objs), w').
Proof.
  split; [reflexivity|]. split.
  - exact (load_ckpt_key_error path None (Some 0) None true (broken true) partial eq_refl).
  - exact (load_ckpt_key_error path (Some (net 0)) None None true (broken true) partial
             eq_refl).
Defined.

(** Resuming from that checkpoint. *)
Lemma distill_resume_key_error_witness :
  fs (broken true) !! mimic_model_ckpt (cfg 2) = Some partial ∧
  first_missing (entries_read false true true partial) = Some "optimizer" ∧
  distill (net 0) (net 0) train_loader empty_loader "cpu" false 0 (cfg 2) cli
    (broken true) = Raise (KeyError "optimizer").
Proof.
  split; [reflexivity|]. split; [reflexivity|].
  exact (distill_resume_key_error (net 0) (net 0) train_loader empty_loader "cpu" false 0
           (cfg 2) cli (broken true) partial "optimizer" eq_refl eq_refl).
Defined.

(** Two epochs are configured and the run starts at epoch 5, with an empty
    validation set. *)
Lemma distill_no_epochs_witness :
  ckpt_ok (fs (resumed true) !! mimic_model_ckpt (cfg 2)) ∧
  epoch (train (cfg 2)) <= 5 ∧
  ∃ st w' w'',
    distill_loop (net 0) (net 1) train_loader empty_loader "cpu" true 5 (cfg 2) cli
      (resumed true) = Ok (st, w') ∧
    student_model (st_box st) = net 1 ∧
    trace w' = [EvTorchLoad path] ∧
    fs w' = fs (resumed true) ∧
    distill (net 0) (net 1) train_loader empty_loader "cpu" true 5 (cfg 2) cli
      (resumed true) = Ok (st, w'') ∧
    trace w'' = trace w' ++ [EvBarrier].
Proof.
  assert (ckpt_ok (fs (resumed true) !! mimic_model_ckpt (cfg 2))) as Hok
    by (repeat split; by eexists).
  assert (epoch (train (cfg 2)) <= 5) as Hle by (vm_compute; discriminate).
  split; [exact Hok|]. split; [exact Hle|].
  destruct (distill_no_epochs (net 0) (net 1) train_loader empty_loader "cpu" true 5
              (cfg 2) cli (resumed true) Hok Hle)
    as (st & w' & Hrun & _ & Hs & _ & Htr & Hfs & w'' & Hd & Htr'' & _).
  exists st, w', w''. split; [exact Hrun|]. split; [exact Hs|]. split; [exact Htr|].
  split; [exact Hfs|]. split; [exact Hd|exact Htr''].
Defined.

(** Two epochs of a distributed run, from a fresh world. *)
Lemma distill_leaves_eval_mode_witness :
  ckpt_ok (fs (fresh true) !! mimic_model_ckpt (cfg 2)) ∧
  (0 < num_samples (all_batches val_loader))%nat ∧
  0 < epoch (train (cfg 2)) ∧
  ∃ st w' w'',
    distill_loop (net 0) (net 0) train_loader val_loader "cpu" true 0 (cfg 2) cli
      (fresh true) = Ok (st, w') ∧
    training (student_model (st_box st)) = false ∧
    training (teacher_model (st_box st)) = false ∧
    distill (net 0) (net 0) train_loader val_loader "cpu" true 0 (cfg 2) cli
      (fresh true) = Ok (st, w'').
Proof.
  assert (ckpt_ok (fs (fresh true) !! mimic_model_ckpt (cfg 2))) as Hok by (vm_compute; exact I).
  assert (0 < num_samples (all_batches val_loader))%nat as Hn by (vm_compute; lia).
  assert (0 < epoch (train (cfg 2))) as Hlt by (vm_compute; reflexivity).
  split; [exact Hok|]. split; [exact Hn|]. split; [exact Hlt|].
  destruct (distill_leaves_eval_mode (net 0) (net 0) train_loader val_loader "cpu" true 0
              (cfg 2) cli (fresh true) Hok Hn Hlt)
    as (st & w' & Hrun & Hs & Ht & w'' & Hd).
  exists st, w', w''. split; [exact Hrun|]. split; [exact Hs|]. split; [exact Ht|exact Hd].
Defined.

(** The first epoch on the main process, which saves. *)
Lemma distill_epoch_checkpoint_witness :
  (0 < num_samples (all_batches val_loader))%nat ∧
  ∃ st' w' evs,
    distill_epoch train_loader val_loader "cpu" false (cfg 2) cli path 1
      (DistillState (DistillationBox (net 0) (net 0) tt) 0 0 0%Q) 0 (fresh true) =
      Ok (st', w') ∧
    trace w' = trace (fresh true) ++ evs ∧
    st_lr_scheduler st' = 1.
Proof.
  assert (0 < num_samples (all_batches val_loader))%nat as Hn by (vm_compute; lia).
  split; [exact Hn|].
  destruct (distill_epoch_checkpoint train_loader val_loader "cpu" false (cfg 2) cli path 1
              (DistillState (DistillationBox (net 0) (net 0) tt) 0 0 0%Q) 0 (fresh true) Hn)
    as (st' & w' & evs & o & Hrun & Htr & Hstep & _).
  exists st', w', evs. split; [exact Hrun|]. split; [exact Htr|].
  by injection Hstep as -> _.
Defined.

(** Two epochs from a fresh world, on the main process: the file can be
    resumed from, and loaded into a model if the run has written it. *)
Lemma distill_leaves_complete_ckpt_witness :
  ckpt_ok (fs (fresh true) !! mimic_model_ckpt (cfg 2)) ∧
  (0 < num_samples (all_batches val_loader))%nat ∧
  ∃ st w' st2 w2,
    distill_loop (net 0) (net 0) train_loader val_loader "cpu" true 0 (cfg 2) cli
      (fresh true) = Ok (st, w') ∧
    distill_setup (net 0) (net 0) (cfg 2) w' = Ok (st2, w2) ∧
    (fs w' !! mimic_model_ckpt (cfg 2) = fs (fresh true) !! mimic_model_ckpt (cfg 2) ∨
     ∃ r m' w3,
       load_ckpt (mimic_model_ckpt (cfg 2)) (Some (net 0)) None None true w' =
         Ok ((r, (Some m', None, None)), w3)).
Proof.
  assert (ckpt_ok (fs (fresh true) !! mimic_model_ckpt (cfg 2))) as Hok by (vm_compute; exact I).
  assert (0 < num_samples (all_batches val_loader))%nat as Hn by (vm_compute; lia).
  split; [exact Hok|]. split; [exact Hn|].
  destruct (distill_leaves_complete_ckpt (net 0) (net 0) train_loader val_loader "cpu" true
              0 (cfg 2) cli (fresh true) Hok Hn)
    as (st & w' & Hrun & _ & Hfile & Hres & Hload & _).
  destruct (Hres (net 0) (net 0)) as (st2 & w2 & Hsetup).
  exists st, w', st2, w2. split; [exact Hrun|]. split; [exact Hsetup|].
  destruct Hfile as [Hsame|(c & Hc & (_ & Hmod & _) & _)].
  - left. exact Hsame.
  - right. destruct (Hload c (net 0) Hc Hmod) as (r & m' & w3 & Hl). by exists r, m', w3.
Defined.

(** No checkpoint on disk: the model is the one the constructor built. *)
Lemma get_model_without_ckpt_witness :
  zoo (model_type lenet5_config) = Some net ∧
  fs (fresh true) !! model_ckpt lenet5_config = None ∧
  ∃ w',
    get_model zoo id lenet5_config "cpu" false false (fresh true) = Ok (net 0, w') ∧
    stdout w' = [MsgCkptNotFound path].
Proof.
  split; [reflexivity|]. split; [reflexivity|].
  destruct (get_model_without_ckpt zoo id lenet5_config "cpu" false false net (fresh true)
              eq_refl eq_refl)
    as (w' & Hrun & _ & _ & Hout).
  exists w'. split; [exact Hrun|exact Hout].
Defined.

(** The earlier checkpoint on disk: its model state is loaded. *)
Lemma get_model_with_ckpt_witness :
  zoo (model_type lenet5_config) = Some net ∧
  fs (resumed true) !! model_ckpt lenet5_config = Some earlier ∧
  ∃ w',
    get_model zoo id lenet5_config "cpu" false false (resumed true) = Ok (net 7, w') ∧
    fs w' = fs (resumed true).
Proof.
  split; [reflexivity|]. split; [reflexivity|].
  destruct (get_model_with_ckpt zoo id lenet5_config "cpu" false false net (resumed true)
              earlier eq_refl eq_refl)
    as (sd & w' & Hsd & Hrun & Hfs & _).
  exists w'. split; [|exact Hfs]. injection Hsd as <-. exact Hrun.
Defined.

(** [-test_only] in a fresh world. *)
Lemma main_test_only_witness :
  test_only cli_test = true ∧
  check_apex env cli_test = None ∧
  (0 < num_samples (all_batches (main_loaders env cli_test).2))%nat ∧
  ∃ w',
    main env cli_test (fresh true) = Ran (Ok ((net 0, net 0), w')) ∧
    fs w' = fs (fresh true).
Proof.
  assert (0 < num_samples (all_batches (main_loaders env cli_test).2))%nat as Hn
    by (vm_compute; lia).
  split; [reflexivity|]. split; [reflexivity|]. split; [exact Hn|].
  destruct (main_test_only env cli_test (fresh true) eq_refl eq_refl Hn)
    as (w' & Hrun & Hfs & _).
  exists w'. split; [exact Hrun|exact Hfs].
Defined.

(** Training for two epochs under a launcher, on the main process: the
    first epoch is saved with the weight 1, the second ends with the weight
    2 and is not saved; the student tested has the weight 1. *)
Lemma main_tests_stored_student_witness :
  test_only cli = false ∧
  check_apex env_dist cli = None ∧
  process_group (main_start env_dist cli (lonely true)) = true ∧
  (0 < num_samples (all_batches (main_loaders env_dist cli).1.2))%nat ∧
  (0 < num_samples (all_batches (main_loaders env_dist cli).2))%nat ∧
  ∃ st w1 teacher student w',
    distill (main_teacher env_dist cli) (main_student env_dist cli)
      train_loader val_loader "cpu" true 0 (cfg 2) cli
      (main_start env_dist cli (lonely true)) = Ok (st, w1) ∧
    main env_dist cli (lonely true) = Ran (Ok ((teacher, student), w')) ∧
    weights (student_model (st_box st)) = 2 ∧
    weights student = 1.
Proof.
  assert (0 < num_samples (all_batches (main_loaders env_dist cli).1.2))%nat as Hval
    by (vm_compute; lia).
  assert (0 < num_samples (all_batches (main_loaders env_dist cli).2))%nat as Htest
    by (vm_compute; lia).
  assert (∀ c, fs (lonely true) !! mimic_model_ckpt (main_config env_dist cli) = Some c ∨
               peer_writes (lonely true) !! mimic_model_ckpt (main_config env_dist cli) =
                 Some c → complete c) as Hfile
    by (intros c [H|H]; vm_compute in H; discriminate).
  split; [reflexivity|]. split; [reflexivity|]. split; [reflexivity|].
  split; [exact Hval|]. split; [exact Htest|].
  destruct (main_tests_stored_student env_dist cli (lonely true) eq_refl eq_refl eq_refl
              Hfile Hval Htest)
    as (st0 & ws & st & wl & w1 & w' & out & _ & _ & _ & Hdistill & _ & Hmain & _).
  exists st, w1. do 2 eexists. exists w'.
  split; [exact Hdistill|]. split; [exact Hmain|].
  assert (distill (main_teacher env_dist cli) (main_student env_dist cli)
            train_loader val_loader "cpu" true 0 (cfg 2) cli
            (main_start env_dist cli (lonely true)) = Ok (st, w1)) as Hrun
    by exact Hdistill.
  vm_compute in Hrun. injection Hrun as <- <-. clear Hmain Hdistill.
  split; vm_compute; reflexivity.
Defined.

(** A batch of four 32 by 32 colour images, ten classes. *)
Lemma LeNet5_accepts_witness :
  0 < 4 ∧
  LeNet.LeNet5_forward 10 (LeNet.Shape4 4 3 32 32) = Some (LeNet.Shape2 4 10).
Proof.
  split; [lia|].
  apply (LeNet5_accepts 10 4 3 32 32 (LeNet.Shape2 4 10)); [lia|].
  split; [reflexivity|]. split; [reflexivity|]. left. lia.
Defined.

(** A batch of four 32 by 32 grey images. *)
Lemma MnistLeNet5_accepts_witness :
  0 < 4 ∧
  LeNet.MnistLeNet5_forward (LeNet.Shape4 4 1 32 32) = Some (LeNet.Shape2 4 10).
Proof.
  split; [lia|].
  apply (MnistLeNet5_accepts 4 1 32 32 (LeNet.Shape2 4 10)); [lia|].
  repeat split; lia.
Defined.

(** A batch of fifty 28 by 28 grey images comes out with 32 rows. *)
Lemma MnistLeNet5_mixes_samples_witness :
  0 < 2 ∧
  LeNet.MnistLeNet5_forward (LeNet.Shape4 50 1 28 28) = Some (LeNet.Shape2 32 10).
Proof.
  split; [lia|]. exact (proj1 (MnistLeNet5_mixes_samples 2 ltac:(lia))).
Defined.
